(** * CUSA: slot reservations and reminder sweep over a spreadsheet

    A shallow embedding of the reservation engine of [CUSA.py] and of the
    reminder sweep of [reminder.py], with the properties of the slot store,
    the reservation operations and the sweep stated and proved over it. *)

From Stdlib Require Import ZArith Lia Ascii String.
From stdpp Require Import base option list gmap strings pretty sorting.

Local Open Scope string_scope.

(** ** Python strings

    Text is ASCII: a character above 127 has no case and is not
    whitespace.  [strip], [upper] and [lower] follow [str.strip],
    [str.upper] and [str.lower] on that range. *)
Module PyStr.

Definition is_space (c : ascii) : bool :=
  let n := nat_of_ascii c in
  (((9 <=? n) && (n <=? 13)) || ((28 <=? n) && (n <=? 32)))%nat.

Definition lower_char (c : ascii) : ascii :=
  let n := nat_of_ascii c in
  if ((65 <=? n) && (n <=? 90))%nat then ascii_of_nat (n + 32) else c.

Definition upper_char (c : ascii) : ascii :=
  let n := nat_of_ascii c in
  if ((97 <=? n) && (n <=? 122))%nat then ascii_of_nat (n - 32) else c.

Fixpoint map_chars (f : ascii -> ascii) (s : string) : string :=
  match s with
  | EmptyString => EmptyString
  | String c s' => String (f c) (map_chars f s')
  end.

Definition lower : string -> string := map_chars lower_char.
Definition upper : string -> string := map_chars upper_char.

Fixpoint lstrip (s : string) : string :=
  match s with
  | EmptyString => EmptyString
  | String c s' => if is_space c then lstrip s' else s
  end.

Fixpoint rstrip (s : string) : string :=
  match s with
  | EmptyString => EmptyString
  | String c s' =>
      match rstrip s' with
      | EmptyString => if is_space c then EmptyString else String c EmptyString
      | r => String c r
      end
  end.

Definition strip (s : string) : string := rstrip (lstrip s).

(** Truth value of a string: non-empty. *)
Definition nonempty (s : string) : bool :=
  match s with EmptyString => false | _ => true end.

(** [a or b] on strings. *)
Definition str_or (a b : string) : string := if nonempty a then a else b.

(** [sub in s] for a one-character [sub]. *)
Fixpoint contains_char (c : ascii) (s : string) : bool :=
  match s with
  | EmptyString => false
  | String d s' => if decide (c = d) then true else contains_char c s'
  end.

(** [n] rendered in decimal on at least [width] digits ([%0<width>d]). *)
Fixpoint zfill (width : nat) (s : string) : string :=
  match width with
  | 0 => s
  | S w => if decide (String.length s < S w)%nat then zfill w ("0" +:+ s) else s
  end.

Definition dec (width n : nat) : string := zfill width (pretty n).

End PyStr.
Export PyStr.

(** ** Python values, dates and exceptions *)
Module Py.

Inductive exn :=
  | KeyError (k : string)
  | ValueError
  | AttributeError
  | TypeError
  | OverflowError
  | SMTPException.

Inductive result (A : Type) :=
  | Ok (a : A)
  | Err (e : exn).
Arguments Ok {A} a.
Arguments Err {A} e.

#[export] Instance result_ret : MRet result := fun _ a => Ok a.
#[export] Instance result_bind : MBind result := fun _ _ f m =>
  match m with Ok a => f a | Err e => Err e end.

(** [datetime.date], [datetime.time] and [datetime.datetime] by their
    attributes; a [datetime] is a date and a time of day. *)
Record date := Date { year : nat; month : nat; day : nat }.
Record time := Time { hour : nat; minute : nat; second : nat; microsecond : nat }.
Record datetime := DateTime { dt_date : date; dt_time : time }.

(** What a cell of the workbook can hold.  Numeric cells are kept when
    integral; [VNone] is the empty cell. *)
Inductive value :=
  | VNone
  | VStr (s : string)
  | VBool (b : bool)
  | VInt (n : Z)
  | VDateTime (dt : datetime)
  | VDate (d : date)
  | VTime (t : time).

#[export] Instance exn_eq_dec : EqDecision exn.
Proof. solve_decision. Defined.
#[export] Instance date_eq_dec : EqDecision date.
Proof. solve_decision. Defined.
#[export] Instance time_eq_dec : EqDecision time.
Proof. solve_decision. Defined.
#[export] Instance datetime_eq_dec : EqDecision datetime.
Proof. solve_decision. Defined.
#[export] Instance value_eq_dec : EqDecision value.
Proof. solve_decision. Defined.

(** [bool(v)]: dates and times are always true. *)
Definition truthy (v : value) : bool :=
  match v with
  | VNone => false
  | VStr s => nonempty s
  | VBool b => b
  | VInt n => negb (Z.eqb n 0)
  | VDateTime _ | VDate _ | VTime _ => true
  end.

Definition str_date (d : date) : string :=
  dec 4 (year d) +:+ "-" +:+ dec 2 (month d) +:+ "-" +:+ dec 2 (day d).

Definition str_time (t : time) : string :=
  dec 2 (hour t) +:+ ":" +:+ dec 2 (minute t) +:+ ":" +:+ dec 2 (second t)
  +:+ (if decide (microsecond t = 0) then "" else "." +:+ dec 6 (microsecond t)).

(** [str(v)]. *)
Definition py_str (v : value) : string :=
  match v with
  | VNone => "None"
  | VStr s => s
  | VBool b => if b then "True" else "False"
  | VInt n => pretty n
  | VDateTime dt => str_date (dt_date dt) +:+ " " +:+ str_time (dt_time dt)
  | VDate d => str_date d
  | VTime t => str_time t
  end.

(** [str(v or "")]. *)
Definition str_or_empty (v : value) : string :=
  if truthy v then py_str v else "".

(** [str(v or "").strip()], the text the program reads from a cell. *)
Definition cell_text (v : value) : string := strip (str_or_empty v).

(** Naive datetimes compare as the tuples of their attributes. *)
Definition dt_tuple (dt : datetime) : list nat :=
  [ year (dt_date dt); month (dt_date dt); day (dt_date dt);
    hour (dt_time dt); minute (dt_time dt); second (dt_time dt);
    microsecond (dt_time dt) ].

Fixpoint lex_compare (a b : list nat) : comparison :=
  match a, b with
  | [], [] => Eq
  | [], _ :: _ => Lt
  | _ :: _, [] => Gt
  | x :: a', y :: b' =>
      match Nat.compare x y with
      | Eq => lex_compare a' b'
      | c => c
      end
  end.

Definition dt_compare (a b : datetime) : comparison :=
  lex_compare (dt_tuple a) (dt_tuple b).

(** [a <= b] and [a < b] on datetimes. *)
Definition dt_le (a b : datetime) : bool :=
  match dt_compare a b with Gt => false | _ => true end.
Definition dt_lt (a b : datetime) : bool :=
  match dt_compare a b with Lt => true | _ => false end.

Definition is_leap (y : nat) : bool :=
  (y mod 4 =? 0)%nat && (negb (y mod 100 =? 0)%nat || (y mod 400 =? 0)%nat).

Definition days_in_month (y m : nat) : nat :=
  match m with
  | 2 => if is_leap y then 29 else 28
  | 4 | 6 | 9 | 11 => 30
  | _ => 31
  end.

Definition days_before_year (y : nat) : Z :=
  let y1 := (Z.of_nat y - 1)%Z in
  (y1 * 365 + y1 / 4 - y1 / 100 + y1 / 400)%Z.

Definition days_before_month (y m : nat) : Z :=
  (Z.of_nat (list_sum (map (days_in_month y) (seq 1 (m - 1)))))%Z.

(** [date.toordinal()]. *)
Definition toordinal (d : date) : Z :=
  (days_before_year (year d) + days_before_month (year d) (month d)
   + Z.of_nat (day d))%Z.

Definition MAXYEAR : N := 9999.

(** The calendar day after [d]. *)
Definition next_day (d : date) : date :=
  if decide (day d < days_in_month (year d) (month d))%nat
  then Date (year d) (month d) (S (day d))
  else if decide (month d < 12)%nat
       then Date (year d) (S (month d)) 1
       else Date (S (year d)) 1 1.

(** [dt + timedelta(days=1)]; past year 9999 it raises. *)
Definition plus_one_day (dt : datetime) : datetime :=
  DateTime (next_day (dt_date dt)) (dt_time dt).

Definition add_one_day (dt : datetime) : result datetime :=
  let dt' := plus_one_day dt in
  if decide (MAXYEAR < N.of_nat (year (dt_date dt')))%N then Err OverflowError
  else Ok dt'.

(** A [timedelta] is its length in microseconds. *)
Definition timedelta (hours minutes : Z) : Z :=
  ((hours * 3600 + minutes * 60) * 1000000)%Z.

Definition seconds_of_day (t : time) : Z :=
  (Z.of_nat (hour t) * 3600 + Z.of_nat (minute t) * 60 + Z.of_nat (second t))%Z.

(** [a - b] on datetimes. *)
Definition dt_sub (a b : datetime) : Z :=
  (((toordinal (dt_date a) - toordinal (dt_date b)) * 86400
    + (seconds_of_day (dt_time a) - seconds_of_day (dt_time b))) * 1000000
   + (Z.of_nat (microsecond (dt_time a)) - Z.of_nat (microsecond (dt_time b))))%Z.

(** [datetime(d.year, d.month, d.day, t.hour, t.minute, t.second)]. *)
Definition mk_datetime (d : date) (t : time) : datetime :=
  DateTime d (Time (hour t) (minute t) (second t) 0).

(** [str(uuid.uuid4())] for 128 random bits [n]: version and variant
    bits are set, then the number is printed as 32 hexadecimal digits
    grouped 8-4-4-4-12. *)
Definition hex_digit (n : N) : ascii :=
  default "0"%char (list_ascii_of_string "0123456789abcdef" !! N.to_nat n).

Fixpoint hex_of (len : nat) (n : N) : string :=
  match len with
  | 0 => ""
  | S l => hex_of l (n / 16) +:+ String (hex_digit (n mod 16)) ""
  end.

Definition uuid4_int (n : N) : N :=
  let n := (n mod 2 ^ 128)%N in
  let n := N.lor (N.ldiff n (N.shiftl 0xc000 48)) (N.shiftl 0x8000 48) in
  N.lor (N.ldiff n (N.shiftl 0xf000 64)) (N.shiftl 4 76).

Definition bits (n : N) (lo width : N) : N :=
  (N.shiftr n lo mod 2 ^ width)%N.

Definition uuid4_str (n : N) : string :=
  let i := uuid4_int n in
  hex_of 8 (bits i 96 32) +:+ "-" +:+ hex_of 4 (bits i 80 16) +:+ "-"
  +:+ hex_of 4 (bits i 64 16) +:+ "-" +:+ hex_of 4 (bits i 48 16) +:+ "-"
  +:+ hex_of 12 (bits i 0 48).

End Py.
Export Py.

(** ** The worksheet

    An openpyxl worksheet is the finite map of its cells, keyed by
    (row, column), both counted from 1.  [ws.cell(r, c).value] of a cell
    that is not there is [None]; reading is a lookup (the empty cell that
    openpyxl materialises on access holds [None] and is not written by
    [save]).  The workbook file is modelled by the worksheet it holds:
    loading returns it, saving replaces it. *)
Module Sheet.

Abbreviation worksheet := (gmap (nat * nat) value).

Definition value_at (ws : worksheet) (r c : nat) : value :=
  default VNone (ws !! (r, c)).

(** [ws.cell(r, c).value] with openpyxl's check that both indices are
    at least 1. *)
Definition cell (ws : worksheet) (r c : nat) : result value :=
  if decide (r = 0 \/ c = 0) then Err ValueError else Ok (value_at ws r c).

(** [ws.cell(r, c).value = v] *)
Definition set_value (ws : worksheet) (r c : nat) (v : value) : worksheet :=
  <[(r, c) := v]> ws.

(** [ws.max_row] and [ws.max_column]: the largest index among the cells,
    1 for an empty sheet. *)
Definition max_row (ws : worksheet) : nat :=
  foldr Nat.max 1 ((fun kv => kv.1.1) <$> map_to_list ws).

Definition max_column (ws : worksheet) : nat :=
  foldr Nat.max 1 ((fun kv => kv.1.2) <$> map_to_list ws).

Definition TRACK_HEADERS : list string :=
  ["EMAIL"; "USER_ID"; "RESERVED_AT"; "SENT_24H"; "SENT_1H"; "GCAL_UID"].

(** One step of the loop of [get_headers]. *)
Definition header_step (ws : worksheet) (header_row : nat)
    (headers : gmap string nat) (col : nat) : gmap string nat :=
  match value_at ws header_row col with
  | VStr v => if nonempty (strip v) then <[upper (strip v) := col]> headers
              else headers
  | _ => headers
  end.

(** [get_headers(ws, header_row)], identical in both programs. *)
Definition get_headers (ws : worksheet) (header_row : nat)
    : result (gmap string nat) :=
  if decide (header_row = 0) then Err ValueError
  else Ok (foldl (header_step ws header_row) ∅ (seq 1 (max_column ws))).

(** [headers[name.upper()]] *)
Definition col (headers : gmap string nat) (name : string) : result nat :=
  match headers !! upper name with
  | Some c => Ok c
  | None => Err (KeyError (upper name))
  end.

(** The scan for the first header cell holding [None]:
    [while ws.cell(header_row, col).value is not None and col <= ws.max_column].
    The loop runs at most [max_column] times, which is the fuel. *)
Fixpoint first_free (ws : worksheet) (header_row : nat) (fuel col : nat) : nat :=
  match fuel with
  | 0 => col
  | S fuel' =>
      if negb (bool_decide (value_at ws header_row col = VNone))
         && bool_decide (col <= max_column ws)
      then first_free ws header_row fuel' (S col)
      else col
  end.

(** One step of [for th in TRACK_HEADERS]. *)
Definition track_step (header_row : nat) (headers : gmap string nat)
    (st : worksheet * nat) (th : string) : worksheet * nat :=
  match headers !! upper th with
  | Some _ => st
  | None => (set_value st.1 header_row st.2 (VStr th), S st.2)
  end.

(** The body shared by [ensure_tracking] (reminder.py) and
    [ensure_tracking_columns] (CUSA.py) on the loaded worksheet. *)
Definition provision (ws : worksheet) (header_row : nat) : result worksheet :=
  headers ← get_headers ws header_row;
  let col := first_free ws header_row (max_column ws) 1 in
  mret (foldl (track_step header_row headers) (ws, col) TRACK_HEADERS).1.

(** Build a sheet from rows of values, for examples. *)
Definition row_cells (r : nat) (vs : list value) : list ((nat * nat) * value) :=
  omap (fun cv : nat * value =>
          match cv.2 with VNone => None | v => Some ((r, S cv.1), v) end)
       (imap pair vs).

Definition sheet_of (rows : list (list value)) : worksheet :=
  list_to_map (mjoin (imap (fun i vs => row_cells (S i) vs) rows)).

End Sheet.
Export Sheet.

(** ** Programs with a store and exceptions

    A program runs on a store [S] (the workbook file, the outbox) and
    returns a value or raises; what it wrote before raising stays. *)
Module Prog.

Definition M (S A : Type) : Type := S -> result A * S.

#[export] Instance M_ret {S} : MRet (M S) := fun _ a s => (Ok a, s).
#[export] Instance M_bind {S} : MBind (M S) := fun _ _ f m s =>
  match m s with
  | (Ok a, s') => f a s'
  | (Err e, s') => (Err e, s')
  end.

(** A computation that does not touch the store. *)
Definition lift {S A} (r : result A) : M S A := fun s => (r, s).

(** A loop [for x in xs] threading the loop variables [acc]. *)
Fixpoint for_each {S A B} (body : B -> A -> M S B) (acc : B) (xs : list A)
    : M S B :=
  match xs with
  | [] => mret acc
  | x :: xs' => acc' ← body acc x; for_each body acc' xs'
  end.

End Prog.
Export Prog.

(** ** CUSA.py: the slot store and the reservation engine *)
Module CUSA.

(** The store is the workbook file at [EXCEL_PATH]. *)
Definition load_wb : M worksheet worksheet := fun file => (Ok file, file).
Definition save (ws : worksheet) : M worksheet unit := fun _ => (Ok tt, ws).

Definition ensure_tracking_columns (header_row : nat) : M worksheet unit :=
  ws ← load_wb;
  ws' ← lift (provision ws header_row);
  save ws'.

Definition parse_excel_date (v : value) : option date :=
  match v with
  | VDateTime dt => Some (dt_date dt)
  | VDate d => Some d
  | _ => None
  end.

Definition parse_excel_time (v : value) : option time :=
  match v with
  | VDateTime dt => Some (dt_time dt)
  | VTime t => Some t
  | _ => None
  end.

Definition slot_datetime (d : date) (t : time) : datetime := mk_datetime d t.

(** The account a session holds; [create_user] stores the names
    stripped and refuses a blank one. *)
Record User := {
  u_id : string;
  u_first_name : string;
  u_last_name : string;
  u_email : string;
}.

(** The name check of [create_user]. *)
Definition names_given (first_name last_name : string) : bool :=
  nonempty (strip first_name) && nonempty (strip last_name).

Section Listing.
(** [float(x)] on a number and on text; floats themselves are not
    modelled, [H] stands for them. *)
Context {H : Type}.
Variable float_of_int : Z -> result H.
Variable float_of_str : string -> result H.

Record Slot := {
  row : nat;
  event : string;
  location : string;
  start_dt : datetime;
  end_dt : datetime;
  hours : H;
  contact : string;
  first_name : string;
  last_name : string;
  completed : string;
  email : string;
}.

(** [float(v or 0)] *)
Definition py_float (v : value) : result H :=
  match (if truthy v then v else VInt 0) with
  | VInt n => float_of_int n
  | VBool b => float_of_int (if b then 1 else 0)
  | VStr s => float_of_str s
  | _ => Err TypeError
  end.

(** The body of the loop of [list_slots] for row [r]: [None] where the
    source continues with the next row. *)
Definition read_row (ws : worksheet) (headers : gmap string nat) (r : nat)
    : result (option Slot) :=
  c ← col headers "EVENT"; let event := value_at ws r c in
  c ← col headers "DATE"; let dval := value_at ws r c in
  c ← col headers "START TIME"; let stval := value_at ws r c in
  c ← col headers "END TIME"; let enval := value_at ws r c in
  if negb (truthy event || truthy dval || truthy stval || truthy enval)
  then mret None
  else
    let event_s := if truthy event then strip (py_str event) else "" in
    if negb (nonempty event_s) then mret None
    else
      match parse_excel_date dval, parse_excel_time stval,
            parse_excel_time enval with
      | Some d, Some stt, Some ent =>
          let start_dt := slot_datetime d stt in
          let end_dt := slot_datetime d ent in
          end_dt ← (if dt_le end_dt start_dt then add_one_day end_dt
                    else mret end_dt);
          c ← col headers "LOCATION"; let loc := cell_text (value_at ws r c) in
          c ← col headers "HOURS"; h ← py_float (value_at ws r c);
          c ← col headers "CONTACT PERSON"; let con := cell_text (value_at ws r c) in
          c ← col headers "FIRST NAME"; let fn := cell_text (value_at ws r c) in
          c ← col headers "LAST NAME"; let ln := cell_text (value_at ws r c) in
          c ← col headers "COMPLETED"; let com := cell_text (value_at ws r c) in
          c ← col headers "EMAIL"; let em := cell_text (value_at ws r c) in
          mret (Some {| row := r; event := event_s; location := loc;
                        start_dt := start_dt; end_dt := end_dt; hours := h;
                        contact := con; first_name := fn; last_name := ln;
                        completed := com; email := em |})
      | _, _, _ => mret None
      end.

(** [for r in range(header_row + 1, ws.max_row + 1)] with
    [slots.append]. *)
Fixpoint read_rows (ws : worksheet) (headers : gmap string nat)
    (rows : list nat) (slots : list Slot) : result (list Slot) :=
  match rows with
  | [] => mret slots
  | r :: rows' =>
      s ← read_row ws headers r;
      read_rows ws headers rows'
        (match s with Some s => slots ++ [s] | None => slots end)
  end.

Definition list_slots (header_row : nat) : M worksheet (list Slot) :=
  _ ← ensure_tracking_columns header_row;
  ws ← load_wb;
  headers ← lift (get_headers ws header_row);
  lift (read_rows ws headers
          (seq (S header_row) (max_row ws - header_row)) []).

(** The Signups tab: [is_taken = bool(s.first_name.strip() or
    s.last_name.strip())]. *)
Definition is_taken (s : Slot) : bool :=
  nonempty (str_or (strip (first_name s)) (strip (last_name s))).

End Listing.

(** The check of [reserve_excel_slot] on the two name cells. *)
Definition name_cells_taken (fn ln : value) : bool :=
  nonempty (str_or (cell_text fn) (cell_text ln)).

Definition reserve_excel_slot (header_row row : nat) (user : User)
    (now : datetime) : M worksheet (bool * string) :=
  _ ← ensure_tracking_columns header_row;
  ws ← load_wb;
  headers ← lift (get_headers ws header_row);
  c_fn ← lift (col headers "FIRST NAME");
  fn ← lift (cell ws row c_fn);
  c_ln ← lift (col headers "LAST NAME");
  ln ← lift (cell ws row c_ln);
  if name_cells_taken fn ln then mret (false, "That slot is already taken.")
  else
    let ws := set_value ws row c_fn (VStr (strip (u_first_name user))) in
    let ws := set_value ws row c_ln (VStr (strip (u_last_name user))) in
    c ← lift (col headers "EMAIL");
    let ws := set_value ws row c (VStr (lower (strip (u_email user)))) in
    c ← lift (col headers "USER_ID");
    let ws := set_value ws row c (VStr (u_id user)) in
    c ← lift (col headers "RESERVED_AT");
    let ws := set_value ws row c (VDateTime now) in
    c ← lift (col headers "SENT_24H");
    let ws := set_value ws row c (VBool false) in
    c ← lift (col headers "SENT_1H");
    let ws := set_value ws row c (VBool false) in
    c ← lift (col headers "GCAL_UID");
    let ws := set_value ws row c (VStr "") in
    _ ← save ws;
    mret (true, "Reserved!").

Definition cancel_excel_reservation (header_row row : nat) (email : string)
    : M worksheet (bool * string) :=
  _ ← ensure_tracking_columns header_row;
  ws ← load_wb;
  headers ← lift (get_headers ws header_row);
  c ← lift (col headers "EMAIL");
  v ← lift (cell ws row c);
  let slot_email := lower (cell_text v) in
  if negb (bool_decide (slot_email = lower (strip email)))
  then mret (false, "You can only cancel your own reservation.")
  else
    c ← lift (col headers "COMPLETED");
    let completed := cell_text (value_at ws row c) in
    if nonempty completed
    then mret (false, "This slot is marked completed. Contact an admin.")
    else
      c ← lift (col headers "FIRST NAME");
      let ws := set_value ws row c (VStr "") in
      c ← lift (col headers "LAST NAME");
      let ws := set_value ws row c (VStr "") in
      c ← lift (col headers "EMAIL");
      let ws := set_value ws row c (VStr "") in
      c ← lift (col headers "USER_ID");
      let ws := set_value ws row c (VStr "") in
      c ← lift (col headers "RESERVED_AT");
      let ws := set_value ws row c (VStr "") in
      c ← lift (col headers "SENT_24H");
      let ws := set_value ws row c (VBool false) in
      c ← lift (col headers "SENT_1H");
      let ws := set_value ws row c (VBool false) in
      c ← lift (col headers "GCAL_UID");
      let ws := set_value ws row c (VStr "") in
      _ ← save ws;
      mret (true, "Cancelled.").

(** The scan of [admin_add_slot_excel]:
    [while r <= ws.max_row], leaving at the first row whose EVENT, DATE
    and START TIME are all false.  It runs at most [max_row] times. *)
Fixpoint scan_rows (ws : worksheet) (headers : gmap string nat)
    (fuel r : nat) : result nat :=
  match fuel with
  | 0 => mret r
  | S fuel' =>
      if decide (r <= max_row ws) then
        c ← col headers "EVENT"; let ev := value_at ws r c in
        c ← col headers "DATE"; let dv := value_at ws r c in
        c ← col headers "START TIME"; let stv := value_at ws r c in
        if negb (truthy ev || truthy dv || truthy stv) then mret r
        else scan_rows ws headers fuel' (S r)
      else mret r
  end.

Definition admin_add_slot_excel (header_row : nat)
    (event location : string) (d : date) (start_t end_t : time)
    (hours : Z) (contact : string) : M worksheet (bool * string) :=
  _ ← ensure_tracking_columns header_row;
  ws ← load_wb;
  headers ← lift (get_headers ws header_row);
  r ← lift (scan_rows ws headers (max_row ws) (S header_row));
  let r := if decide (max_row ws < r) then S (max_row ws) else r in
  c ← lift (col headers "EVENT");
  let ws := set_value ws r c (VStr (strip event)) in
  c ← lift (col headers "LOCATION");
  let ws := set_value ws r c (VStr (strip location)) in
  c ← lift (col headers "DATE");
  let ws := set_value ws r c (VDateTime (DateTime d (Time 0 0 0 0))) in
  c ← lift (col headers "START TIME");
  let ws := set_value ws r c (VTime start_t) in
  c ← lift (col headers "END TIME");
  let ws := set_value ws r c (VTime end_t) in
  c ← lift (col headers "HOURS");
  let ws := set_value ws r c (VInt hours) in
  c ← lift (col headers "CONTACT PERSON");
  let ws := set_value ws r c (VStr (strip contact)) in
  c ← lift (col headers "FIRST NAME");
  let ws := set_value ws r c (VStr "") in
  c ← lift (col headers "LAST NAME");
  let ws := set_value ws r c (VStr "") in
  c ← lift (col headers "COMPLETED");
  let ws := set_value ws r c (VStr "") in
  c ← lift (col headers "EMAIL");
  let ws := set_value ws r c (VStr "") in
  c ← lift (col headers "USER_ID");
  let ws := set_value ws r c (VStr "") in
  c ← lift (col headers "RESERVED_AT");
  let ws := set_value ws r c (VStr "") in
  c ← lift (col headers "SENT_24H");
  let ws := set_value ws r c (VBool false) in
  c ← lift (col headers "SENT_1H");
  let ws := set_value ws r c (VBool false) in
  c ← lift (col headers "GCAL_UID");
  let ws := set_value ws r c (VStr "") in
  _ ← save ws;
  mret (true, "Added slot at row " +:+ pretty r +:+ ".").

End CUSA.

(** ** reminder.py: the reminder sweep *)
Module Reminder.

Record config := {
  HEADER_ROW : nat;
  SMTP_HOST : string;
  SMTP_USER : string;
  SMTP_PASS : string;
  FROM_EMAIL : string;
}.

Definition smtp_ready (cfg : config) : bool :=
  nonempty (SMTP_HOST cfg) && nonempty (SMTP_USER cfg)
  && nonempty (SMTP_PASS cfg) && nonempty (FROM_EMAIL cfg).

Inductive reminder := R24 | R1.

#[global] Instance reminder_eq_dec : EqDecision reminder.
Proof. solve_decision. Defined.

(** One call of [send_email]: the recipient, the subject and the UID of
    the attached invite.  Body and invite text are not modelled; the row
    being swept and the kind of reminder are recorded with the call. *)
Record message := {
  msg_row : nat;
  msg_kind : reminder;
  msg_to : string;
  msg_subject : string;
  msg_uid : string;
}.

(** What the sweep acts on: the workbook file, the mail handed to the
    SMTP server, and the number of UUIDs drawn so far. *)
Record world := {
  file : worksheet;
  outbox : list message;
  drawn : nat;
}.

Definition parse_dt (dv tv : value) : result (option datetime) :=
  if negb (truthy dv) || negb (truthy tv) then mret None
  else
    d ← match dv with
        | VDateTime dt => Ok (dt_date dt)
        | VDate d => Ok d
        | _ => Err AttributeError
        end;
    t ← match tv with
        | VDateTime dt => Ok (dt_time dt)
        | VTime t => Ok t
        | _ => Err AttributeError
        end;
    mret (Some (mk_datetime d t)).

(** [a <= delta <= b] *)
Definition within (a delta b : Z) : bool := (a <=? delta)%Z && (delta <=? b)%Z.

Definition due24 (delta : Z) : bool := within (timedelta 23 30) delta (timedelta 24 30).
Definition due1 (delta : Z) : bool := within (timedelta 0 30) delta (timedelta 1 30).

Section Sweep.
(** The environment: the random bits behind the [n]-th [uuid.uuid4()]
    and whether the SMTP server takes a message ([send_email] raises
    when it does not). *)
Variable rand : nat -> N.
Variable deliver : message -> bool.

Definition uuid4 : M world string := fun w =>
  (Ok (uuid4_str (rand (drawn w))),
   {| file := file w; outbox := outbox w; drawn := S (drawn w) |}).

Definition send_email (msg : message) : M world unit := fun w =>
  if deliver msg
  then (Ok tt, {| file := file w; outbox := outbox w ++ [msg]; drawn := drawn w |})
  else (Err SMTPException, w).

Definition load_workbook : M world worksheet := fun w => (Ok (file w), w).

Definition save (ws : worksheet) : M world unit := fun w =>
  (Ok tt, {| file := ws; outbox := outbox w; drawn := drawn w |}).

Definition ensure_tracking (ws : worksheet) (header_row : nat)
    : result worksheet :=
  provision ws header_row.

(** The body of the loop of [main] for row [r]; the loop variables are
    the worksheet in memory and [sent_any]. *)
Definition sweep_row (headers : gmap string nat) (now : datetime)
    (st : worksheet * nat) (r : nat) : M world (worksheet * nat) :=
  let ws := st.1 in
  c ← lift (col headers "EVENT"); let event := value_at ws r c in
  c ← lift (col headers "DATE"); let dv := value_at ws r c in
  c ← lift (col headers "START TIME"); let stv := value_at ws r c in
  c ← lift (col headers "END TIME"); let env := value_at ws r c in
  c ← lift (col headers "EMAIL"); let email := cell_text (value_at ws r c) in
  if negb (truthy event && truthy dv && truthy stv && truthy env
           && nonempty email)
  then mret st
  else
    start_dt ← lift (parse_dt dv stv);
    end_dt ← lift (parse_dt dv env);
    match start_dt, end_dt with
    | Some start_dt, Some end_dt =>
        end_dt ← lift (if dt_le end_dt start_dt then add_one_day end_dt
                       else mret end_dt);
        c24 ← lift (col headers "SENT_24H");
        let sent24 := truthy (value_at ws r c24) in
        c1 ← lift (col headers "SENT_1H");
        let sent1 := truthy (value_at ws r c1) in
        let delta := dt_sub start_dt now in
        c ← lift (col headers "LOCATION");
        c ← lift (col headers "CONTACT PERSON");
        cu ← lift (col headers "GCAL_UID");
        let old := cell_text (value_at ws r cu) in
        uid ← (if nonempty old then mret old else uuid4);
        let ws := set_value ws r cu (VStr uid) in
        st ← (if due24 delta && negb sent24 then
                _ ← send_email {| msg_row := r; msg_kind := R24;
                                  msg_to := email;
                                  msg_subject := "24-hour reminder: " +:+ py_str event;
                                  msg_uid := uid |};
                mret (set_value ws r c24 (VBool true), S st.2)
              else mret (ws, st.2));
        if due1 delta && negb sent1 then
          _ ← send_email {| msg_row := r; msg_kind := R1;
                            msg_to := email;
                            msg_subject := "1-hour reminder: " +:+ py_str event;
                            msg_uid := uid |};
          mret (set_value st.1 r c1 (VBool true), S st.2)
        else mret st
    | _, _ => mret st
    end.

(** [main()], from the loaded configuration and the clock reading
    [now]; it returns [sent_any]. *)
Definition main (cfg : config) (now : datetime) : M world nat :=
  if negb (smtp_ready cfg) then mret 0
  else
    ws ← load_workbook;
    ws ← lift (ensure_tracking ws (HEADER_ROW cfg));
    headers ← lift (get_headers ws (HEADER_ROW cfg));
    st ← for_each (sweep_row headers now) (ws, 0)
           (seq (S (HEADER_ROW cfg)) (max_row ws - HEADER_ROW cfg));
    _ ← save st.1;
    mret st.2.

End Sweep.

End Reminder.

(** ** Vocabulary of the properties *)
Module Spec.

(** Column [c] of the header row is a header named [k]. *)
Definition names (ws : worksheet) (header_row c : nat) (k : string) : Prop :=
  exists s, value_at ws header_row c = VStr s /\ nonempty (strip s) = true
            /\ upper (strip s) = k.

(** Every header of [l] resolves in [h]. *)
Definition present (h : gmap string nat) (l : list string) : Prop :=
  Forall (fun th => is_Some (h !! upper th)) l.

(** Every tracking header resolves in [h]. *)
Definition tracked (h : gmap string nat) : Prop := present h TRACK_HEADERS.

(** The value in row [r] under the header [name]; [None] when there is
    no such header. *)
Definition field (ws : worksheet) (h : gmap string nat) (r : nat)
    (name : string) : value :=
  match h !! upper name with
  | Some c => value_at ws r c
  | None => VNone
  end.

(** The sheet [reserve_excel_slot] saves for an open slot: its eight
    writes to row [row], in the order of the source. *)
Definition reserved_sheet (ws : worksheet) (h : gmap string nat) (row : nat)
    (user : CUSA.User) (now : datetime) : worksheet :=
  let put name v ws :=
    match h !! name with Some c => set_value ws row c v | None => ws end in
  put "GCAL_UID" (VStr "")
    (put "SENT_1H" (VBool false)
      (put "SENT_24H" (VBool false)
        (put "RESERVED_AT" (VDateTime now)
          (put "USER_ID" (VStr (CUSA.u_id user))
            (put "EMAIL" (VStr (lower (strip (CUSA.u_email user))))
              (put "LAST NAME" (VStr (strip (CUSA.u_last_name user)))
                (put "FIRST NAME" (VStr (strip (CUSA.u_first_name user)))
                   ws))))))).

(** Row [r] has an event name and a date, a start time and an end time
    that [parse_excel_date] and [parse_excel_time] accept. *)
Definition listable (ws : worksheet) (h : gmap string nat) (r : nat) : bool :=
  nonempty (cell_text (field ws h r "EVENT"))
  && bool_decide (is_Some (CUSA.parse_excel_date (field ws h r "DATE")))
  && bool_decide (is_Some (CUSA.parse_excel_time (field ws h r "START TIME")))
  && bool_decide (is_Some (CUSA.parse_excel_time (field ws h r "END TIME"))).

(** The headers [list_slots] looks up. *)
Definition SLOT_HEADERS : list string :=
  ["EVENT"; "DATE"; "START TIME"; "END TIME"; "LOCATION"; "HOURS";
   "CONTACT PERSON"; "FIRST NAME"; "LAST NAME"; "COMPLETED"; "EMAIL"].

(** EVENT, DATE and START TIME of row [r] are all false: the test that
    ends the scan of [admin_add_slot_excel]. *)
Definition open_row (ws : worksheet) (h : gmap string nat) (r : nat) : bool :=
  negb (truthy (field ws h r "EVENT") || truthy (field ws h r "DATE")
        || truthy (field ws h r "START TIME")).

(** The rows of the table: those below the header row. *)
Definition table_rows (ws : worksheet) (header_row : nat) : list nat :=
  seq (S header_row) (max_row ws - header_row).

(** The first open row of the table, the row after the last one when
    there is none. *)
Definition first_open_row (ws : worksheet) (h : gmap string nat)
    (header_row : nat) : nat :=
  default (S (max_row ws))
    (head (filter (fun r => open_row ws h r = true) (table_rows ws header_row))).

(** No cell of row [r] holds a true value. *)
Definition blank_row (ws : worksheet) (r : nat) : bool :=
  forallb (fun c => negb (truthy (value_at ws r c))) (seq 1 (max_column ws)).

(** Where the specification places a new slot: after the first
    fully-blank row below the header, at the end of the table when there
    is none. *)
Definition stated_add_row (ws : worksheet) (header_row : nat) : nat :=
  match head (filter (fun r => blank_row ws r = true) (table_rows ws header_row)) with
  | Some r => S r
  | None => S (max_row ws)
  end.

(** *** The sweep *)

(** Row [r] is one the sweep considers: event, date, start and end are
    true values and the email is not blank. *)
Definition considered (ws : worksheet) (h : gmap string nat) (r : nat) : bool :=
  truthy (field ws h r "EVENT") && truthy (field ws h r "DATE")
  && truthy (field ws h r "START TIME") && truthy (field ws h r "END TIME")
  && nonempty (cell_text (field ws h r "EMAIL")).

Definition flag_header (k : Reminder.reminder) : string :=
  match k with Reminder.R24 => "SENT_24H" | Reminder.R1 => "SENT_1H" end.

Definition due (k : Reminder.reminder) (delta : Z) : bool :=
  match k with Reminder.R24 => Reminder.due24 delta | Reminder.R1 => Reminder.due1 delta end.

(** [start_dt] of row [r], when [parse_dt] returns one. *)
Definition start_of (ws : worksheet) (h : gmap string nat) (r : nat)
    : option datetime :=
  match Reminder.parse_dt (field ws h r "DATE") (field ws h r "START TIME") with
  | Ok o => o
  | Err _ => None
  end.

(** The reminder [k] of row [r] is due at [now] and its flag is not set. *)
Definition to_send (ws : worksheet) (h : gmap string nat) (now : datetime)
    (r : nat) (k : Reminder.reminder) : bool :=
  considered ws h r
  && match start_of ws h r with
     | Some start_dt => due k (dt_sub start_dt now)
     | None => false
     end
  && negb (truthy (field ws h r (flag_header k))).

(** The messages of [msgs] that are the reminder [k] of row [r]. *)
Definition sent_for (msgs : list Reminder.message) (r : nat)
    (k : Reminder.reminder) : list Reminder.message :=
  filter (fun m => Reminder.msg_row m = r /\ Reminder.msg_kind m = k) msgs.

(** What one sweep does to row [r]: [ws] is the sheet in memory before,
    [ws'] after, [msgs] the mail sent, [gen i] the [i]-th UUID and [d0]
    the number of UUIDs drawn before. *)
Definition row_swept (gen : nat -> string) (d0 : nat) (ws ws' : worksheet)
    (h : gmap string nat) (now : datetime) (r : nat)
    (msgs : list Reminder.message) : Prop :=
  (forall k, length (sent_for msgs r k) = if to_send ws h now r k then 1 else 0)
  /\ (forall k, field ws' h r (flag_header k)
                = if to_send ws h now r k then VBool true
                  else field ws h r (flag_header k))
  /\ (considered ws h r = true ->
      exists u,
        field ws' h r "GCAL_UID" = VStr u /\ u <> "" /\ strip u = u
        /\ (cell_text (field ws h r "GCAL_UID") <> "" ->
            u = cell_text (field ws h r "GCAL_UID"))
        /\ (cell_text (field ws h r "GCAL_UID") = "" ->
            exists i, d0 <= i /\ u = gen i)
        /\ forall m, m ∈ msgs -> Reminder.msg_row m = r -> Reminder.msg_uid m = u)
  /\ (considered ws h r = false -> forall c, ws' !! (r, c) = ws !! (r, c))
  /\ (forall c, h !! "GCAL_UID" <> Some c -> h !! "SENT_24H" <> Some c ->
                h !! "SENT_1H" <> Some c -> ws' !! (r, c) = ws !! (r, c)).

(** In the state [w] the sheet is provisioned with header map [h] and
    row [r] holds the calendar UID [u]. *)
Definition uid_settled (header_row : nat) (h : gmap string nat) (r : nat)
    (u : string) (w : Reminder.world) : Prop :=
  provision (Reminder.file w) header_row = Ok (Reminder.file w)
  /\ get_headers (Reminder.file w) header_row = Ok h
  /\ field (Reminder.file w) h r "GCAL_UID" = VStr u.

End Spec.
Export Spec.

(** ** A sample workbook *)
Module Sample.

Definition HEADERS : list value :=
  [VStr "EVENT"; VStr "LOCATION"; VStr "DATE"; VStr "START TIME";
   VStr "END TIME"; VStr "HOURS"; VStr "CONTACT PERSON"; VStr "First Name";
   VStr "LAST NAME"; VStr "COMPLETED"].

Definition march1 : datetime := DateTime (Date 2025 3 1) (Time 0 0 0 0).

(** Header in row 1; an open slot in row 2, nothing in row 3, a slot
    taken by Bob that ends after midnight in row 4. *)
Definition book : worksheet :=
  sheet_of
    [ HEADERS;
      [VStr "Open House"; VStr "Commons"; VDateTime march1;
       VTime (Time 10 0 0 0); VTime (Time 11 0 0 0); VInt 1; VStr "Kevin"];
      [];
      [VStr "Night Watch"; VStr "Gym"; VDateTime march1;
       VTime (Time 22 0 0 0); VTime (Time 1 0 0 0); VInt 3; VStr "Ann";
       VStr "Bob"; VStr " "] ].

Definition unwrap {A} (d : A) (r : result A) : A :=
  match r with Ok a => a | Err _ => d end.

(** The book once provisioned, and its header map. *)
Definition book' : worksheet := unwrap ∅ (provision book 1).
Definition headers : gmap string nat := unwrap ∅ (get_headers book' 1).

Definition alice : CUSA.User :=
  {| CUSA.u_id := "7"; CUSA.u_first_name := " Alice ";
     CUSA.u_last_name := "Liddell"; CUSA.u_email := " Alice@Cleary.EDU " |}.

(** The clock 24 hours and 30 seconds before the open slot starts. *)
Definition clock : datetime := DateTime (Date 2025 2 28) (Time 9 59 30 250).

(** The book after Alice reserved row 2. *)
Definition reserved : worksheet :=
  (CUSA.reserve_excel_slot 1 2 alice clock book).2.

Definition cfg : Reminder.config :=
  {| Reminder.HEADER_ROW := 1; Reminder.SMTP_HOST := "smtp.example.org";
     Reminder.SMTP_USER := "cusa"; Reminder.SMTP_PASS := "secret";
     Reminder.FROM_EMAIL := "cusa@example.org" |}.

Definition rand (i : nat) : N := N.of_nat i.
Definition deliver (m : Reminder.message) : bool := true.

Definition w0 : Reminder.world :=
  {| Reminder.file := reserved; Reminder.outbox := []; Reminder.drawn := 0 |}.

(** The state after one sweep at [clock]. *)
Definition w1 : Reminder.world := (Reminder.main rand deliver cfg clock w0).2.

(** A header row with an empty cell before FIRST NAME and EMAIL. *)
Definition gapped : worksheet :=
  sheet_of
    [ [VStr "EVENT"; VStr "LOCATION"; VStr "DATE"; VStr "START TIME";
       VStr "END TIME"; VStr "HOURS"; VStr "CONTACT PERSON"; VNone;
       VStr "FIRST NAME"; VStr "EMAIL"] ].

(** The book with a note in row 3, under LOCATION only. *)
Definition noted : worksheet := set_value book' 3 2 (VStr "TBD").

Definition gapped' : worksheet := unwrap ∅ (provision gapped 1).
Definition gapped'' : worksheet := unwrap ∅ (provision gapped' 1).

End Sample.

(** ** CUSA.py: keys of profile pictures *)
Module Keys.

(** [[a-z0-9]] *)
Definition is_key_char (c : ascii) : bool :=
  let n := nat_of_ascii c in
  (((97 <=? n) && (n <=? 122)) || ((48 <=? n) && (n <=? 57)))%nat.

(** [re.sub(r"[^a-z0-9]+", "_", s)]: every maximal run of other
    characters becomes one underscore; [in_run] tells that the run the
    scan is in has been replaced already. *)
Fixpoint sub_runs (in_run : bool) (s : string) : string :=
  match s with
  | EmptyString => EmptyString
  | String c s' =>
      if is_key_char c then String c (sub_runs false s')
      else if in_run then sub_runs true s'
      else String "_" (sub_runs true s')
  end.

(** [s.lstrip(chars)], [s.rstrip(chars)] and [s.strip(chars)] for the
    set of characters [p]. *)
Fixpoint lstrip_set (p : ascii -> bool) (s : string) : string :=
  match s with
  | EmptyString => EmptyString
  | String c s' => if p c then lstrip_set p s' else s
  end.

Fixpoint rstrip_set (p : ascii -> bool) (s : string) : string :=
  match s with
  | EmptyString => EmptyString
  | String c s' =>
      match rstrip_set p s' with
      | EmptyString => if p c then EmptyString else String c EmptyString
      | r => String c r
      end
  end.

Definition strip_set (p : ascii -> bool) (s : string) : string :=
  rstrip_set p (lstrip_set p s).

Definition is_underscore (c : ascii) : bool := bool_decide (c = "_"%char).

Definition sanitize_key (s : string) : string :=
  let s := lower (strip s) in
  let s := sub_runs false s in
  str_or (strip_set is_underscore s) "user".

(** [os.path.join(a, b)] of [posixpath]. *)
Definition starts_with_slash (s : string) : bool :=
  match s with String c _ => bool_decide (c = "/"%char) | EmptyString => false end.

Fixpoint ends_with_slash (s : string) : bool :=
  match s with
  | EmptyString => false
  | String c EmptyString => bool_decide (c = "/"%char)
  | String _ s' => ends_with_slash s'
  end.

Definition path_join (a b : string) : string :=
  if starts_with_slash b then b
  else if negb (nonempty a) || ends_with_slash a then a +:+ b
  else a +:+ "/" +:+ b.

(** [profile_pic_path(email)] for the directory [PROFILE_PIC_DIR];
    making the directory is not modelled. *)
Definition profile_pic_path (PROFILE_PIC_DIR email : string) : string :=
  path_join PROFILE_PIC_DIR (sanitize_key email +:+ ".png").

End Keys.


(** ** Calendar invites and links, identical in both programs

    The text of [%Y] is the platform's: the C library decides how a year
    below 1000 is padded.  It is the parameter [strftime_Y]. *)
Module Calendar.

(** The characters [urllib.parse.quote] never escapes. *)
Definition is_unreserved (c : ascii) : bool :=
  let n := nat_of_ascii c in
  (((65 <=? n) && (n <=? 90)) || ((97 <=? n) && (n <=? 122))
   || ((48 <=? n) && (n <=? 57)))%nat
  || bool_decide (c = "_"%char) || bool_decide (c = "."%char)
  || bool_decide (c = "-"%char) || bool_decide (c = "~"%char).

(** Safe for [quote(s)], whose [safe] defaults to the slash. *)
Definition quote_safe (c : ascii) : bool :=
  is_unreserved c || bool_decide (c = "/"%char).

Definition HEX (n : nat) : ascii :=
  default "0"%char (list_ascii_of_string "0123456789ABCDEF" !! n).

(** ['%{:02X}'.format(b)] *)
Definition escape (c : ascii) : string :=
  let n := nat_of_ascii c in
  String "%" (String (HEX (n / 16)) (String (HEX (n mod 16)) "")).

(** [quote(s)]: the text is taken byte by byte (it is ASCII). *)
Fixpoint quote (s : string) : string :=
  match s with
  | EmptyString => EmptyString
  | String c s' =>
      if quote_safe c then String c (quote s') else escape c +:+ quote s'
  end.

Definition newline : string := String "010" "".

Section Formats.
Variable strftime_Y : nat -> string.

(** [dt.strftime("%Y%m%dT%H%M%S")] *)
Definition fmt_ics_dt (dt : datetime) : string :=
  strftime_Y (year (dt_date dt)) +:+ dec 2 (month (dt_date dt))
  +:+ dec 2 (day (dt_date dt)) +:+ "T" +:+ dec 2 (hour (dt_time dt))
  +:+ dec 2 (minute (dt_time dt)) +:+ dec 2 (second (dt_time dt)).

(** [make_ics]; [now] is the clock reading of [datetime.now()]. *)
Definition make_ics (event_title : string) (start_dt end_dt : datetime)
    (location description uid : string) (now : datetime) : string :=
  String.concat newline
    [ "BEGIN:VCALENDAR";
      "VERSION:2.0";
      "PRODID:-//CUSA//EN";
      "CALSCALE:GREGORIAN";
      "METHOD:PUBLISH";
      "BEGIN:VEVENT";
      "UID:" +:+ uid;
      "DTSTAMP:" +:+ fmt_ics_dt now;
      "DTSTART:" +:+ fmt_ics_dt start_dt;
      "DTEND:" +:+ fmt_ics_dt end_dt;
      "SUMMARY:" +:+ event_title;
      "LOCATION:" +:+ location;
      "DESCRIPTION:" +:+ description;
      "END:VEVENT";
      "END:VCALENDAR";
      "" ].

Definition google_calendar_link (title : string) (start_dt end_dt : datetime)
    (location details : string) : string :=
  let dates := fmt_ics_dt start_dt +:+ "/" +:+ fmt_ics_dt end_dt in
  "https://calendar.google.com/calendar/render?action=TEMPLATE"
  +:+ "&text=" +:+ quote title
  +:+ "&dates=" +:+ quote dates
  +:+ "&location=" +:+ quote location
  +:+ "&details=" +:+ quote details.

End Formats.

End Calendar.


(** ** CUSA.py: accounts

    The table [users] of [users.db] is the list of its rows together
    with the counter SQLite keeps for an AUTOINCREMENT key.  The column
    [email] is UNIQUE: an INSERT that would repeat an email fails with
    [IntegrityError] and changes nothing.  [bcrypt] is a parameter: the
    salts it draws, its hash, which can refuse a password, and its
    check, which can refuse a hash. *)
Module Users.

Record user_row := {
  r_id : nat;
  r_first_name : string;
  r_last_name : string;
  r_email : string;
  r_password_hash : string;
  r_is_admin : Z;
}.

Record store := {
  table : list user_row;
  sequence : nat;
  salts : nat;
}.

(** What [authenticate] returns: the user of the session and the admin
    flag. *)
Record account := {
  acc_user : CUSA.User;
  acc_is_admin : bool;
}.

Definition FORCED_ADMIN_EMAILS : list string := ["jhaley627@my.cleary.edu"].

(** [SELECT ... FROM users WHERE email=?] with [fetchone()] *)
Definition select_by_email (t : list user_row) (e : string) : option user_row :=
  head (filter (fun r => r_email r = e) t).

(** The key of the next row: one more than the largest key in use or
    used before. *)
Definition next_id (s : store) : nat :=
  S (foldr Nat.max (sequence s) (r_id <$> table s)).

Section Bcrypt.
Variable gensalt : nat -> string.
Variable hashpw : string -> string -> result string.
Variable checkpw : string -> string -> result bool.

Definition draw_salt : M store string := fun s =>
  (Ok (gensalt (salts s)),
   {| table := table s; sequence := sequence s; salts := S (salts s) |}).

(** [INSERT INTO users (...) VALUES (?,?,?,?,?)] and [commit]; [false]
    stands for [sqlite3.IntegrityError]. *)
Definition insert_user (fn ln e h : string) (adm : Z) : M store bool := fun s =>
  match select_by_email (table s) e with
  | Some _ => (Ok false, s)
  | None =>
      let i := next_id s in
      (Ok true,
       {| table := table s ++ [ {| r_id := i; r_first_name := fn;
                                   r_last_name := ln; r_email := e;
                                   r_password_hash := h; r_is_admin := adm |} ];
          sequence := i; salts := salts s |})
  end.

Definition create_user (first_name last_name email password : string)
    (is_admin : bool) : M store (bool * string) :=
  if negb (nonempty (strip first_name)) || negb (nonempty (strip last_name))
  then mret (false, "First and last name are required.")
  else if negb (contains_char "@" email) || negb (contains_char "." email)
  then mret (false, "Please enter a valid email.")
  else if (String.length password <? 8)%nat
  then mret (false, "Password must be at least 8 characters.")
  else
    salt ← draw_salt;
    pw_hash ← lift (hashpw password salt);
    ok ← insert_user (strip first_name) (strip last_name) (lower (strip email))
           pw_hash (if is_admin then 1 else 0)%Z;
    mret (if ok : bool then (true, "Account created.")
          else (false, "That email is already registered.")).

Definition authenticate (email password : string) : M store (option account) :=
  fun s =>
  let email_n := lower (strip email) in
  match select_by_email (table s) email_n with
  | None => (Ok None, s)
  | Some row =>
      match checkpw password (r_password_hash row) with
      | Err e => (Err e, s)
      | Ok true =>
          let forced := bool_decide (email_n ∈ FORCED_ADMIN_EMAILS) in
          (Ok (Some {| acc_user :=
                         {| CUSA.u_id := pretty (r_id row);
                            CUSA.u_first_name := r_first_name row;
                            CUSA.u_last_name := r_last_name row;
                            CUSA.u_email := r_email row |};
                       acc_is_admin := negb (r_is_admin row =? 0)%Z || forced |}),
           s)
      | Ok false => (Ok None, s)
      end
  end.

(** [UPDATE users SET is_admin=? WHERE email=?] *)
Definition update_admin (t : list user_row) (e : string) (adm : Z)
    : list user_row :=
  (fun r => if decide (r_email r = e)
            then {| r_id := r_id r; r_first_name := r_first_name r;
                    r_last_name := r_last_name r; r_email := r_email r;
                    r_password_hash := r_password_hash r; r_is_admin := adm |}
            else r) <$> t.

Definition set_user_admin (email : string) (is_admin : bool)
    : M store (bool * string) := fun s =>
  let email_n := lower (strip email) in
  match select_by_email (table s) email_n with
  | None => (Ok (false, "User not found. They must sign up first."), s)
  | Some _ =>
      (Ok (true, "Updated."),
       {| table := update_admin (table s) email_n (if is_admin then 1 else 0)%Z;
          sequence := sequence s; salts := salts s |})
  end.

(** [ensure_forced_admins]: each forced admin that has an account is
    made admin. *)
Definition ensure_forced_admins : M store unit := fun s =>
  (Ok tt,
   {| table := foldl (fun t em =>
                 match select_by_email t em with
                 | Some _ => update_admin t em 1
                 | None => t
                 end) (table s) FORCED_ADMIN_EMAILS;
      sequence := sequence s; salts := salts s |}).

End Bcrypt.

End Users.


(** ** CUSA.py: the forum

    The tables [posts] and [replies] of [forum.db] are the lists of their
    rows, each with the counter of its AUTOINCREMENT key.  Keys are
    PRIMARY KEYs, so [ORDER BY id] is a total order on the rows of a
    table; it is computed by insertion.  Foreign keys are not enforced
    (SQLite's default), [create_reply] checks the post itself. *)
Module Forum.

Record post := {
  p_id : nat;
  p_created_at : string;
  p_author_email : string;
  p_author_name : string;
  p_title : string;
  p_body : string;
  p_locked : Z;
  p_deleted : Z;
}.

Record reply := {
  y_id : nat;
  y_post_id : nat;
  y_created_at : string;
  y_author_email : string;
  y_author_name : string;
  y_body : string;
  y_deleted : Z;
}.

Record store := {
  posts : list post;
  posts_sequence : nat;
  replies : list reply;
  replies_sequence : nat;
}.

(** A call returns or raises [ValueError] with a message. *)
Inductive outcome (A : Type) :=
  | Done (a : A)
  | Raised (message : string).
Arguments Done {A} a.
Arguments Raised {A} message.

(** [%0<w>d] *)
Definition pad (w n : nat) : string :=
  let s := pretty n in
  String.concat "" (replicate (w - String.length s) "0") +:+ s.

(** [dt.isoformat(timespec="seconds")] *)
Definition isoformat_seconds (dt : datetime) : string :=
  pad 4 (year (dt_date dt)) +:+ "-" +:+ pad 2 (month (dt_date dt)) +:+ "-"
  +:+ pad 2 (day (dt_date dt)) +:+ "T" +:+ pad 2 (hour (dt_time dt)) +:+ ":"
  +:+ pad 2 (minute (dt_time dt)) +:+ ":" +:+ pad 2 (second (dt_time dt)).

(** [ORDER BY id ASC], by insertion; [ORDER BY id DESC] is its
    reverse. *)
Section Order.
Context {A : Type}.
Variable key : A -> nat.

Fixpoint insert_by (x : A) (l : list A) : list A :=
  match l with
  | [] => [x]
  | y :: l' => if decide (key x <= key y) then x :: l else y :: insert_by x l'
  end.

Definition order_by (l : list A) : list A := foldr insert_by [] l.

End Order.

(** [LIMIT ?]: a negative limit is no limit. *)
Definition limit_to {A} (n : Z) (l : list A) : list A :=
  if decide (n < 0)%Z then l else take (Z.to_nat n) l.

Definition next_key (sequence : nat) (keys : list nat) : nat :=
  S (foldr Nat.max sequence keys).

Definition create_post (author_email author_name title body : string)
    (now : datetime) (s : store) : store :=
  let i := next_key (posts_sequence s) (p_id <$> posts s) in
  {| posts := posts s ++
       [ {| p_id := i; p_created_at := isoformat_seconds now;
            p_author_email := author_email; p_author_name := author_name;
            p_title := strip title; p_body := strip body;
            p_locked := 0; p_deleted := 0 |} ];
     posts_sequence := i;
     replies := replies s; replies_sequence := replies_sequence s |}.

Definition list_posts (limit : Z) (include_deleted : bool) (s : store)
    : list post :=
  let rows :=
    if include_deleted then posts s
    else filter (fun p => p_deleted p = 0%Z) (posts s) in
  limit_to limit (reverse (order_by p_id rows)).

(** [SELECT locked, deleted FROM posts WHERE id=?] with [fetchone()] *)
Definition select_post (s : store) (post_id : nat) : option post :=
  head (filter (fun p => p_id p = post_id) (posts s)).

Definition create_reply (post_id : nat) (author_email author_name body : string)
    (now : datetime) (s : store) : outcome unit * store :=
  match select_post s post_id with
  | None => (Raised "Post not found.", s)
  | Some p =>
      if decide (p_deleted p = 1%Z) then (Raised "Post not found.", s)
      else if decide (p_locked p = 1%Z) then (Raised "Thread is locked.", s)
      else
        let i := next_key (replies_sequence s) (y_id <$> replies s) in
        (Done tt,
         {| posts := posts s; posts_sequence := posts_sequence s;
            replies := replies s ++
              [ {| y_id := i; y_post_id := post_id;
                   y_created_at := isoformat_seconds now;
                   y_author_email := author_email;
                   y_author_name := author_name;
                   y_body := strip body; y_deleted := 0 |} ];
            replies_sequence := i |})
  end.

Definition list_replies (post_id : nat) (include_deleted : bool) (s : store)
    : list reply :=
  order_by y_id
    (filter (fun y => y_post_id y = post_id
                      /\ (include_deleted = true \/ y_deleted y = 0%Z))
            (replies s)).

Definition set_post_locked (p : post) (v : Z) : post :=
  {| p_id := p_id p; p_created_at := p_created_at p;
     p_author_email := p_author_email p; p_author_name := p_author_name p;
     p_title := p_title p; p_body := p_body p;
     p_locked := v; p_deleted := p_deleted p |}.

Definition set_post_deleted (p : post) (v : Z) : post :=
  {| p_id := p_id p; p_created_at := p_created_at p;
     p_author_email := p_author_email p; p_author_name := p_author_name p;
     p_title := p_title p; p_body := p_body p;
     p_locked := p_locked p; p_deleted := v |}.

Definition set_reply_deleted (y : reply) (v : Z) : reply :=
  {| y_id := y_id y; y_post_id := y_post_id y; y_created_at := y_created_at y;
     y_author_email := y_author_email y; y_author_name := y_author_name y;
     y_body := y_body y; y_deleted := v |}.

(** [UPDATE posts SET locked=? WHERE id=?] *)
Definition set_lock (post_id : nat) (locked : bool) (s : store) : store :=
  {| posts := (fun p => if decide (p_id p = post_id)
                        then set_post_locked p (if locked then 1 else 0)
                        else p) <$> posts s;
     posts_sequence := posts_sequence s;
     replies := replies s; replies_sequence := replies_sequence s |}.

Definition soft_delete_post (post_id : nat) (s : store) : store :=
  {| posts := (fun p => if decide (p_id p = post_id)
                        then set_post_deleted p 1 else p) <$> posts s;
     posts_sequence := posts_sequence s;
     replies := (fun y => if decide (y_post_id y = post_id)
                          then set_reply_deleted y 1 else y) <$> replies s;
     replies_sequence := replies_sequence s |}.

Definition soft_delete_reply (reply_id : nat) (s : store) : store :=
  {| posts := posts s; posts_sequence := posts_sequence s;
     replies := (fun y => if decide (y_id y = reply_id)
                          then set_reply_deleted y 1 else y) <$> replies s;
     replies_sequence := replies_sequence s |}.

End Forum.


(** ** CUSA.py: the Signups tab *)
Module Signups.

(** [sub in s] *)
Fixpoint is_substring (sub s : string) : bool :=
  String.prefix sub s
  || match s with
     | EmptyString => false
     | String _ s' => is_substring sub s'
     end.

Section Tab.
Context {H : Type}.

(** [l.sort(key=lambda x: x.start_dt)]: the sort is stable, a slot
    goes before the slots that start with it or later and were after
    it. *)
Fixpoint insert_slot (x : @CUSA.Slot H) (l : list (@CUSA.Slot H))
    : list (@CUSA.Slot H) :=
  match l with
  | [] => [x]
  | y :: l' =>
      if dt_le (CUSA.start_dt x) (CUSA.start_dt y) then x :: l
      else y :: insert_slot x l'
  end.

Definition sort_by_start (l : list (@CUSA.Slot H)) : list (@CUSA.Slot H) :=
  foldr insert_slot [] l.

(** The loop that fills [filtered]: [true] where the slot is
    appended. *)
Definition shown (upcoming_only show_taken : bool) (search : string)
    (now : datetime) (s : @CUSA.Slot H) : bool :=
  let is_taken := CUSA.is_taken s in
  if upcoming_only && dt_lt (CUSA.start_dt s) now then false
  else if negb show_taken && is_taken then false
  else if nonempty search
          && negb (is_substring (lower search)
                     (lower (CUSA.event s +:+ " " +:+ CUSA.location s
                             +:+ " " +:+ CUSA.contact s)))
  then false
  else true.

Definition filtered (upcoming_only show_taken : bool) (search : string)
    (now : datetime) (slots : list (@CUSA.Slot H)) : list (@CUSA.Slot H) :=
  sort_by_start
    (filter (fun s => shown upcoming_only show_taken search now s = true) slots).

(** [my_res], for the email of the session. *)
Definition my_res (email : string) (slots : list (@CUSA.Slot H))
    : list (@CUSA.Slot H) :=
  sort_by_start
    (filter (fun s => lower (strip (CUSA.email s)) = lower email) slots).

End Tab.

End Signups.


(** ** Further vocabulary *)
Module Terms.

(** In the header row no cell holds a value to the right of an empty
    one. *)
Definition header_prefix (ws : worksheet) (header_row : nat) : Prop :=
  forall c c', 1 <= c <= c' ->
    value_at ws header_row c = VNone -> value_at ws header_row c' = VNone.

(** The sheet [cancel_excel_reservation] saves when it accepts: its
    eight writes to row [row], in the order of the source. *)
Definition cancelled_sheet (ws : worksheet) (h : gmap string nat) (row : nat)
    : worksheet :=
  let put name v ws :=
    match h !! name with Some c => set_value ws row c v | None => ws end in
  put "GCAL_UID" (VStr "")
    (put "SENT_1H" (VBool false)
      (put "SENT_24H" (VBool false)
        (put "RESERVED_AT" (VStr "")
          (put "USER_ID" (VStr "")
            (put "EMAIL" (VStr "")
              (put "LAST NAME" (VStr "")
                (put "FIRST NAME" (VStr "") ws))))))).

(** The headers of the cells a reservation or a cancellation writes. *)
Definition reservation_headers : list string :=
  ["FIRST NAME"; "LAST NAME"] ++ TRACK_HEADERS.

(** The subject line of a reminder about an event cell. *)
Definition reminder_subject (k : Reminder.reminder) (event : value) : string :=
  (match k with
   | Reminder.R24 => "24-hour reminder: "
   | Reminder.R1 => "1-hour reminder: "
   end) +:+ py_str event.

(** The mail of [msgs] about row [r]. *)
Definition mail_of_row (msgs : list Reminder.message) (r : nat)
    : list Reminder.message :=
  filter (fun m => Reminder.msg_row m = r) msgs.

(** *** Keys *)

(** Where the scan of a key is: before the first key character, after
    a key character, or after a separator that follows one. *)
Inductive key_state := AtStart | AfterKey | AfterSep.

(** The key characters of [s], its other characters standing for one
    underscore between two groups of key characters. *)
Fixpoint key_words (st : key_state) (s : string) : string :=
  match s with
  | EmptyString => EmptyString
  | String c s' =>
      if Keys.is_key_char c then
        match st with
        | AfterSep => String "_" (String c (key_words AfterKey s'))
        | _ => String c (key_words AfterKey s')
        end
      else key_words (match st with AtStart => AtStart | _ => AfterSep end) s'
  end.

(** [s] matches [[a-z0-9]+(_[a-z0-9]+)*] from the state [st]. *)
Fixpoint key_shape (st : key_state) (s : string) : bool :=
  match s with
  | EmptyString => match st with AfterKey => true | _ => false end
  | String c s' =>
      if Keys.is_key_char c then key_shape AfterKey s'
      else match st with
           | AfterKey => Keys.is_underscore c && key_shape AfterSep s'
           | _ => false
           end
  end.

(** *** Text *)

(** [s.split(c)] for a separator of one character. *)
Fixpoint split_on (c : ascii) (s : string) : list string :=
  match s with
  | EmptyString => [EmptyString]
  | String d s' =>
      if decide (d = c) then EmptyString :: split_on c s'
      else match split_on c s' with
           | w :: ws => String d w :: ws
           | [] => [String d EmptyString]
           end
  end.

(** [s.count(c)] *)
Fixpoint count_char (c : ascii) (s : string) : nat :=
  match s with
  | EmptyString => 0
  | String d s' => (if decide (d = c) then 1 else 0) + count_char c s'
  end.

Definition is_digit (c : ascii) : bool :=
  let n := nat_of_ascii c in ((48 <=? n) && (n <=? 57))%nat.

Definition hex_value (c : ascii) : option nat :=
  let n := nat_of_ascii c in
  if ((48 <=? n) && (n <=? 57))%nat then Some (n - 48)
  else if ((65 <=? n) && (n <=? 70))%nat then Some (n - 55)
  else None.

(** The reading of percent escapes, which undoes [quote]. *)
Fixpoint unquote (s : string) : string :=
  match s with
  | EmptyString => EmptyString
  | String c s' =>
      match s' with
      | String a (String b rest) =>
          match (if decide (c = "%"%char) then Some tt else None),
                hex_value a, hex_value b with
          | Some _, Some x, Some y =>
              String (ascii_of_nat (16 * x + y)) (unquote rest)
          | _, _, _ => String c (unquote s')
          end
      | _ => String c (unquote s')
      end
  end.

(** *** Accounts *)

(** A row as [create_user] writes it: names stripped and not blank, the
    email stripped and lowered. *)
Definition row_ok (r : Users.user_row) : Prop :=
  CUSA.names_given (Users.r_first_name r) (Users.r_last_name r) = true
  /\ strip (Users.r_first_name r) = Users.r_first_name r
  /\ strip (Users.r_last_name r) = Users.r_last_name r
  /\ lower (strip (Users.r_email r)) = Users.r_email r.

(** The table keeps its UNIQUE constraint and holds such rows only. *)
Definition accounts_ok (s : Users.store) : Prop :=
  NoDup (Users.r_email <$> Users.table s) /\ Forall row_ok (Users.table s).

End Terms.
Export Terms.


(** ** More sample data *)
Module Cases.
Import Sample.

(** Carol, whose session email has no blanks around it. *)
Definition carol : CUSA.User :=
  {| CUSA.u_id := "9"; CUSA.u_first_name := "Carol";
     CUSA.u_last_name := " Shaw"; CUSA.u_email := "Carol@Cleary.EDU" |}.

(** The slot the listing has for row 2 once Alice reserved it, hours
    read as integers. *)
Definition alice_slot : @CUSA.Slot Z :=
  {| CUSA.row := 2; CUSA.event := "Open House"; CUSA.location := "Commons";
     CUSA.start_dt := DateTime (Date 2025 3 1) (Time 10 0 0 0);
     CUSA.end_dt := DateTime (Date 2025 3 1) (Time 11 0 0 0);
     CUSA.hours := 1%Z; CUSA.contact := "Kevin";
     CUSA.first_name := "Alice"; CUSA.last_name := "Liddell";
     CUSA.completed := ""; CUSA.email := "alice@cleary.edu" |}.

(** The slot of row 4, taken by Bob, who left no email. *)
Definition bob_slot : @CUSA.Slot Z :=
  {| CUSA.row := 4; CUSA.event := "Night Watch"; CUSA.location := "Gym";
     CUSA.start_dt := DateTime (Date 2025 3 1) (Time 22 0 0 0);
     CUSA.end_dt := DateTime (Date 2025 3 2) (Time 1 0 0 0);
     CUSA.hours := 3%Z; CUSA.contact := "Ann";
     CUSA.first_name := "Bob"; CUSA.last_name := "";
     CUSA.completed := ""; CUSA.email := "" |}.

(** [float] on integers only. *)
Definition float_of_int (z : Z) : result Z := Ok z.
Definition float_of_str (s : string) : result Z := Err ValueError.

(** The reserved book with text under DATE in row 2. *)
Definition garbled : worksheet := set_value reserved 2 3 (VStr "soon").

Definition w_garbled : Reminder.world :=
  {| Reminder.file := garbled; Reminder.outbox := []; Reminder.drawn := 0 |}.

(** The reserved book after Alice cancelled, and a world with it. *)
Definition cancelled : worksheet :=
  (CUSA.cancel_excel_reservation 1 2 " alice@cleary.edu" reserved).2.

Definition w_cancelled : Reminder.world :=
  {| Reminder.file := cancelled; Reminder.outbox := []; Reminder.drawn := 0 |}.

(** A stand-in for [bcrypt]: the hash is the salt, a dollar sign and
    the password. *)
Definition toy_gensalt (n : nat) : string := "salt" +:+ pretty n.
Definition toy_hashpw (pw salt : string) : result string :=
  Ok (salt +:+ "$" +:+ pw).
Definition toy_checkpw (pw h : string) : result bool :=
  match split_on "$" h with
  | [_; p] => Ok (bool_decide (p = pw))
  | _ => Err ValueError
  end.

Definition no_members : Users.store :=
  {| Users.table := []; Users.sequence := 0; Users.salts := 0 |}.

(** The accounts after Ada signed up. *)
Definition members : Users.store :=
  (Users.create_user toy_gensalt toy_hashpw " Ada" "Lovelace "
     " Ada@Cleary.edu" "analytical" false no_members).2.

(** A forum with one post and one reply to it. *)
Definition board : Forum.store :=
  (Forum.create_reply 1 "bob@cleary.edu" "Bob" " Hi " clock
     (Forum.create_post "ada@cleary.edu" "Ada" " Hello " "First post" clock
        {| Forum.posts := []; Forum.posts_sequence := 0;
           Forum.replies := []; Forum.replies_sequence := 0 |})).2.

Definition first_post : Forum.post :=
  {| Forum.p_id := 1; Forum.p_created_at := "2025-02-28T09:59:30";
     Forum.p_author_email := "ada@cleary.edu"; Forum.p_author_name := "Ada";
     Forum.p_title := "Hello"; Forum.p_body := "First post";
     Forum.p_locked := 0; Forum.p_deleted := 0 |}.

End Cases.

(** * Properties *)

(** ** Worked values *)
Example strip_ex : strip "  Ada Lovelace  " = "Ada Lovelace".
Proof. reflexivity. Qed.

Example upper_ex : upper (strip " Start Time ") = "START TIME".
Proof. reflexivity. Qed.

Example dec_ex : dec 2 7 = "07" /\ dec 4 2025 = "2025".
Proof. split; reflexivity. Qed.

Example toordinal_ex : toordinal (Date 2025 3 1) = 739311%Z.
Proof. reflexivity. Qed.

Example next_day_ex :
  next_day (Date 2024 2 28) = Date 2024 2 29 /\
  next_day (Date 2025 2 28) = Date 2025 3 1 /\
  next_day (Date 2025 12 31) = Date 2026 1 1.
Proof. repeat split; reflexivity. Qed.

Example py_str_ex :
  py_str (VDateTime (DateTime (Date 2025 3 1) (Time 9 5 0 0))) = "2025-03-01 09:05:00"
  /\ py_str (VInt (-12)) = "-12" /\ cell_text (VInt 0) = "".
Proof. repeat split; reflexivity. Qed.

Example uuid4_ex :
  uuid4_str 0 = "00000000-0000-4000-8000-000000000000" /\
  uuid4_str (2 ^ 128 - 1) = "ffffffff-ffff-4fff-bfff-ffffffffffff".
Proof. split; vm_compute; reflexivity. Qed.

(** ** Strings *)
Section strings.
Implicit Types (s t : string) (c : ascii).

Lemma append_cons c s t : String c s +:+ t = String c (s +:+ t).
Proof. done. Qed.

Lemma append_nil_l t : "" +:+ t = t.
Proof. done. Qed.

Lemma append_assoc_str s t u : (s +:+ t) +:+ u = s +:+ (t +:+ u).
Proof.
  induction s as [|c s IH]; [done |]. by rewrite !append_cons, IH.
Qed.

Lemma nonempty_true s : nonempty s = true <-> s <> "".
Proof. destruct s; simpl; split; intros; congruence. Qed.

Lemma nonempty_false s : nonempty s = false <-> s = "".
Proof. destruct s; simpl; split; intros; congruence. Qed.

Lemma str_or_nonempty s t :
  nonempty (str_or s t) = nonempty s || nonempty t.
Proof. unfold str_or. by destruct (nonempty s) eqn:E. Qed.

Lemma lstrip_head s :
  lstrip s = "" \/ exists c s', lstrip s = String c s' /\ is_space c = false.
Proof.
  induction s as [|c s IH]; simpl; [by left |].
  destruct (is_space c) eqn:E; [done | right; eauto].
Qed.

Lemma lstrip_fixed c s : is_space c = false -> lstrip (String c s) = String c s.
Proof. intros E. simpl. by rewrite E. Qed.

Lemma rstrip_cons c s :
  is_space c = false -> rstrip (String c s) = String c (rstrip s).
Proof. intros E. simpl. rewrite E. by destruct (rstrip s). Qed.

Lemma rstrip_idem s : rstrip (rstrip s) = rstrip s.
Proof.
  induction s as [|c s IH]; simpl; [done |].
  destruct (rstrip s) as [|d r] eqn:E.
  - destruct (is_space c) eqn:Ec; simpl; [done | by rewrite Ec].
  - change (rstrip (String c (String d r))) with
      (match rstrip (String d r) with
       | "" => if is_space c then "" else String c ""
       | r' => String c r'
       end).
    by rewrite IH.
Qed.

Lemma rstrip_snoc s c :
  is_space c = false -> rstrip (s +:+ String c "") = s +:+ String c "".
Proof.
  intros E. induction s as [|d s IH].
  - rewrite append_nil_l. simpl. by rewrite E.
  - rewrite append_cons. simpl. rewrite IH.
    destruct s; by rewrite ?append_nil_l, ?append_cons.
Qed.

(** [strip] is idempotent: text read from a cell and written back is
    read back the same. *)
Lemma strip_idem s : strip (strip s) = strip s.
Proof.
  unfold strip. destruct (lstrip_head s) as [-> | (c & s' & -> & E)]; [done |].
  rewrite (rstrip_cons _ _ E), (lstrip_fixed _ _ E), <- (rstrip_cons _ _ E).
  apply rstrip_idem.
Qed.

Lemma strip_fixed c s d :
  is_space c = false -> is_space d = false ->
  strip (String c (s +:+ String d "")) = String c (s +:+ String d "").
Proof.
  intros Ec Ed. unfold strip. rewrite (lstrip_fixed _ _ Ec).
  rewrite <- append_cons. apply (rstrip_snoc (String c s) d Ed).
Qed.

Lemma strip_spaces s :
  Forall (fun c => is_space c = true) (list_ascii_of_string s) -> strip s = "".
Proof.
  induction s as [|c s IH]; simpl; [done |].
  intros [Hc Hs]%Forall_cons. unfold strip. simpl. rewrite Hc. by apply IH.
Qed.
End strings.

(** ** UUIDs *)
Lemma hex_digit_not_space n : is_space (hex_digit n) = false.
Proof.
  unfold hex_digit.
  destruct (list_ascii_of_string "0123456789abcdef" !! N.to_nat n) as [c|] eqn:E;
    [| done].
  apply list_elem_of_lookup_2 in E. revert c E. apply Forall_forall.
  by repeat constructor.
Qed.

Lemma hex_of_head l n :
  exists c s, hex_of (S l) n = String c s /\ is_space c = false.
Proof.
  revert n. induction l as [|l IH]; intros n.
  - exists (hex_digit (n mod 16)), "". split; [done | apply hex_digit_not_space].
  - destruct (IH (n / 16)%N) as (c & s & E & Hc).
    change (hex_of (S (S l)) n)
      with (hex_of (S l) (n / 16) +:+ String (hex_digit (n mod 16)) "").
    rewrite E, append_cons. eauto.
Qed.

(** A generated UUID is not blank and has no surrounding whitespace. *)
Lemma uuid4_str_stripped n : strip (uuid4_str n) = uuid4_str n /\ uuid4_str n <> "".
Proof.
  unfold uuid4_str. set (i := uuid4_int n).
  destruct (hex_of_head 7 (bits i 96 32)) as (c & s & -> & Hc).
  change (hex_of 12 (bits i 0 48))
    with (hex_of 11 (bits i 0 48 / 16) +:+ String (hex_digit (bits i 0 48 mod 16)) "").
  rewrite <- !append_assoc_str, !append_cons. split; [| done].
  apply strip_fixed; [done | apply hex_digit_not_space].
Qed.

(** ** Dates *)
Lemma lex_compare_refl l : lex_compare l l = Eq.
Proof. induction l as [|x l IH]; simpl; [done |]. by rewrite Nat.compare_refl. Qed.

Lemma next_day_after d t t' :
  dt_compare (DateTime d t) (DateTime (next_day d) t') = Lt.
Proof.
  unfold dt_compare, dt_tuple, next_day. destruct d as [y m dd]. simpl.
  repeat case_decide; simpl; rewrite ?Nat.compare_refl;
    try (rewrite (proj2 (Nat.compare_lt_iff _ _)); [done | lia]).
Qed.

(** The end of a slot is after its start once an end not after the start
    has been moved to the next day. *)
Lemma rolled_end_after_start d stt ent e :
  (if dt_le (mk_datetime d ent) (mk_datetime d stt)
   then add_one_day (mk_datetime d ent) else Ok (mk_datetime d ent)) = Ok e ->
  dt_lt (mk_datetime d stt) e = true.
Proof.
  unfold dt_le, dt_lt.
  destruct (dt_compare (mk_datetime d ent) (mk_datetime d stt)) eqn:E.
  - unfold add_one_day. case_decide; [done |]. intros [= <-].
    unfold plus_one_day, mk_datetime; simpl. by rewrite next_day_after.
  - unfold add_one_day. case_decide; [done |]. intros [= <-].
    unfold plus_one_day, mk_datetime; simpl. by rewrite next_day_after.
  - intros [= <-]. revert E. unfold dt_compare, dt_tuple; simpl.
    rewrite !Nat.compare_refl.
    destruct (hour ent ?= hour stt)%nat eqn:E1; try done;
      rewrite (Nat.compare_antisym (hour ent)), E1; simpl; try done.
    destruct (minute ent ?= minute stt)%nat eqn:E2; try done;
      rewrite (Nat.compare_antisym (minute ent)), E2; simpl; try done.
    destruct (second ent ?= second stt)%nat eqn:E3; try done;
      rewrite (Nat.compare_antisym (second ent)), E3; simpl; done.
Qed.

Lemma next_day_year d : year (next_day d) <= S (year d).
Proof. unfold next_day. repeat case_decide; simpl; lia. Qed.

Lemma add_one_day_ok dt :
  (N.of_nat (year (dt_date dt)) < MAXYEAR)%N ->
  add_one_day dt = Ok (plus_one_day dt).
Proof.
  intros Hy. unfold add_one_day. case_decide as Hov; [| done].
  exfalso. unfold plus_one_day in Hov. simpl in Hov.
  pose proof (next_day_year (dt_date dt)). lia.
Qed.

Lemma add_one_day_inv dt e : add_one_day dt = Ok e -> e = plus_one_day dt.
Proof. unfold add_one_day. case_decide; [done |]. by intros [= <-]. Qed.

(** ** Worksheets *)
Section sheet.
Implicit Types (ws : worksheet) (r c hr : nat) (v : value).

Lemma value_at_set_eq ws r c v : value_at (set_value ws r c v) r c = v.
Proof. unfold value_at, set_value. by rewrite lookup_insert_eq. Qed.

Lemma value_at_set_ne ws r c v r' c' :
  (r, c) <> (r', c') ->
  value_at (set_value ws r c v) r' c' = value_at ws r' c'.
Proof. intros Hne. unfold value_at, set_value. by rewrite lookup_insert_ne. Qed.

Lemma value_at_set_row ws r c v r' c' :
  r <> r' -> value_at (set_value ws r c v) r' c' = value_at ws r' c'.
Proof. intros Hne. apply value_at_set_ne. congruence. Qed.

Lemma value_at_set_col ws r c v r' c' :
  c <> c' -> value_at (set_value ws r c v) r' c' = value_at ws r' c'.
Proof. intros Hne. apply value_at_set_ne. congruence. Qed.

Lemma set_value_same ws r c v :
  ws !! (r, c) = Some v -> set_value ws r c v = ws.
Proof. apply insert_id. Qed.

Lemma truthy_present ws r c :
  truthy (value_at ws r c) = true -> is_Some (ws !! (r, c)).
Proof. unfold value_at. destruct (ws !! (r, c)); [eauto | done]. Qed.

Lemma not_none_present ws r c :
  value_at ws r c <> VNone -> is_Some (ws !! (r, c)).
Proof. unfold value_at. destruct (ws !! (r, c)); [eauto | done]. Qed.

(** The largest of a list of indices, 1 at least. *)
Lemma foldr_max_bounds (l : list nat) :
  1 <= foldr Nat.max 1 l /\ Forall (fun x => x <= foldr Nat.max 1 l) l
  /\ (foldr Nat.max 1 l = 1 \/ foldr Nat.max 1 l ∈ l).
Proof.
  induction l as [|x l (H1 & H2 & H3)]; simpl.
  - split; [lia |]. split; [constructor | by left].
  - split; [lia |]. split.
    + constructor; [lia |]. eapply Forall_impl; [exact H2 |]. simpl; lia.
    + destruct (Nat.max_spec x (foldr Nat.max 1 l)) as [[? ->] | [? ->]].
      * destruct H3 as [-> | ?]; [by left | right; by constructor].
      * right. constructor.
Qed.

Lemma foldr_max_unique (l : list nat) (M : nat) :
  1 <= M -> Forall (fun x => x <= M) l -> (M = 1 \/ M ∈ l) ->
  foldr Nat.max 1 l = M.
Proof.
  intros H1 H2 H3. destruct (foldr_max_bounds l) as (G1 & G2 & G3).
  rewrite Forall_forall in H2, G2. apply Nat.le_antisymm.
  - destruct G3 as [-> | G3]; [done | by apply H2].
  - destruct H3 as [-> | H3]; [done | by apply G2].
Qed.

Lemma max_index_unique (f : nat * nat -> nat) ws (M : nat) :
  1 <= M ->
  (forall k v, ws !! k = Some v -> f k <= M) ->
  (M = 1 \/ exists k v, ws !! k = Some v /\ f k = M) ->
  foldr Nat.max 1 ((fun kv => f kv.1) <$> map_to_list ws) = M.
Proof.
  intros H1 H2 H3. apply foldr_max_unique; [done | |].
  - apply Forall_forall. intros x ([k v] & -> & Hin)%list_elem_of_fmap.
    apply elem_of_map_to_list in Hin. by eapply H2.
  - destruct H3 as [-> | (k & v & Hk & <-)]; [by left | right].
    apply list_elem_of_fmap. exists (k, v). split; [done |].
    by apply elem_of_map_to_list.
Qed.

Lemma max_index_bounds (f : nat * nat -> nat) ws :
  let M := foldr Nat.max 1 ((fun kv => f kv.1) <$> map_to_list ws) in
  1 <= M /\ (forall k v, ws !! k = Some v -> f k <= M)
  /\ (M = 1 \/ exists k v, ws !! k = Some v /\ f k = M).
Proof.
  intros M. destruct (foldr_max_bounds ((fun kv => f kv.1) <$> map_to_list ws))
    as (G1 & G2 & G3). fold M in G1, G2, G3.
  split; [done |]. split.
  - intros k v Hk. rewrite Forall_forall in G2. apply G2.
    apply list_elem_of_fmap. exists (k, v). split; [done |].
    by apply elem_of_map_to_list.
  - destruct G3 as [? | ([k v] & E & Hin)%list_elem_of_fmap]; [by left |].
    right. exists k, v. split; [by apply elem_of_map_to_list | done].
Qed.

Lemma max_index_insert (f : nat * nat -> nat) ws k v :
  foldr Nat.max 1 ((fun kv => f kv.1) <$> map_to_list (<[k := v]> ws))
  = foldr Nat.max 1 ((fun kv => f kv.1) <$> map_to_list ws) `max` f k.
Proof.
  destruct (max_index_bounds f ws) as (G1 & G2 & G3).
  apply max_index_unique.
  - lia.
  - intros k' v' [[<- _] | [_ Hk']]%lookup_insert_Some; [lia |].
    apply G2 in Hk'. lia.
  - destruct (Nat.max_spec
      (foldr Nat.max 1 ((fun kv => f kv.1) <$> map_to_list ws)) (f k))
      as [[? ->] | [? ->]].
    + right. exists k, v. by rewrite lookup_insert_eq.
    + destruct G3 as [E | (k' & v' & Hk' & E)]; [by left |].
      destruct (decide (k = k')) as [<- | Hne].
      * right. exists k, v. by rewrite lookup_insert_eq.
      * right. exists k', v'. by rewrite lookup_insert_ne.
Qed.

Lemma max_row_set ws r c v :
  max_row (set_value ws r c v) = max_row ws `max` r.
Proof. apply (max_index_insert (fun k => k.1)). Qed.

Lemma max_column_set ws r c v :
  max_column (set_value ws r c v) = max_column ws `max` c.
Proof. apply (max_index_insert (fun k => k.2)). Qed.

Lemma max_row_ge ws r c : is_Some (ws !! (r, c)) -> r <= max_row ws.
Proof.
  intros [v Hv].
  destruct (max_index_bounds (fun k => k.1) ws) as (_ & G & _).
  apply (G _ _ Hv).
Qed.

Lemma max_column_ge ws r c : is_Some (ws !! (r, c)) -> c <= max_column ws.
Proof.
  intros [v Hv].
  destruct (max_index_bounds (fun k => k.2) ws) as (_ & G & _).
  apply (G _ _ Hv).
Qed.

(** *** The header map *)

Lemma header_step_lookup ws hr (h : gmap string nat) c k c' :
  header_step ws hr h c !! k = Some c' ->
  (c' = c /\ names ws hr c k) \/ h !! k = Some c'.
Proof.
  unfold header_step, names.
  destruct (value_at ws hr c) as [|v| | | | |] eqn:E; eauto.
  destruct (nonempty (strip v)) eqn:En; eauto.
  intros [[<- <-] | [_ ?]]%lookup_insert_Some; eauto 6.
Qed.

Lemma headers_lookup ws hr n k c :
  foldl (header_step ws hr) ∅ (seq 1 n) !! k = Some c ->
  1 <= c <= n /\ names ws hr c k.
Proof.
  induction n as [|n IH]; [done |].
  rewrite seq_S, foldl_app. simpl.
  intros [[-> Hn] | Hk]%header_step_lookup; [split; [lia | done] |].
  apply IH in Hk. split; [lia | tauto].
Qed.

Lemma get_headers_lookup ws hr h k c :
  get_headers ws hr = Ok h -> h !! k = Some c ->
  0 < hr /\ 1 <= c <= max_column ws /\ names ws hr c k.
Proof.
  unfold get_headers. case_decide; [done |]. intros [= <-] Hk.
  split; [lia |]. by apply headers_lookup.
Qed.

(** Two names never resolve to one column. *)
Lemma get_headers_inj ws hr h k1 k2 c :
  get_headers ws hr = Ok h -> h !! k1 = Some c -> h !! k2 = Some c -> k1 = k2.
Proof.
  intros Hh H1 H2.
  destruct (get_headers_lookup _ _ _ _ _ Hh H1) as (_ & _ & v1 & E1 & _ & <-).
  destruct (get_headers_lookup _ _ _ _ _ Hh H2) as (_ & _ & v2 & E2 & _ & <-).
  congruence.
Qed.

Lemma headers_ext ws ws' hr n :
  (forall c, value_at ws' hr c = value_at ws hr c) ->
  foldl (header_step ws' hr) ∅ (seq 1 n) = foldl (header_step ws hr) ∅ (seq 1 n).
Proof.
  intros Hrow. generalize (∅ : gmap string nat).
  induction (seq 1 n) as [|c l IH]; intros h; simpl; [done |].
  rewrite IH. f_equal. unfold header_step. by rewrite Hrow.
Qed.

Lemma get_headers_ext ws ws' hr :
  (forall c, value_at ws' hr c = value_at ws hr c) ->
  max_column ws' = max_column ws ->
  get_headers ws' hr = get_headers ws hr.
Proof.
  intros Hrow Hmax. unfold get_headers. rewrite Hmax.
  case_decide; [done |]. f_equal. by apply headers_ext.
Qed.

(** *** Provisioning *)

Lemma track_steps_frame hr (h : gmap string nat) (l : list string)
    (st : worksheet * nat) r c :
  r <> hr ->
  (foldl (track_step hr h) st l).1 !! (r, c) = st.1 !! (r, c).
Proof.
  intros Hr. revert st. induction l as [|th l IH]; intros st; simpl; [done |].
  rewrite IH. unfold track_step. destruct (h !! upper th); [done |].
  simpl. unfold set_value. rewrite lookup_insert_ne; [done | congruence].
Qed.

(** Provisioning writes in the header row only. *)
Lemma provision_frame ws hr ws' r c :
  provision ws hr = Ok ws' -> r <> hr -> ws' !! (r, c) = ws !! (r, c).
Proof.
  unfold provision. destruct (get_headers ws hr) as [h|e]; [| done].
  cbv [mbind result_bind mret result_ret]. intros [= <-] Hr.
  exact (track_steps_frame hr h TRACK_HEADERS
           (ws, first_free ws hr (max_column ws) 1) r c Hr).
Qed.

Lemma provision_frame_value ws hr ws' r c :
  provision ws hr = Ok ws' -> r <> hr -> value_at ws' r c = value_at ws r c.
Proof. intros H Hr. unfold value_at. by rewrite (provision_frame _ _ _ _ _ H Hr). Qed.

Lemma track_steps_noop hr (h : gmap string nat) (l : list string)
    (st : worksheet * nat) :
  Forall (fun th => is_Some (h !! upper th)) l ->
  foldl (track_step hr h) st l = st.
Proof.
  induction 1 as [|th l [c Hc] _ IH]; simpl; [done |].
  unfold track_step at 2. by rewrite Hc.
Qed.

(** On a sheet that has the six tracking headers provisioning changes
    nothing. *)
Lemma provision_noop ws hr h :
  get_headers ws hr = Ok h -> tracked h -> provision ws hr = Ok ws.
Proof.
  intros Hh Ht. unfold provision. rewrite Hh.
  cbv [mbind result_bind mret result_ret]. by rewrite track_steps_noop.
Qed.
End sheet.

(** ** Running the operations of CUSA.py *)
Import CUSA.

Ltac run_prog :=
  cbv [mbind M_bind mret M_ret lift load_wb save ensure_tracking_columns].

Lemma col_ok (h : gmap string nat) name c :
  h !! upper name = Some c -> col h name = Ok c.
Proof. unfold col. by intros ->. Qed.

Lemma col_inv (h : gmap string nat) name c :
  col h name = Ok c -> h !! upper name = Some c.
Proof. unfold col. by destruct (h !! upper name); intros [= ->]. Qed.

Lemma field_col ws (h : gmap string nat) r name c :
  h !! upper name = Some c -> field ws h r name = value_at ws r c.
Proof. unfold field. by intros ->. Qed.

Lemma cell_ok ws r c : 0 < r -> 0 < c -> cell ws r c = Ok (value_at ws r c).
Proof. intros. unfold cell. case_decide; [lia | done]. Qed.

Lemma name_cells_taken_spec fn ln :
  name_cells_taken fn ln = true <-> cell_text fn <> "" \/ cell_text ln <> "".
Proof.
  unfold name_cells_taken. rewrite str_or_nonempty, orb_true_iff.
  by rewrite !nonempty_true.
Qed.

Lemma name_cells_open_spec fn ln :
  name_cells_taken fn ln = false <-> cell_text fn = "" /\ cell_text ln = "".
Proof.
  unfold name_cells_taken. rewrite str_or_nonempty, orb_false_iff.
  by rewrite !nonempty_false.
Qed.

(** Writing under a header below or above the header row keeps the
    header map. *)
Lemma set_value_headers ws hr (h : gmap string nat) r k c v :
  get_headers ws hr = Ok h -> h !! k = Some c -> r <> hr ->
  get_headers (set_value ws r c v) hr = Ok h.
Proof.
  intros Hh Hk Hr. rewrite <- Hh. apply get_headers_ext.
  - intros c'. by apply value_at_set_row.
  - rewrite max_column_set.
    destruct (get_headers_lookup _ _ _ _ _ Hh Hk) as (_ & ? & _). lia.
Qed.

Lemma set_value_max_row_below ws r c v :
  r <= max_row ws -> max_row (set_value ws r c v) = max_row ws.
Proof. intros. rewrite max_row_set. lia. Qed.

(** From [present], the column of each header. *)
Ltac columns Hp :=
  unfold tracked, present, TRACK_HEADERS in Hp; simpl app in Hp;
  repeat match type of Hp with
  | Forall _ (_ :: _) =>
      let c := fresh "c" in let Hc := fresh "Hc" in
      apply Forall_cons in Hp as [[c Hc] Hp];
      let n := eval vm_compute in (upper ltac:(
        match type of Hc with _ !! upper ?x = _ => exact x end)) in
      match type of Hc with _ !! ?u = _ => change u with n in Hc end
  end; clear Hp.

(** Distinct headers have distinct columns. *)
Ltac distinct_columns Hh :=
  repeat match goal with
  | H1 : ?h !! ?k1 = Some ?c1, H2 : ?h !! ?k2 = Some ?c2 |- _ =>
      lazymatch k1 with k2 => fail | _ => idtac end;
      lazymatch goal with
      | _ : c1 <> c2 |- _ => fail
      | _ => idtac
      end;
      assert (c1 <> c2)
        by (intros ->; discriminate (get_headers_inj _ _ _ _ _ _ Hh H1 H2))
  end.

Ltac col_rewrite :=
  repeat match goal with
  | H : ?h !! ?k = Some ?c |- context [col ?h ?n] =>
      let k' := eval vm_compute in (upper n) in
      lazymatch k' with k => rewrite (col_ok h n c H) end
  | H : ?h !! ?k = Some ?c |- context [field ?ws ?h ?r ?n] =>
      let k' := eval vm_compute in (upper n) in
      lazymatch k' with k => rewrite (field_col ws h r n c H) end
  end.

Ltac read_cells :=
  repeat first
    [ rewrite value_at_set_eq
    | rewrite value_at_set_col by congruence
    | rewrite value_at_set_row by congruence ].

(** Reserving a taken slot: the result is a failure and nothing is saved
    after the provisioning of the tracking columns. *)
Lemma reserve_taken_run file hr ws (h : gmap string nat) row user now :
  provision file hr = Ok ws -> get_headers ws hr = Ok h ->
  present h ["FIRST NAME"; "LAST NAME"] -> 0 < row ->
  cell_text (field ws h row "FIRST NAME") <> ""
  \/ cell_text (field ws h row "LAST NAME") <> "" ->
  reserve_excel_slot hr row user now file
  = (Ok (false, "That slot is already taken."), ws).
Proof.
  intros Hprov Hh Hp Hrow Htaken. columns Hp.
  destruct (get_headers_lookup _ _ _ _ _ Hh Hc) as (_ & ? & _).
  destruct (get_headers_lookup _ _ _ _ _ Hh Hc0) as (_ & ? & _).
  revert Htaken. col_rewrite. intros Htaken%name_cells_taken_spec.
  unfold reserve_excel_slot. run_prog. rewrite Hprov, Hh.
  col_rewrite. rewrite !cell_ok by lia. by rewrite Htaken.
Qed.

Lemma reserve_open_run file hr ws (h : gmap string nat) row user now :
  provision file hr = Ok ws -> get_headers ws hr = Ok h ->
  present h (["FIRST NAME"; "LAST NAME"] ++ TRACK_HEADERS) -> 0 < row ->
  cell_text (field ws h row "FIRST NAME") = "" ->
  cell_text (field ws h row "LAST NAME") = "" ->
  reserve_excel_slot hr row user now file
  = (Ok (true, "Reserved!"), reserved_sheet ws h row user now).
Proof.
  intros Hprov Hh Hp Hrow Hfn Hln. columns Hp.
  destruct (get_headers_lookup _ _ _ _ _ Hh Hc) as (_ & ? & _).
  destruct (get_headers_lookup _ _ _ _ _ Hh Hc0) as (_ & ? & _).
  revert Hfn Hln. col_rewrite. intros Hfn Hln.
  pose proof (proj2 (name_cells_open_spec _ _) (conj Hfn Hln)) as Hopen.
  unfold reserve_excel_slot, reserved_sheet. run_prog. rewrite Hprov, Hh.
  col_rewrite. rewrite !cell_ok by lia. rewrite Hopen.
  by rewrite Hc, Hc0, Hc1, Hc2, Hc3, Hc4, Hc5, Hc6.
Qed.

Lemma reserved_sheet_fields ws hr (h : gmap string nat) row user now :
  get_headers ws hr = Ok h ->
  present h (["FIRST NAME"; "LAST NAME"] ++ TRACK_HEADERS) ->
  let ws' := reserved_sheet ws h row user now in
  field ws' h row "FIRST NAME" = VStr (strip (u_first_name user))
  /\ field ws' h row "LAST NAME" = VStr (strip (u_last_name user))
  /\ field ws' h row "EMAIL" = VStr (lower (strip (u_email user)))
  /\ field ws' h row "USER_ID" = VStr (u_id user)
  /\ field ws' h row "RESERVED_AT" = VDateTime now
  /\ field ws' h row "SENT_24H" = VBool false
  /\ field ws' h row "SENT_1H" = VBool false
  /\ field ws' h row "GCAL_UID" = VStr "".
Proof.
  intros Hh Hp ws'. subst ws'. columns Hp. distinct_columns Hh.
  unfold reserved_sheet. rewrite Hc, Hc0, Hc1, Hc2, Hc3, Hc4, Hc5, Hc6.
  col_rewrite. repeat split; by read_cells.
Qed.

Lemma reserved_sheet_headers ws hr (h : gmap string nat) row user now :
  get_headers ws hr = Ok h -> row <> hr ->
  get_headers (reserved_sheet ws h row user now) hr = Ok h.
Proof.
  intros Hh Hr. unfold reserved_sheet.
  repeat match goal with
  | |- context [h !! ?k] => destruct (h !! k) eqn:?
  end; repeat (eapply set_value_headers; [| eassumption | done]); done.
Qed.

Lemma reserved_sheet_frame ws (h : gmap string nat) row user now r c :
  r <> row ->
  value_at (reserved_sheet ws h row user now) r c = value_at ws r c.
Proof.
  intros Hr. unfold reserved_sheet.
  repeat match goal with
  | |- context [h !! ?k] => destruct (h !! k)
  end; by rewrite ?value_at_set_row by congruence.
Qed.

(** ** Reading the table *)
Ltac norm_upper :=
  repeat match goal with
  | |- context [upper ?s] =>
      let n := eval vm_compute in (upper s) in change (upper s) with n
  | H : context [upper ?s] |- _ =>
      let n := eval vm_compute in (upper s) in change (upper s) with n in H
  end.

Lemma cell_text_event v :
  (if truthy v then strip (py_str v) else "") = cell_text v.
Proof. unfold cell_text, str_or_empty. by destruct (truthy v). Qed.

Lemma cell_text_nonempty_truthy v :
  nonempty (cell_text v) = true -> truthy v = true.
Proof. unfold cell_text, str_or_empty. by destruct (truthy v). Qed.

Section listing.
Context {H : Type}.
Variable float_of_int : Z -> result H.
Variable float_of_str : string -> result H.

Local Abbreviation read_row := (read_row float_of_int float_of_str).
Local Abbreviation read_rows := (read_rows float_of_int float_of_str).
Local Abbreviation list_slots := (list_slots float_of_int float_of_str).

(** What a slot read from row [r] holds. *)
Lemma read_row_some ws (h : gmap string nat) r (s : @Slot H) :
  read_row ws h r = Ok (Some s) ->
  listable ws h r = true /\ row s = r
  /\ event s = cell_text (field ws h r "EVENT")
  /\ first_name s = cell_text (field ws h r "FIRST NAME")
  /\ last_name s = cell_text (field ws h r "LAST NAME")
  /\ completed s = cell_text (field ws h r "COMPLETED")
  /\ email s = cell_text (field ws h r "EMAIL")
  /\ exists d stt ent,
       parse_excel_date (field ws h r "DATE") = Some d
       /\ parse_excel_time (field ws h r "START TIME") = Some stt
       /\ parse_excel_time (field ws h r "END TIME") = Some ent
       /\ start_dt s = slot_datetime d stt
       /\ (if dt_le (slot_datetime d ent) (slot_datetime d stt)
           then add_one_day (slot_datetime d ent)
           else Ok (slot_datetime d ent)) = Ok (end_dt s).
Proof.
  unfold CUSA.read_row, listable, field, col. norm_upper.
  cbv [mbind result_bind mret result_ret].
  destruct (h !! "EVENT") as [cE|]; [| done].
  destruct (h !! "DATE") as [cD|]; [| done].
  destruct (h !! "START TIME") as [cS|]; [| done].
  destruct (h !! "END TIME") as [cN|]; [| done].
  destruct (negb _); [done |].
  rewrite cell_text_event.
  destruct (nonempty (cell_text (value_at ws r cE))) eqn:Eev; [| done].
  simpl negb. cbv iota.
  destruct (parse_excel_date (value_at ws r cD)) as [d|]; [| done].
  destruct (parse_excel_time (value_at ws r cS)) as [stt|]; [| done].
  destruct (parse_excel_time (value_at ws r cN)) as [ent|]; [| done].
  destruct (if dt_le _ _ then _ else _) as [e|] eqn:Eend; [| done].
  destruct (h !! "LOCATION") as [cL|]; [| done].
  destruct (h !! "HOURS") as [cH|]; [| done].
  destruct (py_float _ _ _) as [hh|]; [| done].
  destruct (h !! "CONTACT PERSON") as [cC|]; [| done].
  destruct (h !! "FIRST NAME") as [cF|]; [| done].
  destruct (h !! "LAST NAME") as [cLn|]; [| done].
  destruct (h !! "COMPLETED") as [cCo|]; [| done].
  destruct (h !! "EMAIL") as [cEm|]; [| done].
  intros [= <-]. simpl.
  repeat split; try done. exists d, stt, ent. by rewrite Eend.
Qed.

(** A row that is passed over is not listable. *)
Lemma read_row_none ws (h : gmap string nat) r :
  read_row ws h r = Ok None -> listable ws h r = false.
Proof.
  unfold CUSA.read_row, listable, field, col. norm_upper.
  cbv [mbind result_bind mret result_ret].
  destruct (h !! "EVENT") as [cE|]; [| done].
  destruct (h !! "DATE") as [cD|]; [| done].
  destruct (h !! "START TIME") as [cS|]; [| done].
  destruct (h !! "END TIME") as [cN|]; [| done].
  destruct (negb _) eqn:Eany.
  { intros _. apply negb_true_iff in Eany.
    apply orb_false_iff in Eany as [[[Eev _]%orb_false_iff _]%orb_false_iff _].
    destruct (nonempty (cell_text (value_at ws r cE))) eqn:En; [| done].
    apply cell_text_nonempty_truthy in En. congruence. }
  rewrite cell_text_event.
  destruct (nonempty (cell_text (value_at ws r cE))) eqn:Eev; [| done].
  simpl negb. cbv iota.
  destruct (parse_excel_date (value_at ws r cD)) as [d|];
    [| intros _; simpl; by rewrite ?andb_false_r].
  destruct (parse_excel_time (value_at ws r cS)) as [stt|];
    [| intros _; simpl; by rewrite ?andb_false_r].
  destruct (parse_excel_time (value_at ws r cN)) as [ent|];
    [| intros _; simpl; by rewrite ?andb_false_r].
  destruct (if dt_le _ _ then _ else _) as [e|] eqn:Eend; [| done].
  destruct (h !! "LOCATION") as [cL|]; [| done].
  destruct (h !! "HOURS") as [cH|]; [| done].
  destruct (py_float _ _ _) as [hh|]; [| done].
  destruct (h !! "CONTACT PERSON") as [cC|]; [| done].
  destruct (h !! "FIRST NAME") as [cF|]; [| done].
  destruct (h !! "LAST NAME") as [cLn|]; [| done].
  destruct (h !! "COMPLETED") as [cCo|]; [| done].
  destruct (h !! "EMAIL") as [cEm|]; done.
Qed.

(** The loop appends, in order, the slots of the listable rows. *)
Lemma read_rows_spec ws (h : gmap string nat) rows acc slots :
  read_rows ws h rows acc = Ok slots ->
  exists new,
    slots = (acc ++ new)%list
    /\ row <$> new = filter (fun r => listable ws h r = true) rows
    /\ Forall (fun s => read_row ws h (row s) = Ok (Some s)) new.
Proof.
  revert acc. induction rows as [|r rows IH]; intros acc; simpl.
  - intros [= <-]. exists []. by rewrite app_nil_r.
  - cbv [mbind result_bind].
    destruct (read_row ws h r) as [[s|]|] eqn:Er; [| | done].
    + intros (new & -> & Hrows & Hall)%IH.
      destruct (read_row_some _ _ _ _ Er) as (Hl & Hr & _).
      exists (s :: new). rewrite <- app_assoc. split; [done |].
      rewrite filter_cons_True by done. split.
      * by rewrite fmap_cons, Hr, Hrows.
      * constructor; [by rewrite Hr | done].
    + intros (new & -> & Hrows & Hall)%IH.
      pose proof (read_row_none _ _ _ Er) as Hl.
      exists new. split; [done |].
      rewrite filter_cons_False by (by rewrite Hl). done.
Qed.

Lemma list_slots_run file hr ws (h : gmap string nat) :
  provision file hr = Ok ws -> get_headers ws hr = Ok h ->
  list_slots hr file = (read_rows ws h (table_rows ws hr) [], ws).
Proof.
  intros Hprov Hh. unfold CUSA.list_slots. run_prog. by rewrite Hprov, Hh.
Qed.
End listing.

Lemma cell_text_str s : cell_text (VStr s) = strip s.
Proof. unfold cell_text, str_or_empty. simpl. by destruct s. Qed.

Lemma names_given_spec fn ln :
  names_given fn ln = true <-> strip fn <> "" /\ strip ln <> "".
Proof. unfold names_given. by rewrite andb_true_iff, !nonempty_true. Qed.

(** ** The reservation engine *)
Section reservations.
Context {H : Type}.
Variable float_of_int : Z -> result H.
Variable float_of_str : string -> result H.

Local Abbreviation read_row := (read_row float_of_int float_of_str).
Local Abbreviation read_rows := (read_rows float_of_int float_of_str).
Local Abbreviation list_slots := (list_slots float_of_int float_of_str).

(** The listing and the reservation check agree on every listed row. *)
Lemma is_taken_agrees ws (h : gmap string nat) r (s : @Slot H) :
  read_row ws h r = Ok (Some s) ->
  is_taken s
  = name_cells_taken (field ws h r "FIRST NAME") (field ws h r "LAST NAME").
Proof.
  intros (_ & _ & _ & Hfn & Hln & _)%read_row_some.
  unfold is_taken, name_cells_taken.
  rewrite Hfn, Hln. unfold cell_text. by rewrite !strip_idem.
Qed.

(** C6. The listing and the reservation check classify a slot as taken
    exactly when the stripped text of its FIRST NAME or of its LAST NAME
    cell is not empty; whitespace-only names are blank, and the two
    classifications agree on every row that is listed. *)
Theorem taken_is_name_blankness :
  (forall s : @Slot H,
     is_taken s = true <->
     strip (first_name s) <> "" \/ strip (last_name s) <> "")
  /\ (forall fn ln : value,
        name_cells_taken fn ln = true <->
        strip (str_or_empty fn) <> "" \/ strip (str_or_empty ln) <> "")
  /\ (forall ws (h : gmap string nat) r (s : @Slot H),
        read_row ws h r = Ok (Some s) ->
        is_taken s
        = name_cells_taken (field ws h r "FIRST NAME") (field ws h r "LAST NAME"))
  /\ (forall s : @Slot H,
        Forall (fun c => is_space c = true) (list_ascii_of_string (first_name s)) ->
        Forall (fun c => is_space c = true) (list_ascii_of_string (last_name s)) ->
        is_taken s = false).
Proof.
  split; [| split; [| split]].
  - intros s. unfold is_taken.
    by rewrite str_or_nonempty, orb_true_iff, !nonempty_true.
  - intros fn ln. apply name_cells_taken_spec.
  - intros ws h r s. apply is_taken_agrees.
  - intros s Hfn Hln. unfold is_taken.
    by rewrite (strip_spaces _ Hfn), (strip_spaces _ Hln).
Qed.

(** C1. Reserving a slot whose name cells are blank succeeds: the row
    then holds the user's stripped names, the lowercased email, the user
    id and the time of the reservation, both sent-flags are false and
    the calendar UID is the empty string; the header map is the same,
    and read back the slot is taken (for a user with the names that
    [create_user] requires) with both sent-flags false. *)
Theorem reserve_open_slot file hr ws (h : gmap string nat) row user now :
  provision file hr = Ok ws -> get_headers ws hr = Ok h ->
  present h (["FIRST NAME"; "LAST NAME"] ++ TRACK_HEADERS) ->
  hr < row ->
  cell_text (field file h row "FIRST NAME") = "" ->
  cell_text (field file h row "LAST NAME") = "" ->
  exists file',
    reserve_excel_slot hr row user now file = (Ok (true, "Reserved!"), file')
    /\ get_headers file' hr = Ok h
    /\ field file' h row "FIRST NAME" = VStr (strip (u_first_name user))
    /\ field file' h row "LAST NAME" = VStr (strip (u_last_name user))
    /\ field file' h row "EMAIL" = VStr (lower (strip (u_email user)))
    /\ field file' h row "USER_ID" = VStr (u_id user)
    /\ field file' h row "RESERVED_AT" = VDateTime now
    /\ field file' h row "SENT_24H" = VBool false
    /\ field file' h row "SENT_1H" = VBool false
    /\ field file' h row "GCAL_UID" = VStr ""
    /\ truthy (field file' h row "SENT_24H") = false
    /\ truthy (field file' h row "SENT_1H") = false
    /\ (names_given (u_first_name user) (u_last_name user) = true ->
        name_cells_taken (field file' h row "FIRST NAME")
                         (field file' h row "LAST NAME") = true
        /\ forall slots (s : @Slot H),
             (list_slots hr file').1 = Ok slots -> s ∈ slots ->
             CUSA.row s = row -> is_taken s = true).
Proof.
  intros Hprov Hh Hp Hrow Hfn Hln.
  assert (Hsame : forall n, field ws h row n = field file h row n).
  { intros n. unfold field. destruct (h !! upper n); [| done].
    apply (provision_frame_value _ _ _ _ _ Hprov). lia. }
  rewrite <- Hsame in Hfn, Hln.
  assert (0 < row) as Hpos by lia.
  exists (reserved_sheet ws h row user now).
  pose proof (reserve_open_run _ _ _ _ _ user now Hprov Hh Hp Hpos Hfn Hln) as Hrun.
  pose proof (reserved_sheet_fields ws hr h row user now Hh Hp)
    as (F1 & F2 & F3 & F4 & F5 & F6 & F7 & F8).
  assert (Hh' : get_headers (reserved_sheet ws h row user now) hr = Ok h)
    by (apply reserved_sheet_headers; [done | lia]).
  split; [done |]. split; [done |].
  rewrite F1, F2, F3, F4, F5, F6, F7, F8. repeat (split; [done |]).
  intros [Hf Hl]%names_given_spec.
  assert (Htaken : name_cells_taken (VStr (strip (u_first_name user)))
                     (VStr (strip (u_last_name user))) = true).
  { apply name_cells_taken_spec. left. by rewrite cell_text_str, strip_idem. }
  split; [done |]. intros slots s Hlist Hin Hr.
  assert (Ht : tracked h).
  { unfold tracked. unfold present in Hp. by apply Forall_app in Hp as [_ ?]. }
  rewrite (list_slots_run _ _ _ _ _ h (provision_noop _ _ _ Hh' Ht) Hh') in Hlist.
  simpl in Hlist. apply read_rows_spec in Hlist as (new & -> & _ & Hall).
  rewrite app_nil_l in Hin. rewrite Forall_forall in Hall.
  pose proof (Hall _ Hin) as Hs. rewrite Hr in Hs.
  rewrite (is_taken_agrees _ _ _ _ Hs). by rewrite F1, F2.
Qed.

(** C5. Reserving a slot with a non-blank name cell returns a failure;
    what the file holds afterwards is the sheet as provisioned, whose
    cells outside the header row are those of the file before, and the
    file itself when the tracking columns were already there. *)
Theorem reserve_taken_slot file hr ws (h : gmap string nat) row user now :
  provision file hr = Ok ws -> get_headers ws hr = Ok h ->
  present h ["FIRST NAME"; "LAST NAME"] ->
  hr < row ->
  cell_text (field file h row "FIRST NAME") <> ""
  \/ cell_text (field file h row "LAST NAME") <> "" ->
  reserve_excel_slot hr row user now file
  = (Ok (false, "That slot is already taken."), ws)
  /\ (forall r c, r <> hr -> ws !! (r, c) = file !! (r, c))
  /\ (forall c, value_at ws row c = value_at file row c)
  /\ (forall h0, get_headers file hr = Ok h0 -> tracked h0 -> ws = file).
Proof.
  intros Hprov Hh Hp Hrow Htaken.
  assert (Hsame : forall n, field ws h row n = field file h row n).
  { intros n. unfold field. destruct (h !! upper n); [| done].
    apply (provision_frame_value _ _ _ _ _ Hprov). lia. }
  rewrite <- !Hsame in Htaken.
  split; [apply (reserve_taken_run _ _ _ h); [done .. | lia | done] |].
  split; [intros r c Hr; by apply (provision_frame _ _ _ _ _ Hprov) |].
  split; [intros c; apply (provision_frame_value _ _ _ _ _ Hprov); lia |].
  intros h0 Hh0 Ht0. pose proof (provision_noop _ _ _ Hh0 Ht0). congruence.
Qed.

(** A row can be read when the headers are there, its HOURS cell
    converts and its date is before year 9999. *)
Lemma read_row_total ws (h : gmap string nat) r :
  present h SLOT_HEADERS ->
  (listable ws h r = true ->
   (exists x, py_float float_of_int float_of_str (field ws h r "HOURS") = Ok x)
   /\ forall d, parse_excel_date (field ws h r "DATE") = Some d ->
                (N.of_nat (year d) < MAXYEAR)%N) ->
  exists o, read_row ws h r = Ok o.
Proof.
  intros Hp. unfold SLOT_HEADERS in Hp. columns Hp.
  unfold CUSA.read_row, listable. col_rewrite.
  cbv [mbind result_bind mret result_ret].
  destruct (negb _); [eauto |].
  rewrite cell_text_event.
  destruct (nonempty (cell_text (value_at ws r c))) eqn:Eev; [| eauto].
  simpl negb. cbv iota.
  destruct (parse_excel_date (value_at ws r c0)) as [d|]; [| eauto].
  destruct (parse_excel_time (value_at ws r c1)) as [stt|]; [| eauto].
  destruct (parse_excel_time (value_at ws r c2)) as [ent|]; [| eauto].
  simpl. intros Hok. destruct Hok as [[x Hx] Hy]; [done |].
  rewrite Hx.
  destruct (dt_le _ _); [| eauto].
  rewrite add_one_day_ok; [eauto |]. simpl. by apply Hy.
Qed.

Lemma read_rows_total ws (h : gmap string nat) rows acc :
  Forall (fun r => exists o, read_row ws h r = Ok o) rows ->
  exists slots, read_rows ws h rows acc = Ok slots.
Proof.
  intros Hall. revert acc.
  induction Hall as [|r rows [o Ho] _ IH]; intros acc; simpl; [eauto |].
  cbv [mbind result_bind]. rewrite Ho. apply IH.
Qed.

(** C9. [list_slots] returns, in order, exactly the rows below the
    header that have a non-blank event name and DATE, START TIME and
    END TIME values that parse; the end of every returned slot is
    strictly after its start, the end being moved to the next day when
    the end time is not after the start time.  It does return when the
    headers are there, the HOURS cells of these rows convert and their
    dates are before year 9999. *)
Theorem list_slots_rows file hr ws (h : gmap string nat) :
  provision file hr = Ok ws -> get_headers ws hr = Ok h ->
  (present h SLOT_HEADERS ->
   (forall r, r ∈ table_rows ws hr -> listable ws h r = true ->
      (exists x, py_float float_of_int float_of_str (field ws h r "HOURS") = Ok x)
      /\ forall d, parse_excel_date (field ws h r "DATE") = Some d ->
                   (N.of_nat (year d) < MAXYEAR)%N) ->
   exists slots, (list_slots hr file).1 = Ok slots)
  /\ forall slots : list (@Slot H),
       (list_slots hr file).1 = Ok slots ->
       CUSA.row <$> slots
       = filter (fun r => listable ws h r = true) (table_rows ws hr)
       /\ Forall (fun s =>
            hr < CUSA.row s <= max_row ws
            /\ event s <> ""
            /\ dt_lt (start_dt s) (end_dt s) = true
            /\ exists d stt ent,
                 parse_excel_date (field ws h (CUSA.row s) "DATE") = Some d
                 /\ parse_excel_time (field ws h (CUSA.row s) "START TIME") = Some stt
                 /\ parse_excel_time (field ws h (CUSA.row s) "END TIME") = Some ent
                 /\ start_dt s = slot_datetime d stt
                 /\ end_dt s
                    = if dt_le (slot_datetime d ent) (slot_datetime d stt)
                      then plus_one_day (slot_datetime d ent)
                      else slot_datetime d ent) slots.
Proof.
  intros Hprov Hh. rewrite (list_slots_run _ _ _ _ _ _ Hprov Hh). simpl.
  split.
  - intros Hp Hok. apply read_rows_total. apply Forall_forall.
    intros r Hr. apply read_row_total; [done |]. by apply Hok.
  - intros slots (new & -> & Hrows & Hall)%read_rows_spec.
    rewrite app_nil_l. split; [done |].
    assert (Hin : Forall (fun s : @Slot H => CUSA.row s ∈ table_rows ws hr) new).
    { apply Forall_forall. intros s Hs.
      assert (CUSA.row s ∈ CUSA.row <$> new) as Hr
        by (apply list_elem_of_fmap; eauto).
      rewrite Hrows in Hr. by apply list_elem_of_filter in Hr as [_ ?]. }
    rewrite Forall_forall in Hall, Hin. apply Forall_forall. intros s Hs.
    specialize (Hall _ Hs). specialize (Hin _ Hs).
    apply read_row_some in Hall
      as (Hl & _ & Hev & _ & _ & _ & _ & d & stt & ent & Hd & Hs1 & He1 & Hst & Hend).
    unfold table_rows in Hin. apply elem_of_seq in Hin.
    split; [lia |]. split.
    { rewrite Hev. apply nonempty_true. unfold listable in Hl.
      by repeat apply andb_true_iff in Hl as [Hl _]. }
    split; [rewrite Hst; by eapply rolled_end_after_start |].
    exists d, stt, ent. repeat (split; [done |]).
    destruct (dt_le _ _); [by apply add_one_day_inv | congruence].
Qed.
End reservations.

(** ** Cancelling *)

(** C2. Cancelling fails when the stored email differs from the
    requester's after stripping and lowercasing, and fails when COMPLETED
    is not blank; otherwise it blanks the two names, the email, the user
    id and the reservation time, sets both sent-flags to false and clears
    the calendar UID.  A refused request leaves the sheet as provisioned. *)
Theorem cancel_reservation file hr ws (h : gmap string nat) row email :
  provision file hr = Ok ws -> get_headers ws hr = Ok h ->
  present h (["FIRST NAME"; "LAST NAME"; "COMPLETED"] ++ TRACK_HEADERS) ->
  hr < row ->
  let slot_email := lower (cell_text (field file h row "EMAIL")) in
  let completed := cell_text (field file h row "COMPLETED") in
  (slot_email <> lower (strip email) ->
   cancel_excel_reservation hr row email file
   = (Ok (false, "You can only cancel your own reservation."), ws))
  /\ (completed <> "" ->
      exists msg, cancel_excel_reservation hr row email file = (Ok (false, msg), ws))
  /\ (slot_email = lower (strip email) -> completed = "" ->
      exists file',
        cancel_excel_reservation hr row email file = (Ok (true, "Cancelled."), file')
        /\ get_headers file' hr = Ok h
        /\ field file' h row "FIRST NAME" = VStr ""
        /\ field file' h row "LAST NAME" = VStr ""
        /\ field file' h row "EMAIL" = VStr ""
        /\ field file' h row "USER_ID" = VStr ""
        /\ field file' h row "RESERVED_AT" = VStr ""
        /\ field file' h row "SENT_24H" = VBool false
        /\ field file' h row "SENT_1H" = VBool false
        /\ field file' h row "GCAL_UID" = VStr ""
        /\ forall r c, r <> row -> value_at file' r c = value_at ws r c).
Proof.
  intros Hprov Hh Hp Hrow slot_email completed. subst slot_email completed.
  assert (Hsame : forall n, field file h row n = field ws h row n).
  { intros n. unfold field. destruct (h !! upper n); [| done].
    symmetry. apply (provision_frame_value _ _ _ _ _ Hprov). lia. }
  rewrite !Hsame. columns Hp.
  destruct (get_headers_lookup _ _ _ _ _ Hh Hc2) as (_ & ? & _).
  col_rewrite.
  unfold cancel_excel_reservation. run_prog. rewrite Hprov, Hh. col_rewrite.
  rewrite cell_ok by lia.
  split; [| split].
  - intros Hne. by rewrite bool_decide_eq_false_2.
  - intros Hcompl%nonempty_true. case_bool_decide; simpl; [| eauto].
    rewrite Hcompl. eauto.
  - intros -> ->%nonempty_false. rewrite bool_decide_eq_true_2 by done. simpl.
    assert (row <> hr) as Hne by lia.
    eexists. split; [reflexivity |].
    split.
    { repeat (eapply set_value_headers; [| eassumption | exact Hne]). done. }
    clear Hrow Hne. distinct_columns Hh.
    col_rewrite. do 8 (split; [by read_cells |]).
    intros r' c' Hr. by read_cells.
Qed.

(** ** Adding a slot *)

Ltac col_neq Hh :=
  lazymatch goal with
  | |- ?c1 <> ?c2 =>
      match goal with
      | H1 : _ !! _ = Some c1, H2 : _ !! _ = Some c2 |- _ =>
          let E := fresh in
          intros E; rewrite E in H1;
          discriminate (get_headers_inj _ _ _ _ _ _ Hh H1 H2)
      end
  end.

Ltac read_row_cells Hh :=
  repeat first
    [ rewrite value_at_set_eq
    | rewrite value_at_set_col by col_neq Hh ].

Lemma head_filter_seq (P : nat -> bool) r0 n :
  head (filter (fun r => P r = true) (seq r0 (S n)))
  = if P r0 then Some r0 else head (filter (fun r => P r = true) (seq (S r0) n)).
Proof.
  simpl seq. destruct (P r0) eqn:E.
  - by rewrite filter_cons_True.
  - rewrite filter_cons_False; [done | by rewrite E].
Qed.

(** The scan stops at the first open row, or past the last row. *)
Lemma scan_rows_first_open ws (h : gmap string nat) fuel r0 :
  present h ["EVENT"; "DATE"; "START TIME"] ->
  max_row ws < r0 + fuel ->
  exists r,
    scan_rows ws h fuel r0 = Ok r
    /\ (if decide (max_row ws < r) then S (max_row ws) else r)
       = default (S (max_row ws))
           (head (filter (fun r => open_row ws h r = true)
                         (seq r0 (S (max_row ws) - r0)))).
Proof.
  intros Hp. columns Hp. revert r0.
  induction fuel as [|fuel IH]; intros r0 Hfuel.
  - exists r0. split; [done |]. rewrite decide_True by lia.
    by replace (S (max_row ws) - r0) with 0 by lia.
  - simpl scan_rows. case_decide as Hr.
    + replace (S (max_row ws) - r0) with (S (S (max_row ws) - S r0)) by lia.
      rewrite (head_filter_seq (open_row ws h)).
      unfold open_row at 1. col_rewrite.
      cbv [mbind result_bind mret result_ret].
      destruct (negb _).
      * exists r0. split; [done |]. by rewrite decide_False by lia.
      * apply IH. lia.
    + exists r0. split; [done |]. rewrite decide_True by lia.
      by replace (S (max_row ws) - r0) with 0 by lia.
Qed.

Lemma header_row_in_sheet ws hr (h : gmap string nat) k c :
  get_headers ws hr = Ok h -> h !! k = Some c -> hr <= max_row ws.
Proof.
  intros Hh Hk. destruct (get_headers_lookup _ _ _ _ _ Hh Hk) as (_ & _ & v & Hv & _).
  apply (max_row_ge ws hr c). apply not_none_present. by rewrite Hv.
Qed.

Lemma first_open_row_below ws hr (h : gmap string nat) k c :
  get_headers ws hr = Ok h -> h !! k = Some c -> hr < first_open_row ws h hr.
Proof.
  intros Hh Hk. pose proof (header_row_in_sheet _ _ _ _ _ Hh Hk).
  unfold first_open_row.
  destruct (head _) as [r|] eqn:E; simpl; [| lia].
  apply head_Some_elem_of, list_elem_of_filter in E as [_ E].
  unfold table_rows in E. apply elem_of_seq in E. lia.
Qed.

(** C7, as the code has it.  The new slot is written into the first row
    below the header whose EVENT, DATE and START TIME are all empty, or
    into the row after the last one when there is no such row; its
    reservation and tracking fields are blank, both sent-flags false. *)
Theorem add_slot_fills_first_open_row file hr ws (h : gmap string nat)
    event location d start_t end_t hours contact :
  provision file hr = Ok ws -> get_headers ws hr = Ok h ->
  present h (["EVENT"; "DATE"; "START TIME"; "LOCATION"; "END TIME"; "HOURS";
              "CONTACT PERSON"; "FIRST NAME"; "LAST NAME"; "COMPLETED"]
             ++ TRACK_HEADERS) ->
  let r := first_open_row ws h hr in
  exists file',
    admin_add_slot_excel hr event location d start_t end_t hours contact file
    = (Ok (true, "Added slot at row " +:+ pretty r +:+ "."), file')
    /\ hr < r
    /\ get_headers file' hr = Ok h
    /\ field file' h r "EVENT" = VStr (strip event)
    /\ field file' h r "LOCATION" = VStr (strip location)
    /\ field file' h r "DATE" = VDateTime (DateTime d (Time 0 0 0 0))
    /\ field file' h r "START TIME" = VTime start_t
    /\ field file' h r "END TIME" = VTime end_t
    /\ field file' h r "HOURS" = VInt hours
    /\ field file' h r "CONTACT PERSON" = VStr (strip contact)
    /\ field file' h r "FIRST NAME" = VStr ""
    /\ field file' h r "LAST NAME" = VStr ""
    /\ field file' h r "COMPLETED" = VStr ""
    /\ field file' h r "EMAIL" = VStr ""
    /\ field file' h r "USER_ID" = VStr ""
    /\ field file' h r "RESERVED_AT" = VStr ""
    /\ field file' h r "SENT_24H" = VBool false
    /\ field file' h r "SENT_1H" = VBool false
    /\ field file' h r "GCAL_UID" = VStr ""
    /\ forall r' c, r' <> r -> value_at file' r' c = value_at ws r' c.
Proof.
  intros Hprov Hh Hp r.
  assert (Hscan : present h ["EVENT"; "DATE"; "START TIME"]).
  { unfold present in *. apply Forall_app in Hp as [Hp _].
    by do 3 (apply Forall_cons in Hp as [? Hp]; constructor; [done |]). }
  destruct (scan_rows_first_open ws h (max_row ws) (S hr) Hscan ltac:(lia))
    as (r0 & Hr0 & Hr).
  change (S (max_row ws) - S hr) with (max_row ws - hr) in Hr.
  fold (table_rows ws hr) in Hr. fold (first_open_row ws h hr) in Hr. fold r in Hr.
  columns Hp.
  assert (hr < r) as Hbelow by (by eapply first_open_row_below).
  assert (r <> hr) as Hne by lia.
  unfold admin_add_slot_excel. run_prog. rewrite Hprov, Hh, Hr0. col_rewrite.
  rewrite Hr. eexists. split; [reflexivity |]. split; [done |].
  split.
  { repeat (eapply set_value_headers; [| eassumption | exact Hne]). done. }
  clear Hr Hbelow Hne Hr0.
  col_rewrite. do 16 (split; [by read_row_cells Hh |]).
  intros r' c' Hr'. by rewrite !value_at_set_row by congruence.
Qed.

(** ** The reminder sweep *)
Import Reminder.

Lemma parse_dt_truthy dv tv :
  truthy dv = true -> truthy tv = true -> parse_dt dv tv <> Ok None.
Proof.
  intros Hd Ht. unfold parse_dt. rewrite Hd, Ht. simpl.
  cbv [mbind result_bind mret result_ret].
  by destruct dv, tv.
Qed.

Lemma sent_for_cons m msgs r k :
  sent_for (m :: msgs) r k
  = if decide (msg_row m = r /\ msg_kind m = k) then m :: sent_for msgs r k
    else sent_for msgs r k.
Proof. unfold sent_for. by rewrite filter_cons. Qed.

Lemma sent_for_app l1 l2 r k :
  sent_for (l1 ++ l2) r k = (sent_for l1 r k ++ sent_for l2 r k)%list.
Proof. unfold sent_for. by rewrite filter_app. Qed.

Lemma sent_for_other msgs r r' k :
  Forall (fun m => msg_row m = r') msgs -> r <> r' -> sent_for msgs r k = [].
Proof.
  intros Hall Hne. induction Hall as [|m msgs Hm _ IH]; [done |].
  rewrite sent_for_cons, decide_False; [done | intuition congruence].
Qed.

Lemma sent_for_none msgs r k :
  Forall (fun m => msg_row m <> r) msgs -> sent_for msgs r k = [].
Proof.
  intros Hall. induction Hall as [|m msgs Hm _ IH]; [done |].
  rewrite sent_for_cons, decide_False; [done | intuition congruence].
Qed.

Lemma sent_for_elem msgs r k m :
  m ∈ sent_for msgs r k <-> m ∈ msgs /\ msg_row m = r /\ msg_kind m = k.
Proof. unfold sent_for. by rewrite list_elem_of_filter; intuition. Qed.

(** What is said of a row depends on the cells of that row only. *)
Section row_ext.
Variables (ws ws0 : worksheet) (h : gmap string nat) (r : nat).
Hypothesis same_row : forall c, ws0 !! (r, c) = ws !! (r, c).

Lemma field_ext name : field ws0 h r name = field ws h r name.
Proof.
  unfold field, value_at. destruct (h !! upper name); [| done].
  by rewrite same_row.
Qed.

Lemma considered_ext : considered ws0 h r = considered ws h r.
Proof. unfold considered. by rewrite !field_ext. Qed.

Lemma to_send_ext now k : to_send ws0 h now r k = to_send ws h now r k.
Proof. unfold to_send, start_of. by rewrite considered_ext, !field_ext. Qed.
End row_ext.

Lemma row_swept_ext (gen : nat -> string) (d0 d0' : nat)
    (ws0 ws ws' ws'' : worksheet) (h : gmap string nat) (now : datetime)
    (r : nat) (msgs msgs' : list message) :
  (forall c, ws0 !! (r, c) = ws !! (r, c)) ->
  (forall c, ws'' !! (r, c) = ws' !! (r, c)) ->
  (forall k, sent_for msgs' r k = sent_for msgs r k) ->
  d0' <= d0 ->
  row_swept gen d0 ws ws' h now r msgs ->
  row_swept gen d0' ws0 ws'' h now r msgs'.
Proof.
  intros H0 H' Hm Hd (S1 & S2 & S3 & S4 & S5). unfold row_swept.
  split; [| split; [| split; [| split]]].
  - intros k. by rewrite Hm, (to_send_ext _ _ _ _ H0).
  - intros k. by rewrite (field_ext _ _ _ _ H'), (field_ext _ _ _ _ H0),
      (to_send_ext _ _ _ _ H0).
  - rewrite (considered_ext _ _ _ _ H0). intros Hc.
    destruct (S3 Hc) as (u & Hu1 & Hu2 & Hu3 & Hu4 & Hu5 & Hu6).
    exists u. rewrite (field_ext _ _ _ _ H'), !(field_ext _ _ _ _ H0).
    repeat (split; [done |]). split.
    + intros Hb. destruct (Hu5 Hb) as (i & ? & ?). exists i. split; [lia | done].
    + intros m Hin Hr.
      assert (m ∈ sent_for msgs' r (msg_kind m)) as Hs
        by (by apply sent_for_elem).
      rewrite Hm in Hs. apply sent_for_elem in Hs as (? & _ & _). by apply Hu6.
  - rewrite (considered_ext _ _ _ _ H0). intros Hc c. by rewrite H', H0, S4.
  - intros c ? ? ?. by rewrite H', H0, S5.
Qed.

Section sweep_row.
Variable rand : nat -> N.
Variable deliver : message -> bool.
Variable h : gmap string nat.
Hypothesis h_inj : forall k1 k2 c, h !! k1 = Some c -> h !! k2 = Some c -> k1 = k2.
Variable now : datetime.

Local Abbreviation sweep_row := (sweep_row rand deliver h now).
Local Abbreviation gen := (fun i => uuid4_str (rand i)).

Ltac case_deliver k :=
  match goal with
  | |- context [deliver ?m] =>
      match eval cbn in (msg_kind m) with
      | k => destruct (deliver m) eqn:?
      end
  end.

Ltac step_col name c Hc :=
  destruct (col h name) as [c|] eqn:Hc; [apply col_inv in Hc; norm_upper | try done].

Lemma to_send_eq ws r k cD cS c start :
  h !! "DATE" = Some cD -> h !! "START TIME" = Some cS ->
  h !! flag_header k = Some c ->
  considered ws h r = true ->
  parse_dt (value_at ws r cD) (value_at ws r cS) = Ok (Some start) ->
  to_send ws h now r k
  = due k (dt_sub start now) && negb (truthy (value_at ws r c)).
Proof.
  intros HD HS Hk Hc Ep. unfold to_send, start_of. rewrite Hc.
  rewrite (field_col ws h r "DATE" cD HD), (field_col ws h r "START TIME" cS HS), Ep.
  unfold field. replace (upper (flag_header k)) with (flag_header k) by (by destruct k).
  by rewrite Hk.
Qed.

Lemma row_swept_intro ws r cU c24 c1 u d0 (b24 b1 : bool) m24 m1 :
  h !! "GCAL_UID" = Some cU -> h !! "SENT_24H" = Some c24 ->
  h !! "SENT_1H" = Some c1 ->
  considered ws h r = true ->
  to_send ws h now r R24 = b24 -> to_send ws h now r R1 = b1 ->
  msg_row m24 = r -> msg_kind m24 = R24 -> msg_uid m24 = u ->
  msg_row m1 = r -> msg_kind m1 = R1 -> msg_uid m1 = u ->
  u <> "" -> strip u = u ->
  (cell_text (value_at ws r cU) <> "" -> u = cell_text (value_at ws r cU)) ->
  (cell_text (value_at ws r cU) = "" -> exists i, d0 <= i /\ u = gen i) ->
  let ws1 := set_value ws r cU (VStr u) in
  let ws2 := if b24 then set_value ws1 r c24 (VBool true) else ws1 in
  let ws3 := if b1 then set_value ws2 r c1 (VBool true) else ws2 in
  row_swept gen d0 ws ws3 h now r
    ((if b24 then [m24] else []) ++ (if b1 then [m1] else [])).
Proof.
  intros HU H24 H1 Hc Hb24 Hb1 Hr24 Hk24 Hu24 Hr1 Hk1 Hu1 Hu Hstrip Hold Hnew.
  assert (cU <> c24) by (intros ->; discriminate (h_inj _ _ _ HU H24)).
  assert (cU <> c1) by (intros ->; discriminate (h_inj _ _ _ HU H1)).
  assert (c24 <> c1) by (intros ->; discriminate (h_inj _ _ _ H24 H1)).
  intros ws1 ws2 ws3. subst ws1 ws2 ws3. unfold row_swept.
  split; [| split; [| split; [| split]]].
  - intros k. destruct k; [rewrite Hb24 | rewrite Hb1];
      destruct b24, b1; simpl app; rewrite ?sent_for_cons;
      repeat case_decide; simpl; first [done | intuition congruence].
  - intros k.
    destruct k; simpl flag_header; [rewrite Hb24 | rewrite Hb1];
      rewrite ?(field_col _ h r "SENT_24H" c24 H24),
              ?(field_col _ h r "SENT_1H" c1 H1);
      destruct b24, b1; by read_cells.
  - intros _. exists u. rewrite !(field_col _ h r "GCAL_UID" cU HU).
    split; [destruct b24, b1; by read_cells |].
    repeat (split; [done |]).
    intros m Hm _. destruct b24, b1; simpl in Hm;
      repeat (apply elem_of_cons in Hm as [-> | Hm]); try done;
      by apply elem_of_nil in Hm.
  - congruence.
  - intros c HcU Hc24 Hc1.
    assert (cU <> c) by congruence. assert (c24 <> c) by congruence.
    assert (c1 <> c) by congruence.
    destruct b24, b1; unfold set_value;
      rewrite ?lookup_insert_ne by congruence; done.
Qed.

Lemma sweep_row_ok ws n r w ws' n' w' :
  sweep_row (ws, n) r w = (Ok (ws', n'), w') ->
  file w' = file w /\ drawn w <= drawn w'
  /\ (forall r' c, r' <> r -> ws' !! (r', c) = ws !! (r', c))
  /\ exists msgs,
       outbox w' = (outbox w ++ msgs)%list
       /\ Forall (fun m => msg_row m = r) msgs
       /\ row_swept gen (drawn w) ws ws' h now r msgs.
Proof.
  unfold Reminder.sweep_row. cbv [mbind M_bind mret M_ret lift result_ret]. cbn [fst snd].
  step_col "EVENT" cE HE. step_col "DATE" cD HD. step_col "START TIME" cS HS.
  step_col "END TIME" cN HN. step_col "EMAIL" cM HM.
  assert (Hcons : considered ws h r
    = (truthy (value_at ws r cE) && truthy (value_at ws r cD)
       && truthy (value_at ws r cS) && truthy (value_at ws r cN)
       && nonempty (cell_text (value_at ws r cM)))).
  { unfold considered. by col_rewrite. }
  rewrite <- Hcons.
  destruct (considered ws h r) eqn:Hc; cbn [negb]; cbv beta iota.
  2:{ intros [= <- <- <-]. split; [done |]. split; [done |]. split; [done |].
      exists []. rewrite app_nil_r. split; [done |]. split; [done |].
      unfold row_swept, to_send. rewrite Hc. simpl. by repeat split. }
  symmetry in Hcons.
  apply andb_true_iff in Hcons as [Hcons Hem].
  apply andb_true_iff in Hcons as [Hcons Hen].
  apply andb_true_iff in Hcons as [Hcons Hst].
  apply andb_true_iff in Hcons as [Hev Hdv].
  pose proof (parse_dt_truthy _ _ Hdv Hst) as Hp1.
  pose proof (parse_dt_truthy _ _ Hdv Hen) as Hp2.
  destruct (parse_dt (value_at ws r cD) (value_at ws r cS)) as [[start|]|] eqn:Ep1;
    [| congruence | done].
  destruct (parse_dt (value_at ws r cD) (value_at ws r cN)) as [[end_|]|] eqn:Ep2;
    [| congruence | done].
  destruct (if dt_le end_ start then _ else _) as [e|]; [| done].
  step_col "SENT_24H" c24 H24. step_col "SENT_1H" c1 H1.
  step_col "LOCATION" cL HL. step_col "CONTACT PERSON" cC HC.
  step_col "GCAL_UID" cU HU.
  pose proof (to_send_eq ws r R24 cD cS c24 start HD HS H24 Hc Ep1) as Hts24.
  pose proof (to_send_eq ws r R1 cD cS c1 start HD HS H1 Hc Ep1) as Hts1.
  simpl due in Hts24, Hts1.
  cbv beta iota.
  destruct ((if nonempty (cell_text (value_at ws r cU)) then _ else uuid4 rand) w)
    as [ru w1] eqn:Euid.
  assert (exists u, ru = Ok u /\ file w1 = file w /\ outbox w1 = outbox w
            /\ drawn w <= drawn w1 /\ u <> "" /\ strip u = u
            /\ (cell_text (value_at ws r cU) <> "" -> u = cell_text (value_at ws r cU))
            /\ (cell_text (value_at ws r cU) = "" -> exists i, drawn w <= i /\ u = gen i))
    as (u & -> & Hf1 & Ho1 & Hd1 & Hu & Hstrip & Hold & Hnew).
  { destruct (nonempty (cell_text (value_at ws r cU))) eqn:Eold.
    - injection Euid as <- <-. eexists. split; [done |].
      apply nonempty_true in Eold.
      repeat (split; [done || (unfold cell_text; apply strip_idem) |]). done.
    - unfold uuid4 in Euid. injection Euid as <- <-. eexists. split; [done |].
      destruct (uuid4_str_stripped (rand (drawn w))) as [? ?].
      apply nonempty_false in Eold. simpl.
      repeat (split; [done || lia |]). eauto. }
  rewrite <- Hts24, <- Hts1. unfold send_email.
  pose (m24 := {| msg_row := r; msg_kind := R24;
                  msg_to := cell_text (value_at ws r cM);
                  msg_subject := "24-hour reminder: " +:+ py_str (value_at ws r cE);
                  msg_uid := u |}).
  pose (m1 := {| msg_row := r; msg_kind := R1;
                 msg_to := cell_text (value_at ws r cM);
                 msg_subject := "1-hour reminder: " +:+ py_str (value_at ws r cE);
                 msg_uid := u |}).
  destruct (to_send ws h now r R24) eqn:E24;
    [case_deliver R24; [| by cbv beta iota] |];
    cbv beta iota; cbn [fst snd];
    (destruct (to_send ws h now r R1) eqn:E1;
       [case_deliver R1; [| by cbv beta iota] |]);
    cbv beta iota; cbn [fst snd file outbox drawn];
    intros [= <- <- <-]; cbn [file outbox drawn];
    (split; [done |]); (split; [done |]);
    (split; [intros r' c' Hr'; unfold set_value;
             by rewrite ?lookup_insert_ne by congruence |]);
    match goal with
    | E24 : to_send _ _ _ _ R24 = ?b24, E1 : to_send _ _ _ _ R1 = ?b1 |- _ =>
        exists ((if b24 then [m24] else []) ++ (if b1 then [m1] else []))%list;
        (split; [cbv beta iota; cbn [app];
                 by rewrite Ho1, <- ?app_assoc, ?app_nil_r |]);
        (split; [cbv beta iota; cbn [app]; by repeat constructor |]);
        by apply (row_swept_intro ws r cU c24 c1 u (drawn w) b24 b1 m24 m1)
    end.
Qed.

Ltac no_mail :=
  intros [= <- <-]; split; [done | exists []; by rewrite app_nil_r].

Ltac step_col' name c Hc :=
  destruct (col h name) as [c|] eqn:Hc;
    [apply col_inv in Hc; norm_upper | no_mail].

(** Whatever the outcome, the mail of one row is mail that was to be
    sent, and the file is not touched. *)
Lemma sweep_row_sends ws n r w res w' :
  sweep_row (ws, n) r w = (res, w') ->
  file w' = file w
  /\ exists msgs,
       outbox w' = (outbox w ++ msgs)%list
       /\ Forall (fun m => msg_row m = r
                           /\ to_send ws h now r (msg_kind m) = true
                           /\ (cell_text (field ws h r "GCAL_UID") <> "" ->
                               msg_uid m = cell_text (field ws h r "GCAL_UID")))
            msgs.
Proof.
  unfold Reminder.sweep_row. cbv [mbind M_bind mret M_ret lift result_ret]. cbn [fst snd].
  step_col' "EVENT" cE HE. step_col' "DATE" cD HD. step_col' "START TIME" cS HS.
  step_col' "END TIME" cN HN. step_col' "EMAIL" cM HM.
  assert (Hcons : considered ws h r
    = (truthy (value_at ws r cE) && truthy (value_at ws r cD)
       && truthy (value_at ws r cS) && truthy (value_at ws r cN)
       && nonempty (cell_text (value_at ws r cM)))).
  { unfold considered. by col_rewrite. }
  rewrite <- Hcons. clear Hcons.
  destruct (considered ws h r) eqn:Hc; cbn [negb]; cbv beta iota; [| no_mail].
  destruct (parse_dt (value_at ws r cD) (value_at ws r cS)) as [[start|]|] eqn:Ep1;
    [| | no_mail].
  2:{ destruct (parse_dt (value_at ws r cD) (value_at ws r cN)) as [[?|]|];
        no_mail. }
  destruct (parse_dt (value_at ws r cD) (value_at ws r cN)) as [[end_|]|] eqn:Ep2;
    [| no_mail | no_mail].
  destruct (if dt_le end_ start then _ else _) as [e|]; [| no_mail].
  step_col' "SENT_24H" c24 H24. step_col' "SENT_1H" c1 H1.
  step_col' "LOCATION" cL HL. step_col' "CONTACT PERSON" cC HC.
  step_col' "GCAL_UID" cU HU.
  pose proof (to_send_eq ws r R24 cD cS c24 start HD HS H24 Hc Ep1) as Hts24.
  pose proof (to_send_eq ws r R1 cD cS c1 start HD HS H1 Hc Ep1) as Hts1.
  simpl due in Hts24, Hts1. cbv beta iota.
  destruct ((if nonempty (cell_text (value_at ws r cU)) then _ else uuid4 rand) w)
    as [ru w1] eqn:Euid.
  assert (exists u, ru = Ok u /\ file w1 = file w /\ outbox w1 = outbox w
            /\ (cell_text (value_at ws r cU) <> "" -> u = cell_text (value_at ws r cU)))
    as (u & -> & Hf1 & Ho1 & Hold).
  { destruct (nonempty (cell_text (value_at ws r cU))) eqn:Eold.
    - injection Euid as <- <-. eauto.
    - unfold uuid4 in Euid. injection Euid as <- <-.
      apply nonempty_false in Eold. eexists. by repeat split. }
  rewrite <- Hts24, <- Hts1. unfold send_email.
  destruct (to_send ws h now r R24) eqn:E24;
    [case_deliver R24 |];
    cbv beta iota; cbn [fst snd];
    try (destruct (to_send ws h now r R1) eqn:E1;
       [case_deliver R1 |]);
    cbv beta iota; cbn [fst snd file outbox drawn];
    intros [= <- <-]; cbn [file outbox drawn];
    (split; [done |]); eexists;
    (split; [rewrite ?Ho1, <- ?app_assoc;
             first [reflexivity | symmetry; apply app_nil_r] |]);
    repeat constructor; rewrite ?(field_col ws h r "GCAL_UID" cU HU); done.
Qed.

(** The sweep of a row adds no column. *)
Lemma sweep_row_max_column ws n r w ws' n' w' :
  (forall k c, h !! k = Some c -> c <= max_column ws) ->
  sweep_row (ws, n) r w = (Ok (ws', n'), w') ->
  max_column ws' = max_column ws.
Proof.
  intros Hbound.
  unfold Reminder.sweep_row. cbv [mbind M_bind mret M_ret lift result_ret]. cbn [fst snd].
  step_col "EVENT" cE HE. step_col "DATE" cD HD. step_col "START TIME" cS HS.
  step_col "END TIME" cN HN. step_col "EMAIL" cM HM.
  destruct (negb _); [by intros [= <- <- <-] |].
  destruct (parse_dt (value_at ws r cD) (value_at ws r cS)) as [[start|]|];
    [| | done].
  2:{ destruct (parse_dt (value_at ws r cD) (value_at ws r cN)) as [[?|]|];
        [by intros [= <- <- <-] .. | done]. }
  destruct (parse_dt (value_at ws r cD) (value_at ws r cN)) as [[end_|]|];
    [| by intros [= <- <- <-] | done].
  destruct (if dt_le end_ start then _ else _) as [e|]; [| done].
  step_col "SENT_24H" c24 H24. step_col "SENT_1H" c1 H1.
  step_col "LOCATION" cL HL. step_col "CONTACT PERSON" cC HC.
  step_col "GCAL_UID" cU HU.
  pose proof (Hbound _ _ H24). pose proof (Hbound _ _ H1).
  pose proof (Hbound _ _ HU).
  cbv beta iota.
  destruct ((if nonempty (cell_text (value_at ws r cU)) then _ else uuid4 rand) w)
    as [[u|] w1]; [| done].
  unfold send_email.
  destruct (due24 _ && _);
    [case_deliver R24; [| by cbv beta iota] |];
    cbv beta iota; cbn [fst snd];
    (destruct (due1 _ && _);
       [case_deliver R1; [| by cbv beta iota] |]);
    cbv beta iota; cbn [fst snd];
    intros [= <- <- <-]; rewrite !max_column_set; lia.
Qed.

Local Abbreviation sweep := (for_each sweep_row).

(** The loop over distinct rows: each row is swept once, from the
    cells it had at the start. *)
Lemma sweep_rows_ok rows :
  NoDup rows -> forall ws n w ws' n' w',
  sweep (ws, n) rows w = (Ok (ws', n'), w') ->
  file w' = file w /\ drawn w <= drawn w'
  /\ (forall r c, r ∉ rows -> ws' !! (r, c) = ws !! (r, c))
  /\ exists msgs,
       outbox w' = (outbox w ++ msgs)%list
       /\ Forall (fun m => msg_row m ∈ rows) msgs
       /\ forall r, r ∈ rows -> row_swept gen (drawn w) ws ws' h now r msgs.
Proof.
  induction 1 as [|r0 rest Hnotin Hnodup IH]; intros ws n w ws' n' w'.
  - simpl. cbv [mret M_ret]. intros [= <- <- <-].
    split; [done |]. split; [done |]. split; [done |].
    exists []. rewrite app_nil_r. split; [done |]. split; [done |].
    intros r Hr. by apply elem_of_nil in Hr.
  - simpl. cbv [mbind M_bind].
    destruct (sweep_row (ws, n) r0 w) as [[[ws1 n1]|e] w1] eqn:E0; [| done].
    intros Hrest.
    destruct (sweep_row_ok _ _ _ _ _ _ _ E0)
      as (Hf1 & Hd1 & Hfr1 & msgs1 & Ho1 & Hall1 & Hsw1).
    destruct (IH _ _ _ _ _ _ Hrest)
      as (Hf2 & Hd2 & Hfr2 & msgs2 & Ho2 & Hall2 & Hsw2).
    split; [congruence |]. split; [lia |]. split.
    { intros r c Hr. apply not_elem_of_cons in Hr as [Hne Hr].
      by rewrite Hfr2, Hfr1. }
    exists (msgs1 ++ msgs2)%list. split; [by rewrite Ho2, Ho1, app_assoc |].
    split.
    { apply Forall_app. split.
      - eapply Forall_impl; [exact Hall1 |]. intros m Hm. cbv beta.
        rewrite Hm. by left.
      - eapply Forall_impl; [exact Hall2 |]. intros m ?. by right. }
    intros r [-> | Hr]%elem_of_cons.
    + eapply row_swept_ext; [done | | | | exact Hsw1]; [| | done].
      * intros c. by apply Hfr2.
      * intros k. rewrite sent_for_app, (sent_for_none msgs2), app_nil_r; [done |].
        eapply Forall_impl; [exact Hall2 |]. intros m Hm Heq. cbv beta in *.
        by rewrite Heq in Hm.
    + assert (r <> r0) as Hne by (by intros ->).
      eapply row_swept_ext; [| done | | exact Hd1 | exact (Hsw2 r Hr)].
      * intros c. symmetry. by apply Hfr1.
      * intros k. rewrite sent_for_app, (sent_for_none msgs1); [done |].
        eapply Forall_impl; [exact Hall1 |]. intros m Hm Heq. cbv beta in *.
        congruence.
Qed.

(** Whatever the outcome of the loop, its mail was to be sent given
    the cells at the start, and the file is not touched. *)
Lemma sweep_rows_sends rows :
  NoDup rows -> forall ws n w res w',
  sweep (ws, n) rows w = (res, w') ->
  file w' = file w
  /\ exists msgs,
       outbox w' = (outbox w ++ msgs)%list
       /\ Forall (fun m =>
            msg_row m ∈ rows
            /\ to_send ws h now (msg_row m) (msg_kind m) = true
            /\ (cell_text (field ws h (msg_row m) "GCAL_UID") <> "" ->
                msg_uid m = cell_text (field ws h (msg_row m) "GCAL_UID")))
            msgs.
Proof.
  induction 1 as [|r0 rest Hnotin Hnodup IH]; intros ws n w res w'.
  - simpl. cbv [mret M_ret]. intros [= <- <-]. split; [done |].
    exists []. by rewrite app_nil_r.
  - simpl. cbv [mbind M_bind].
    destruct (sweep_row (ws, n) r0 w) as [[[ws1 n1]|e] w1] eqn:E0.
    + intros Hrest.
      destruct (sweep_row_sends _ _ _ _ _ _ E0) as (Hf1 & msgs1 & Ho1 & Hall1).
      destruct (sweep_row_ok _ _ _ _ _ _ _ E0) as (_ & _ & Hfr1 & _).
      destruct (IH _ _ _ _ _ Hrest) as (Hf2 & msgs2 & Ho2 & Hall2).
      split; [congruence |]. exists (msgs1 ++ msgs2)%list.
      split; [by rewrite Ho2, Ho1, app_assoc |].
      apply Forall_app. split.
      * eapply Forall_impl; [exact Hall1 |]. intros m (Hm & ? & ?). cbv beta.
        rewrite Hm. split; [by left | done].
      * eapply Forall_impl; [exact Hall2 |]. intros m (Hin & Hts & Hu).
        assert (forall c, ws !! (msg_row m, c) = ws1 !! (msg_row m, c)) as Hsame.
        { intros c. symmetry. apply Hfr1. intros E. by rewrite E in Hin. }
        split; [by right |].
        by rewrite (to_send_ext _ _ _ _ Hsame), (field_ext _ _ _ _ Hsame).
    + intros [= <- <-].
      destruct (sweep_row_sends _ _ _ _ _ _ E0) as (Hf1 & msgs1 & Ho1 & Hall1).
      split; [done |]. exists msgs1. split; [done |].
      eapply Forall_impl; [exact Hall1 |]. intros m (Hm & ? & ?). cbv beta.
      rewrite Hm. split; [by left | done].
Qed.

Lemma sweep_rows_max_column rows ws n w ws' n' w' :
  (forall k c, h !! k = Some c -> c <= max_column ws) ->
  sweep (ws, n) rows w = (Ok (ws', n'), w') ->
  max_column ws' = max_column ws.
Proof.
  revert ws n w. induction rows as [|r0 rest IH]; intros ws n w Hbound.
  - simpl. cbv [mret M_ret]. by intros [= <- <- <-].
  - simpl. cbv [mbind M_bind].
    destruct (sweep_row (ws, n) r0 w) as [[[ws1 n1]|e] w1] eqn:E0; [| done].
    intros Hrest. pose proof (sweep_row_max_column _ _ _ _ _ _ _ Hbound E0) as H1.
    rewrite <- H1. eapply IH; [| exact Hrest]. by rewrite H1.
Qed.
End sweep_row.

(** ** The sweep as a whole *)
Section main.
Variable rand : nat -> N.
Variable deliver : message -> bool.

Lemma main_run cfg now w ws (h : gmap string nat) :
  smtp_ready cfg = true ->
  provision (file w) (HEADER_ROW cfg) = Ok ws ->
  get_headers ws (HEADER_ROW cfg) = Ok h ->
  main rand deliver cfg now w
  = match for_each (sweep_row rand deliver h now) (ws, 0)
            (table_rows ws (HEADER_ROW cfg)) w with
    | (Ok st, w') =>
        (Ok st.2, {| file := st.1; outbox := outbox w'; drawn := drawn w' |})
    | (Err e, w') => (Err e, w')
    end.
Proof.
  intros Hr Hprov Hh. unfold main. rewrite Hr. cbn [negb].
  cbv [mbind M_bind mret M_ret lift load_workbook ensure_tracking Reminder.save].
  rewrite Hprov, Hh. fold (table_rows ws (HEADER_ROW cfg)).
  by destruct (for_each _ _ _ w) as [[st|e] w'].
Qed.

Lemma main_not_ready cfg now w :
  smtp_ready cfg = false -> main rand deliver cfg now w = (Ok 0, w).
Proof. intros Hr. unfold main. by rewrite Hr. Qed.
End main.

Lemma considered_in_table ws hr (h : gmap string nat) r :
  hr < r -> considered ws h r = true -> r ∈ table_rows ws hr.
Proof.
  intros Hr Hc. unfold considered in Hc.
  repeat apply andb_true_iff in Hc as [Hc _].
  unfold field in Hc. destruct (h !! upper "EVENT") as [c|]; [| done].
  apply truthy_present, max_row_ge in Hc.
  unfold table_rows. apply elem_of_seq. lia.
Qed.

Lemma provision_same_row file hr ws r :
  provision file hr = Ok ws -> r <> hr ->
  forall c, file !! (r, c) = ws !! (r, c).
Proof. intros Hprov Hr c. symmetry. by apply (provision_frame _ _ _ _ _ Hprov). Qed.

Lemma to_send_considered ws (h : gmap string nat) now r k start :
  considered ws h r = true -> start_of ws h r = Some start ->
  to_send ws h now r k
  = due k (dt_sub start now) && negb (truthy (field ws h r (flag_header k))).
Proof. intros Hc Hs. unfold to_send. by rewrite Hc, Hs. Qed.

(** What a sweep that returns has done, row by row. *)
Lemma main_swept rand deliver cfg now w n w' ws (h : gmap string nat) :
  smtp_ready cfg = true ->
  provision (file w) (HEADER_ROW cfg) = Ok ws ->
  get_headers ws (HEADER_ROW cfg) = Ok h ->
  main rand deliver cfg now w = (Ok n, w') ->
  drawn w <= drawn w'
  /\ max_column (file w') = max_column ws
  /\ (forall r c, r ∉ table_rows ws (HEADER_ROW cfg) ->
        file w' !! (r, c) = ws !! (r, c))
  /\ exists msgs,
       outbox w' = (outbox w ++ msgs)%list
       /\ Forall (fun m => msg_row m ∈ table_rows ws (HEADER_ROW cfg)) msgs
       /\ forall r, r ∈ table_rows ws (HEADER_ROW cfg) ->
            row_swept (fun i => uuid4_str (rand i)) (drawn w) ws (file w') h now r msgs.
Proof.
  intros Hr Hprov Hh. rewrite (main_run _ _ _ _ _ _ _ Hr Hprov Hh).
  destruct (for_each _ _ _ w) as [[[ws1 n1]|e] w1] eqn:E; [| done].
  intros [= <- <-]. cbn [fst snd file outbox drawn].
  assert (Hinj : forall k1 k2 c, h !! k1 = Some c -> h !! k2 = Some c -> k1 = k2)
    by (intros; by eapply get_headers_inj).
  destruct (sweep_rows_ok rand deliver h Hinj now _ (NoDup_seq _ _) _ _ _ _ _ _ E)
    as (Hf & Hd & Hfr & msgs & Ho & Hall & Hsw).
  split; [done |]. split; [| split; [done | eauto]].
  eapply sweep_rows_max_column; [| exact E].
  intros k c Hk. destruct (get_headers_lookup _ _ _ _ _ Hh Hk) as (_ & ? & _). lia.
Qed.

Lemma due24_spec delta :
  due24 delta = true <-> (timedelta 23 30 <= delta <= timedelta 24 30)%Z.
Proof. unfold due24, within. rewrite andb_true_iff, !Z.leb_le. tauto. Qed.

Lemma due1_spec delta :
  due1 delta = true <-> (timedelta 0 30 <= delta <= timedelta 1 30)%Z.
Proof. unfold due1, within. rewrite andb_true_iff, !Z.leb_le. tauto. Qed.

(** C3. In a sweep that returns, for a row below the header that the
    sweep considers, with [delta] the start minus the clock reading: the
    24-hour reminder is sent, once, and SENT_24H set to true exactly when
    23.5 h <= delta <= 24.5 h and SENT_24H was false, and otherwise none is
    sent and the flag keeps its value; the same for the 1-hour reminder
    with 0.5 h <= delta <= 1.5 h and SENT_1H, whatever SENT_24H is. *)
Theorem sweep_sends_when_due rand deliver cfg now w n w' ws
    (h : gmap string nat) r start_dt :
  smtp_ready cfg = true ->
  provision (file w) (HEADER_ROW cfg) = Ok ws ->
  get_headers ws (HEADER_ROW cfg) = Ok h ->
  main rand deliver cfg now w = (Ok n, w') ->
  HEADER_ROW cfg < r ->
  considered (file w) h r = true ->
  start_of (file w) h r = Some start_dt ->
  let delta := dt_sub start_dt now in
  let was24 := truthy (field (file w) h r "SENT_24H") in
  let was1 := truthy (field (file w) h r "SENT_1H") in
  exists msgs,
    outbox w' = (outbox w ++ msgs)%list
    /\ length (sent_for msgs r R24) = (if due24 delta && negb was24 then 1 else 0)
    /\ field (file w') h r "SENT_24H"
       = (if due24 delta && negb was24 then VBool true
          else field (file w) h r "SENT_24H")
    /\ length (sent_for msgs r R1) = (if due1 delta && negb was1 then 1 else 0)
    /\ field (file w') h r "SENT_1H"
       = (if due1 delta && negb was1 then VBool true
          else field (file w) h r "SENT_1H")
    /\ (due24 delta = true <-> (timedelta 23 30 <= delta <= timedelta 24 30)%Z)
    /\ (due1 delta = true <-> (timedelta 0 30 <= delta <= timedelta 1 30)%Z).
Proof.
  intros Hr Hprov Hh Hmain Hrow Hc Hs delta was24 was1. subst delta was24 was1.
  assert (Hsame : forall c, file w !! (r, c) = ws !! (r, c))
    by (apply (provision_same_row _ _ _ _ Hprov); lia).
  rewrite (considered_ext _ _ _ _ Hsame) in Hc.
  unfold start_of in Hs. rewrite !(field_ext _ _ _ _ Hsame) in Hs.
  fold (start_of ws h r) in Hs. rewrite !(field_ext _ _ _ _ Hsame).
  destruct (main_swept _ _ _ _ _ _ _ _ _ Hr Hprov Hh Hmain)
    as (_ & _ & _ & msgs & Ho & _ & Hsw).
  destruct (Hsw r (considered_in_table _ _ _ _ Hrow Hc)) as (S1 & S2 & _).
  exists msgs. split; [done |].
  pose proof (S1 R24) as L24. pose proof (S1 R1) as L1.
  pose proof (S2 R24) as F24. pose proof (S2 R1) as F1.
  rewrite (to_send_considered _ _ _ _ R24 _ Hc Hs) in L24, F24.
  rewrite (to_send_considered _ _ _ _ R1 _ Hc Hs) in L1, F1.
  simpl in L24, L1, F24, F1.
  repeat (split; [done |]). split; [apply due24_spec | apply due1_spec].
Qed.

(** C10. In a sweep that returns, every considered row below the header
    ends with a calendar UID that is not blank: the stripped text the cell
    had when that was not empty, a UUID drawn during this sweep when it
    was; no reminder has to be due for that. *)
Theorem sweep_assigns_uid rand deliver cfg now w n w' ws (h : gmap string nat) r :
  smtp_ready cfg = true ->
  provision (file w) (HEADER_ROW cfg) = Ok ws ->
  get_headers ws (HEADER_ROW cfg) = Ok h ->
  main rand deliver cfg now w = (Ok n, w') ->
  HEADER_ROW cfg < r ->
  considered (file w) h r = true ->
  exists u,
    field (file w') h r "GCAL_UID" = VStr u
    /\ u <> "" /\ strip u = u /\ cell_text (field (file w') h r "GCAL_UID") = u
    /\ (cell_text (field (file w) h r "GCAL_UID") <> "" ->
        u = cell_text (field (file w) h r "GCAL_UID"))
    /\ (cell_text (field (file w) h r "GCAL_UID") = "" ->
        exists i, drawn w <= i /\ u = uuid4_str (rand i)).
Proof.
  intros Hr Hprov Hh Hmain Hrow Hc.
  assert (Hsame : forall c, file w !! (r, c) = ws !! (r, c))
    by (apply (provision_same_row _ _ _ _ Hprov); lia).
  rewrite (considered_ext _ _ _ _ Hsame) in Hc.
  rewrite !(field_ext _ _ _ _ Hsame).
  destruct (main_swept _ _ _ _ _ _ _ _ _ Hr Hprov Hh Hmain)
    as (_ & _ & _ & msgs & Ho & _ & Hsw).
  destruct (Hsw r (considered_in_table _ _ _ _ Hrow Hc)) as (_ & _ & S3 & _).
  destruct (S3 Hc) as (u & Hu1 & Hu2 & Hu3 & Hu4 & Hu5 & _).
  exists u. rewrite Hu1, cell_text_str. by repeat (split; [done |]).
Qed.

(** ** Repeating the sweep *)

(** Whatever its outcome, a sweep sends only what was to be sent given
    the sheet it loaded, and saves only when it returns. *)
Lemma main_sends rand deliver cfg now w res w' ws (h : gmap string nat) :
  smtp_ready cfg = true ->
  provision (file w) (HEADER_ROW cfg) = Ok ws ->
  get_headers ws (HEADER_ROW cfg) = Ok h ->
  main rand deliver cfg now w = (res, w') ->
  ((exists n, res = Ok n) \/ file w' = file w)
  /\ exists msgs,
       outbox w' = (outbox w ++ msgs)%list
       /\ Forall (fun m =>
            msg_row m ∈ table_rows ws (HEADER_ROW cfg)
            /\ to_send ws h now (msg_row m) (msg_kind m) = true
            /\ (cell_text (field ws h (msg_row m) "GCAL_UID") <> "" ->
                msg_uid m = cell_text (field ws h (msg_row m) "GCAL_UID")))
            msgs.
Proof.
  intros Hr Hprov Hh. rewrite (main_run _ _ _ _ _ _ _ Hr Hprov Hh).
  assert (Hinj : forall k1 k2 c, h !! k1 = Some c -> h !! k2 = Some c -> k1 = k2)
    by (intros; by eapply get_headers_inj).
  destruct (for_each _ _ _ w) as [[st|e] w1] eqn:E; intros [= <- <-];
    destruct st as [ws1 n1] || idtac;
    destruct (sweep_rows_sends rand deliver h Hinj now _ (NoDup_seq _ _) _ _ _ _ _ E)
      as (Hf & msgs & Ho & Hall);
    (split; [eauto |]); exists msgs; by split.
Qed.

(** A sweep that returns keeps the header map and, when the tracking
    headers are all there, leaves a provisioned sheet. *)
Lemma main_keeps_headers rand deliver cfg now w n w' ws (h : gmap string nat) :
  smtp_ready cfg = true ->
  provision (file w) (HEADER_ROW cfg) = Ok ws ->
  get_headers ws (HEADER_ROW cfg) = Ok h ->
  main rand deliver cfg now w = (Ok n, w') ->
  get_headers (file w') (HEADER_ROW cfg) = Ok h
  /\ (tracked h -> provision (file w') (HEADER_ROW cfg) = Ok (file w')).
Proof.
  intros Hr Hprov Hh Hmain.
  destruct (main_swept _ _ _ _ _ _ _ _ _ Hr Hprov Hh Hmain) as (_ & Hmax & Hfr & _).
  assert (Hh' : get_headers (file w') (HEADER_ROW cfg) = Ok h).
  { rewrite <- Hh. apply get_headers_ext; [| done].
    intros c. unfold value_at. rewrite Hfr; [done |].
    unfold table_rows. rewrite elem_of_seq. lia. }
  split; [done |]. intros Ht. by eapply provision_noop.
Qed.

(** A sweep does not touch the cells of a row outside the calendar UID
    and the two sent-flags. *)
Lemma row_swept_field (gen : nat -> string) (d0 : nat) (ws ws' : worksheet)
    (h : gmap string nat) (now : datetime) (r : nat) (msgs : list message)
    (name : string) :
  (forall k1 k2 c, h !! k1 = Some c -> h !! k2 = Some c -> k1 = k2) ->
  row_swept gen d0 ws ws' h now r msgs ->
  upper name ∉ ["GCAL_UID"; "SENT_24H"; "SENT_1H"] ->
  field ws' h r name = field ws h r name.
Proof.
  intros Hinj (_ & _ & _ & _ & S5) Hname. unfold field, value_at.
  destruct (h !! upper name) as [c|] eqn:Hc; [| done].
  rewrite S5; [done | ..]; intros Hk; apply Hname;
    rewrite (Hinj _ _ _ Hc Hk); set_solver.
Qed.

(** The calendar UID of a row, once there, stays through every later
    sweep, whatever the clock, the SMTP server and the outcome; the mail
    of that row carries it. *)
Lemma sweep_uid_stable rand deliver cfg now w res w' (h : gmap string nat) r u :
  tracked h -> HEADER_ROW cfg < r -> u <> "" -> strip u = u ->
  uid_settled (HEADER_ROW cfg) h r u w ->
  main rand deliver cfg now w = (res, w') ->
  uid_settled (HEADER_ROW cfg) h r u w'
  /\ exists msgs,
       outbox w' = (outbox w ++ msgs)%list
       /\ forall m, m ∈ msgs -> msg_row m = r -> msg_uid m = u.
Proof.
  intros Ht Hrow Hu Hstrip (Hprov & Hh & Hcell) Hmain.
  destruct (smtp_ready cfg) eqn:Hr.
  2:{ rewrite (main_not_ready _ _ _ _ _ Hr) in Hmain. injection Hmain as <- <-.
      split; [done |]. exists []. rewrite app_nil_r. split; [done |].
      intros m Hm. by apply elem_of_nil in Hm. }
  assert (Htext : cell_text (field (file w) h r "GCAL_UID") = u)
    by (by rewrite Hcell, cell_text_str).
  destruct (main_sends _ _ _ _ _ _ _ _ _ Hr Hprov Hh Hmain)
    as (Hres & msgs & Ho & Hall).
  split.
  - destruct Hres as [[n ->] | Hf]; [| unfold uid_settled; by rewrite Hf].
    destruct (main_keeps_headers _ _ _ _ _ _ _ _ _ Hr Hprov Hh Hmain) as [Hh' Hp'].
    split; [by apply Hp' |]. split; [done |].
    destruct (main_swept _ _ _ _ _ _ _ _ _ Hr Hprov Hh Hmain)
      as (_ & _ & Hfr & msgs' & _ & _ & Hsw).
    destruct (decide (r ∈ table_rows (file w) (HEADER_ROW cfg))) as [Hin | Hout].
    + destruct (Hsw r Hin) as (_ & _ & S3 & S4 & _).
      destruct (considered (file w) h r) eqn:Hc.
      * destruct (S3 eq_refl) as (u' & Hu1 & _ & _ & Hu4 & _).
        rewrite Hu1, Hu4; [by rewrite Htext | by rewrite Htext].
      * rewrite <- Hcell. apply field_ext. by apply S4.
    + rewrite <- Hcell. apply field_ext. intros c. by apply Hfr.
  - exists msgs. split; [done |]. intros m Hm Hrm.
    rewrite Forall_forall in Hall. destruct (Hall m Hm) as (_ & _ & Huid).
    rewrite Hrm, Htext in Huid. by apply Huid.
Qed.

(** C4. After a sweep that returns, for a considered row below the
    header of a sheet with the six tracking headers: a reminder sent for
    the row is not sent again by the next sweep, whenever that runs and
    whatever its outcome; the next sweep at the same clock reading sends
    nothing for the row; and the calendar UID the row now has is the one
    every later sweep reads, uses in its mail and writes back. *)
Theorem sweep_idempotent rand deliver cfg now w n w1 ws (h : gmap string nat) r :
  smtp_ready cfg = true ->
  provision (file w) (HEADER_ROW cfg) = Ok ws ->
  get_headers ws (HEADER_ROW cfg) = Ok h ->
  tracked h ->
  main rand deliver cfg now w = (Ok n, w1) ->
  HEADER_ROW cfg < r ->
  considered (file w) h r = true ->
  exists msgs1 u,
    outbox w1 = (outbox w ++ msgs1)%list
    /\ u <> "" /\ uid_settled (HEADER_ROW cfg) h r u w1
    /\ (forall rand' deliver' now' res w2,
          main rand' deliver' cfg now' w1 = (res, w2) ->
          exists msgs2,
            outbox w2 = (outbox w1 ++ msgs2)%list
            /\ (forall k, sent_for msgs1 r k <> [] -> sent_for msgs2 r k = [])
            /\ (now' = now -> forall k, sent_for msgs2 r k = []))
    /\ (forall w' rand' deliver' now' res w2,
          uid_settled (HEADER_ROW cfg) h r u w' ->
          main rand' deliver' cfg now' w' = (res, w2) ->
          uid_settled (HEADER_ROW cfg) h r u w2
          /\ exists msgs2,
               outbox w2 = (outbox w' ++ msgs2)%list
               /\ forall m, m ∈ msgs2 -> msg_row m = r -> msg_uid m = u).
Proof.
  intros Hr Hprov Hh Ht Hmain Hrow Hc.
  assert (Hsame : forall c, file w !! (r, c) = ws !! (r, c))
    by (apply (provision_same_row _ _ _ _ Hprov); lia).
  rewrite (considered_ext _ _ _ _ Hsame) in Hc.
  assert (Hinj : forall k1 k2 c, h !! k1 = Some c -> h !! k2 = Some c -> k1 = k2)
    by (intros; by eapply get_headers_inj).
  destruct (main_swept _ _ _ _ _ _ _ _ _ Hr Hprov Hh Hmain)
    as (_ & _ & _ & msgs1 & Ho1 & _ & Hsw).
  pose proof (Hsw r (considered_in_table _ _ _ _ Hrow Hc)) as Hswr.
  destruct Hswr as (S1 & S2 & S3 & S4 & S5).
  destruct (S3 Hc) as (u & Hu1 & Hu2 & Hu3 & _).
  destruct (main_keeps_headers _ _ _ _ _ _ _ _ _ Hr Hprov Hh Hmain) as [Hh1 Hp1].
  specialize (Hp1 Ht).
  exists msgs1, u. split; [done |]. split; [done |]. split; [by repeat split |].
  split.
  - intros rand' deliver' now' res w2 Hmain2.
    destruct (main_sends _ _ _ _ _ _ _ _ _ Hr Hp1 Hh1 Hmain2)
      as (_ & msgs2 & Ho2 & Hall2).
    exists msgs2. split; [done |].
    assert (Hblock : forall k now2, to_send (file w1) h now2 r k = false ->
                                    sent_for msgs2 r k = [] \/ now2 <> now').
    { intros k now2 Hk. destruct (decide (now2 = now')) as [-> | ?]; [left | by right].
      destruct (sent_for msgs2 r k) as [|m l] eqn:E; [done |].
      assert (m ∈ sent_for msgs2 r k) as Hm by (rewrite E; by left).
      apply sent_for_elem in Hm as (Hm & Hrm & Hkm).
      rewrite Forall_forall in Hall2. destruct (Hall2 m Hm) as (_ & Hts & _).
      rewrite Hrm, Hkm in Hts. congruence. }
    assert (Hsent : forall k, to_send ws h now r k = true ->
                              forall now2, to_send (file w1) h now2 r k = false).
    { intros k Hk now2. unfold to_send. rewrite S2, Hk. simpl.
      by rewrite andb_false_r. }
    split.
    + intros k Hk. destruct (Hblock k now') as [? | ?]; [| done | done].
      apply Hsent. specialize (S1 k).
      destruct (to_send ws h now r k); [done |].
      destruct (sent_for msgs1 r k); [done | simpl in S1; lia].
    + intros -> k. destruct (Hblock k now) as [? | ?]; [| done | done].
      destruct (to_send ws h now r k) eqn:Hk; [by apply Hsent |].
      rewrite <- Hk. unfold to_send, start_of, considered.
      rewrite S2, Hk.
      rewrite !(row_swept_field _ _ _ _ _ _ _ _ _ Hinj (Hsw r (considered_in_table _ _ _ _ Hrow Hc)));
        [done | intros Hx; apply list_elem_of_In in Hx; vm_compute in Hx;
                intuition discriminate ..].
  - intros w' rand' deliver' now' res w2 Hset Hmain2.
    by eapply sweep_uid_stable.
Qed.

(** ** The sample workbook *)
Import Sample.

Lemma unwrap_eq {A} (d : A) (r : result A) :
  (match r with Ok _ => true | Err _ => false end) = true -> r = Ok (unwrap d r).
Proof. by destruct r. Qed.

Lemma pair_eq {A B} (p : A * B) (a : A) : p.1 = a -> p = (a, p.2).
Proof. destruct p. simpl. by intros ->. Qed.

Ltac computed := vm_compute; reflexivity.
Ltac all_present :=
  cbv [tracked present SLOT_HEADERS TRACK_HEADERS app];
  repeat (constructor; [vm_compute; eexists; reflexivity |]);
  constructor.

Lemma book_provisioned : provision book 1 = Ok book'.
Proof. apply unwrap_eq. computed. Qed.

Lemma book_headers : get_headers book' 1 = Ok headers.
Proof. apply unwrap_eq. computed. Qed.

Lemma reserved_provisioned : provision reserved 1 = Ok reserved.
Proof.
  apply (provision_noop _ _ (unwrap ∅ (get_headers reserved 1))).
  - apply unwrap_eq. computed.
  - all_present.
Qed.

Lemma reserved_headers : get_headers reserved 1 = Ok headers.
Proof.
  unfold reserved.
  assert (present headers (["FIRST NAME"; "LAST NAME"] ++ TRACK_HEADERS)) as Hp
    by all_present.
  assert (cell_text (field book' headers 2 "FIRST NAME") = "") as Hfn by computed.
  assert (cell_text (field book' headers 2 "LAST NAME") = "") as Hln by computed.
  rewrite (reserve_open_run book 1 book' headers 2 alice clock
             book_provisioned book_headers Hp ltac:(lia) Hfn Hln).
  apply reserved_sheet_headers; [apply book_headers | lia].
Qed.

Lemma swept_once : main rand deliver cfg clock w0 = (Ok 1, w1).
Proof. apply pair_eq. computed. Qed.

(** C7, as stated, fails.  Row 3 of the sample book is fully blank: the
    specification places the new slot after it, in row 4, and the code
    writes it into row 3, leaving row 4 as it was.  With a note under
    LOCATION in row 3 no row is fully blank: the specification places the
    slot at the end, in row 5, and the code again fills row 3, replacing
    the note. *)
Lemma add_slot_not_after_blank_row :
  let add := admin_add_slot_excel 1 "Fair" "Quad" (Date 2025 4 2)
               (Time 9 0 0 0) (Time 12 0 0 0) 3 "Lee" in
  (blank_row book' 3 = true /\ stated_add_row book' 1 = 4
   /\ (add book).1 = Ok (true, "Added slot at row 3.")
   /\ value_at (add book).2 3 1 = VStr "Fair"
   /\ value_at (add book).2 4 1 = VStr "Night Watch")
  /\ (blank_row noted 3 = false /\ stated_add_row noted 1 = 5
      /\ (add noted).1 = Ok (true, "Added slot at row 3.")
      /\ value_at noted 3 2 = VStr "TBD"
      /\ value_at (add noted).2 3 2 = VStr "Quad"
      /\ value_at (add noted).2 5 1 = VNone).
Proof. vm_compute. repeat split; reflexivity. Qed.

(** C8 at a header row with an empty cell before FIRST NAME and EMAIL:
    provisioning writes the five missing headers from the empty cell on,
    over FIRST NAME and EMAIL, which then resolve no more; a second
    provisioning adds EMAIL again, in column 13; and a reservation on the
    sheet raises KeyError. *)
Theorem provision_overwrites_headers :
  provision gapped 1 = Ok gapped'
  /\ value_at gapped 1 8 = VNone /\ value_at gapped' 1 8 = VStr "USER_ID"
  /\ value_at gapped 1 9 = VStr "FIRST NAME"
  /\ value_at gapped' 1 9 = VStr "RESERVED_AT"
  /\ value_at gapped 1 10 = VStr "EMAIL"
  /\ value_at gapped' 1 10 = VStr "SENT_24H"
  /\ (exists h, get_headers gapped' 1 = Ok h
               /\ h !! "FIRST NAME" = None /\ h !! "EMAIL" = None)
  /\ provision gapped' 1 = Ok gapped''
  /\ value_at gapped' 1 13 = VNone /\ value_at gapped'' 1 13 = VStr "EMAIL"
  /\ (reserve_excel_slot 1 2 alice clock gapped).1 = Err (KeyError "FIRST NAME").
Proof.
  split; [apply unwrap_eq; computed |].
  do 6 (split; [computed |]).
  split.
  { exists (unwrap ∅ (get_headers gapped' 1)).
    split; [apply unwrap_eq; computed |]. split; computed. }
  split; [apply unwrap_eq; computed |].
  repeat split; computed.
Qed.

Lemma reserve_open_slot_witness :
  cell_text (field book headers 2 "FIRST NAME") = ""
  /\ cell_text (field book headers 2 "LAST NAME") = ""
  /\ names_given (u_first_name alice) (u_last_name alice) = true
  /\ exists file',
       reserve_excel_slot 1 2 alice clock book = (Ok (true, "Reserved!"), file')
       /\ field file' headers 2 "FIRST NAME" = VStr (strip (u_first_name alice))
       /\ field file' headers 2 "EMAIL" = VStr (lower (strip (u_email alice)))
       /\ field file' headers 2 "RESERVED_AT" = VDateTime clock
       /\ truthy (field file' headers 2 "SENT_24H") = false
       /\ name_cells_taken (field file' headers 2 "FIRST NAME")
                           (field file' headers 2 "LAST NAME") = true.
Proof.
  assert (cell_text (field book headers 2 "FIRST NAME") = "") as Hfn by computed.
  assert (cell_text (field book headers 2 "LAST NAME") = "") as Hln by computed.
  assert (names_given (u_first_name alice) (u_last_name alice) = true) as Hn
    by computed.
  assert (present headers (["FIRST NAME"; "LAST NAME"] ++ TRACK_HEADERS)) as Hp
    by all_present.
  do 3 (split; [assumption |]).
  pose proof (reserve_open_slot (H := Z) (fun z => Ok z) (fun _ => Err ValueError)
                book 1 book' headers 2 alice clock book_provisioned book_headers
                Hp ltac:(lia) Hfn Hln)
    as (file' & Hrun & _ & F1 & _ & F3 & _ & F5 & _ & _ & _ & T24 & _ & Htaken).
  exists file'. split; [exact Hrun |]. split; [exact F1 |]. split; [exact F3 |].
  split; [exact F5 |]. split; [exact T24 |]. exact (proj1 (Htaken Hn)).
Defined.

Lemma reserve_taken_slot_witness :
  cell_text (field book headers 4 "FIRST NAME") <> ""
  /\ reserve_excel_slot 1 4 alice clock book
     = (Ok (false, "That slot is already taken."), book')
  /\ forall c, value_at book' 4 c = value_at book 4 c.
Proof.
  assert (cell_text (field book headers 4 "FIRST NAME") <> "") as Hfn
    by (vm_compute; discriminate).
  assert (present headers ["FIRST NAME"; "LAST NAME"]) as Hp by all_present.
  split; [exact Hfn |].
  pose proof (reserve_taken_slot book 1 book' headers 4 alice clock
                book_provisioned book_headers Hp ltac:(lia) (or_introl Hfn))
    as (Hrun & _ & Hrow & _).
  split; [exact Hrun | exact Hrow].
Defined.

Lemma cancel_reservation_witness :
  (exists msg, cancel_excel_reservation 1 2 "bob@cleary.edu" reserved
               = (Ok (false, msg), reserved))
  /\ exists file',
       cancel_excel_reservation 1 2 "ALICE@cleary.edu " reserved
       = (Ok (true, "Cancelled."), file')
       /\ field file' headers 2 "FIRST NAME" = VStr ""
       /\ field file' headers 2 "EMAIL" = VStr "".
Proof.
  assert (present headers (["FIRST NAME"; "LAST NAME"; "COMPLETED"] ++ TRACK_HEADERS))
    as Hp by all_present.
  split.
  - pose proof (cancel_reservation reserved 1 reserved headers 2 "bob@cleary.edu"
                  reserved_provisioned reserved_headers Hp ltac:(lia))
      as (Hother & _ & _).
    eexists. apply Hother. vm_compute. discriminate.
  - pose proof (cancel_reservation reserved 1 reserved headers 2 "ALICE@cleary.edu "
                  reserved_provisioned reserved_headers Hp ltac:(lia))
      as (_ & _ & Hown).
    assert (lower (cell_text (field reserved headers 2 "EMAIL"))
            = lower (strip "ALICE@cleary.edu ")) as Hmail by computed.
    assert (cell_text (field reserved headers 2 "COMPLETED") = "") as Hcompl
      by computed.
    destruct (Hown Hmail Hcompl) as (file' & Hrun & _ & F1 & _ & F3 & _).
    exists file'. split; [exact Hrun |]. split; [exact F1 | exact F3].
Defined.

Lemma add_slot_fills_first_open_row_witness :
  first_open_row book' headers 1 = 3
  /\ exists file',
       admin_add_slot_excel 1 "Fair" "Quad" (Date 2025 4 2) (Time 9 0 0 0)
         (Time 12 0 0 0) 3 "Lee" book
       = (Ok (true, "Added slot at row "
                    +:+ pretty (first_open_row book' headers 1) +:+ "."), file')
       /\ field file' headers (first_open_row book' headers 1) "EVENT"
          = VStr (strip "Fair").
Proof.
  split; [computed |].
  assert (present headers
            (["EVENT"; "DATE"; "START TIME"; "LOCATION"; "END TIME"; "HOURS";
              "CONTACT PERSON"; "FIRST NAME"; "LAST NAME"; "COMPLETED"]
             ++ TRACK_HEADERS)) as Hp by all_present.
  pose proof (add_slot_fills_first_open_row book 1 book' headers "Fair" "Quad"
                (Date 2025 4 2) (Time 9 0 0 0) (Time 12 0 0 0) 3 "Lee"
                book_provisioned book_headers Hp)
    as (file' & Hrun & _ & _ & F1 & _).
  exists file'. split; [exact Hrun | exact F1].
Defined.

Lemma book_rows : table_rows book' 1 = [2; 3; 4].
Proof. computed. Qed.

Lemma list_slots_rows_witness :
  exists slots : list (@Slot Z),
    (list_slots (fun z => Ok z) (fun _ => Err ValueError) 1 book).1 = Ok slots
    /\ CUSA.row <$> slots
       = filter (fun r => listable book' headers r = true) (table_rows book' 1)
    /\ Forall (fun s => dt_lt (start_dt s) (end_dt s) = true) slots.
Proof.
  pose proof (list_slots_rows (H := Z) (fun z => Ok z) (fun _ => Err ValueError)
                book 1 book' headers book_provisioned book_headers)
    as [Hret Hrows].
  assert (present headers SLOT_HEADERS) as Hp by all_present.
  assert (forall r, r ∈ table_rows book' 1 -> listable book' headers r = true ->
            (exists x, py_float (H := Z) (fun z => Ok z) (fun _ => Err ValueError)
                         (field book' headers r "HOURS") = Ok x)
            /\ forall d, parse_excel_date (field book' headers r "DATE") = Some d ->
                         (N.of_nat (year d) < MAXYEAR)%N) as Hok.
  { intros r Hr Hl. rewrite book_rows in Hr.
    apply list_elem_of_In in Hr. cbn [In] in Hr.
    destruct Hr as [<- | [<- | [<- | []]]].
    - split; [exists 1%Z; computed |].
      intros d Hd. vm_compute in Hd. injection Hd as <-. computed.
    - vm_compute in Hl. discriminate.
    - split; [exists 3%Z; computed |].
      intros d Hd. vm_compute in Hd. injection Hd as <-. computed. }
  destruct (Hret Hp Hok) as [slots Hslots].
  exists slots. split; [exact Hslots |].
  destruct (Hrows slots Hslots) as [Hr Hall]. split; [exact Hr |].
  eapply Forall_impl; [exact Hall |].
  intros s Hs. exact (proj1 (proj2 (proj2 Hs))).
Defined.

Lemma sweep_sends_when_due_witness :
  smtp_ready cfg = true
  /\ considered (file w0) headers 2 = true
  /\ start_of (file w0) headers 2 = Some (DateTime (Date 2025 3 1) (Time 10 0 0 0))
  /\ dt_sub (DateTime (Date 2025 3 1) (Time 10 0 0 0)) clock = 86429999750%Z
  /\ exists msgs,
       outbox w1 = (outbox w0 ++ msgs)%list
       /\ length (sent_for msgs 2 R24) = 1
       /\ field (file w1) headers 2 "SENT_24H" = VBool true
       /\ length (sent_for msgs 2 R1) = 0.
Proof.
  assert (smtp_ready cfg = true) as Hr by computed.
  assert (considered (file w0) headers 2 = true) as Hc by computed.
  assert (start_of (file w0) headers 2
          = Some (DateTime (Date 2025 3 1) (Time 10 0 0 0))) as Hs by computed.
  assert (HEADER_ROW cfg < 2) as Hrow by (vm_compute; lia).
  do 3 (split; [assumption |]). split; [computed |].
  pose proof (sweep_sends_when_due rand deliver cfg clock w0 1 w1 reserved headers 2
                (DateTime (Date 2025 3 1) (Time 10 0 0 0))
                Hr reserved_provisioned reserved_headers swept_once Hrow Hc Hs)
    as (msgs & Ho & L24 & F24 & L1 & _).
  assert (due24 (dt_sub (DateTime (Date 2025 3 1) (Time 10 0 0 0)) clock)
          && negb (truthy (field (file w0) headers 2 "SENT_24H")) = true) as E24
    by computed.
  assert (due1 (dt_sub (DateTime (Date 2025 3 1) (Time 10 0 0 0)) clock)
          && negb (truthy (field (file w0) headers 2 "SENT_1H")) = false) as E1
    by computed.
  cbv zeta in L24, F24, L1. rewrite E24 in L24, F24. rewrite E1 in L1.
  exists msgs. split; [exact Ho |]. split; [exact L24 |]. split; [exact F24 | exact L1].
Defined.

Lemma sweep_assigns_uid_witness :
  cell_text (field (file w0) headers 2 "GCAL_UID") = ""
  /\ exists u,
       field (file w1) headers 2 "GCAL_UID" = VStr u
       /\ u <> "" /\ exists i, u = uuid4_str (rand i).
Proof.
  assert (smtp_ready cfg = true) as Hr by computed.
  assert (considered (file w0) headers 2 = true) as Hc by computed.
  assert (HEADER_ROW cfg < 2) as Hrow by (vm_compute; lia).
  assert (cell_text (field (file w0) headers 2 "GCAL_UID") = "") as Hblank
    by computed.
  split; [exact Hblank |].
  pose proof (sweep_assigns_uid rand deliver cfg clock w0 1 w1 reserved headers 2
                Hr reserved_provisioned reserved_headers swept_once Hrow Hc)
    as (u & Hu & Hne & _ & _ & _ & Hnew).
  exists u. split; [exact Hu |]. split; [exact Hne |].
  destruct (Hnew Hblank) as (i & _ & Hi). exists i. exact Hi.
Defined.

Lemma sweep_idempotent_witness :
  exists msgs1 u,
    outbox w1 = (outbox w0 ++ msgs1)%list
    /\ uid_settled (HEADER_ROW cfg) headers 2 u w1
    /\ exists msgs2,
         outbox (main rand deliver cfg clock w1).2 = (outbox w1 ++ msgs2)%list
         /\ sent_for msgs2 2 R24 = [] /\ sent_for msgs2 2 R1 = []
         /\ uid_settled (HEADER_ROW cfg) headers 2 u (main rand deliver cfg clock w1).2.
Proof.
  assert (smtp_ready cfg = true) as Hr by computed.
  assert (considered (file w0) headers 2 = true) as Hc by computed.
  assert (HEADER_ROW cfg < 2) as Hrow by (vm_compute; lia).
  assert (tracked headers) as Ht by all_present.
  pose proof (sweep_idempotent rand deliver cfg clock w0 1 w1 reserved headers 2
                Hr reserved_provisioned reserved_headers Ht swept_once Hrow Hc)
    as (msgs1 & u & Ho1 & Hu & Hset & Hnext & Hstable).
  exists msgs1, u. split; [exact Ho1 |]. split; [exact Hset |].
  destruct (Hnext rand deliver clock _ _ (surjective_pairing _))
    as (msgs2 & Ho2 & _ & Hsame).
  exists msgs2. split; [exact Ho2 |].
  split; [exact (Hsame eq_refl R24) |]. split; [exact (Hsame eq_refl R1) |].
  exact (proj1 (Hstable w1 rand deliver clock _ _ Hset (surjective_pairing _))).
Defined.

(** * Further properties *)

(** ** The header map, exactly *)

Lemma names_inj ws hr c k k' : names ws hr c k -> names ws hr c k' -> k = k'.
Proof. intros (s & E & _ & <-) (s' & E' & _ & <-). congruence. Qed.

Lemma names_dec ws hr c k : names ws hr c k \/ ~ names ws hr c k.
Proof.
  unfold names. destruct (value_at ws hr c) as [|v| | | | |] eqn:E;
    try (right; intros (s & ? & _); congruence).
  destruct (nonempty (strip v)) eqn:En.
  - destruct (decide (upper (strip v) = k)) as [<- | Hne].
    + left. by exists v.
    + right. intros (s & [= <-] & _ & ?). done.
  - right. intros (s & [= <-] & ? & _). congruence.
Qed.

Lemma header_step_hit ws hr (h : gmap string nat) c k :
  names ws hr c k -> header_step ws hr h c !! k = Some c.
Proof.
  intros (s & E & Hs & <-). unfold header_step. rewrite E, Hs.
  by rewrite lookup_insert_eq.
Qed.

Lemma header_step_miss ws hr (h : gmap string nat) c k :
  ~ names ws hr c k -> header_step ws hr h c !! k = h !! k.
Proof.
  intros Hn. unfold header_step.
  destruct (value_at ws hr c) as [|v| | | | |] eqn:E; try done.
  destruct (nonempty (strip v)) eqn:En; [| done].
  rewrite lookup_insert_ne; [done |]. intros <-. apply Hn. by exists v.
Qed.

Lemma headers_fold_spec ws hr n k c :
  foldl (header_step ws hr) ∅ (seq 1 n) !! k = Some c <->
  1 <= c <= n /\ names ws hr c k
  /\ forall c', c < c' <= n -> ~ names ws hr c' k.
Proof.
  revert c. induction n as [|n IH]; intros c.
  - simpl. rewrite lookup_empty. split; [done | lia].
  - rewrite seq_S, foldl_app. simpl.
    destruct (names_dec ws hr (S n) k) as [Hn | Hn].
    + rewrite (header_step_hit _ _ _ _ _ Hn). split.
      * intros [= <-]. split; [lia |]. split; [done | lia].
      * intros (Hc & Hk & Hlast).
        destruct (decide (c = S n)) as [-> | Hne]; [done |].
        exfalso. apply (Hlast (S n)); [lia | done].
    + rewrite (header_step_miss _ _ _ _ _ Hn), IH. split.
      * intros (Hc & Hk & Hlast). split; [lia |]. split; [done |].
        intros c' Hc'. destruct (decide (c' = S n)) as [-> | ?]; [done |].
        apply Hlast. lia.
      * intros (Hc & Hk & Hlast).
        assert (c <> S n) by (intros ->; done).
        split; [lia |]. split; [done |]. intros c' Hc'. apply Hlast. lia.
Qed.

Lemma names_in_sheet ws hr c k : names ws hr c k -> c <= max_column ws.
Proof.
  intros (s & E & _). apply (max_column_ge ws hr c).
  apply not_none_present. by rewrite E.
Qed.

Lemma get_headers_spec ws hr (h : gmap string nat) k c :
  get_headers ws hr = Ok h ->
  h !! k = Some c <->
  1 <= c /\ names ws hr c k /\ forall c', c < c' -> ~ names ws hr c' k.
Proof.
  unfold get_headers. case_decide; [done |]. intros [= <-].
  rewrite headers_fold_spec. split.
  - intros (Hc & Hk & Hlast). split; [lia |]. split; [done |].
    intros c' Hc' Hk'. apply (Hlast c'); [| done].
    apply names_in_sheet in Hk'. lia.
  - intros (Hc & Hk & Hlast). split; [| split; [done |]].
    + apply names_in_sheet in Hk. lia.
    + intros c' Hc'. apply Hlast. lia.
Qed.

Lemma headers_fold_complete ws hr n k c :
  1 <= c <= n -> names ws hr c k ->
  is_Some (foldl (header_step ws hr) ∅ (seq 1 n) !! k).
Proof.
  induction n as [|n IH]; [lia |]. intros Hc Hk.
  rewrite seq_S, foldl_app. simpl.
  destruct (names_dec ws hr (S n) k) as [Hn | Hn].
  - rewrite (header_step_hit _ _ _ _ _ Hn). eauto.
  - rewrite (header_step_miss _ _ _ _ _ Hn). apply IH; [| done].
    destruct (decide (c = S n)) as [-> | ?]; [done | lia].
Qed.

(** A name is in the header map as soon as one column has it. *)
Lemma get_headers_complete ws hr (h : gmap string nat) k c :
  get_headers ws hr = Ok h -> 1 <= c -> names ws hr c k -> is_Some (h !! k).
Proof.
  unfold get_headers. case_decide; [done |]. intros [= <-] Hc Hk.
  apply (headers_fold_complete _ _ _ _ c); [| done].
  apply names_in_sheet in Hk. lia.
Qed.

(** X1. The header map holds a name exactly under the rightmost column
    of the header row, counted from 1, whose cell is text that is that
    name once stripped and put in upper case; a name is in the map as
    soon as one column has it.  So lookups ignore case and surrounding
    blanks, cells that are blank or not text are no headers, and of two
    columns with one name the right one is used. *)
Theorem get_headers_rightmost ws hr (h : gmap string nat) k :
  get_headers ws hr = Ok h ->
  (forall c, h !! k = Some c <->
             1 <= c /\ names ws hr c k /\ forall c', c < c' -> ~ names ws hr c' k)
  /\ (is_Some (h !! k) <-> exists c, 1 <= c /\ names ws hr c k).
Proof.
  intros Hh. split; [intros c; by apply get_headers_spec |]. split.
  - intros [c Hc]. apply (get_headers_spec _ _ _ _ _ Hh) in Hc. exists c. tauto.
  - intros (c & Hc & Hk). by eapply get_headers_complete.
Qed.

(** ** Provisioning a header row without gaps *)

Lemma beyond_max_column ws r c : max_column ws < c -> value_at ws r c = VNone.
Proof.
  intros Hc. unfold value_at. destruct (ws !! (r, c)) as [v|] eqn:E; [| done].
  assert (c <= max_column ws) by (apply (max_column_ge ws r c); eauto). lia.
Qed.

(** The scan stops at the first empty cell of the header row. *)
Lemma first_free_spec ws hr fuel c0 :
  c0 + fuel = S (max_column ws) ->
  let f := first_free ws hr fuel c0 in
  c0 <= f /\ value_at ws hr f = VNone
  /\ forall c, c0 <= c < f -> value_at ws hr c <> VNone.
Proof.
  revert c0. induction fuel as [|fuel IH]; intros c0 Hsum; simpl.
  - split; [lia |]. split; [apply beyond_max_column; lia | lia].
  - destruct (bool_decide (value_at ws hr c0 = VNone)) eqn:E; simpl.
    + apply bool_decide_eq_true in E. split; [lia |]. split; [done | lia].
    + apply bool_decide_eq_false in E.
      rewrite bool_decide_eq_true_2 by lia.
      destruct (IH (S c0)) as (H1 & H2 & H3); [lia |].
      split; [lia |]. split; [done |]. intros c Hc.
      destruct (decide (c = c0)) as [-> | ?]; [done | apply H3; lia].
Qed.

(** The loop over [TRACK_HEADERS] writes the headers that are missing
    side by side, from the column it starts at. *)
Lemma track_steps_spec (hr : nat) (h : gmap string nat) (l : list string)
    (st : worksheet * nat) :
  let missing := filter (fun th => h !! upper th = None) l in
  let st' := foldl (track_step hr h) st l in
  st'.2 = st.2 + length missing
  /\ forall r c,
       value_at st'.1 r c
       = if decide (r = hr /\ st.2 <= c < st.2 + length missing)
         then VStr (default "" (missing !! (c - st.2)))
         else value_at st.1 r c.
Proof.
  revert st. induction l as [|th l IH]; intros st; simpl.
  - split; [lia |]. intros r c. rewrite decide_False by lia. done.
  - destruct (h !! upper th) as [c0|] eqn:E.
    + rewrite filter_cons_False by (by rewrite E).
      replace (track_step hr h st th) with st
        by (unfold track_step; by rewrite E).
      apply IH.
    + rewrite filter_cons_True by done.
      replace (track_step hr h st th)
        with (set_value st.1 hr st.2 (VStr th), S st.2)
        by (unfold track_step; by rewrite E).
      destruct (IH (set_value st.1 hr st.2 (VStr th), S st.2)) as [IH1 IH2].
      simpl in *. split; [lia |]. intros r c. rewrite IH2.
      repeat case_decide; try lia.
      * replace (c - st.2) with (S (c - S st.2)) by lia. done.
      * destruct_and!. subst r.
        assert (c = st.2) as -> by lia. rewrite Nat.sub_diag. simpl.
        by rewrite value_at_set_eq.
      * rewrite value_at_set_ne; [done |]. intros [= <- <-]. lia.
Qed.

Lemma track_headers_plain th :
  th ∈ TRACK_HEADERS ->
  nonempty (strip th) = true /\ upper (strip th) = th /\ upper th = th.
Proof.
  revert th. apply Forall_forall. unfold TRACK_HEADERS.
  repeat constructor.
Qed.

(** X2. On a header row with no value to the right of an empty cell,
    provisioning overwrites nothing and appends the missing tracking
    headers after the last header cell: the old headers keep their
    columns, the new header map holds the old names and the six tracking
    names and no other, each added header stands in a column that was
    empty and right of every cell of the header row that held a value,
    and a second provisioning changes nothing. *)
Theorem provision_appends ws hr (h : gmap string nat) :
  get_headers ws hr = Ok h -> header_prefix ws hr ->
  exists ws' h',
    provision ws hr = Ok ws'
    /\ (forall r c, value_at ws r c <> VNone -> value_at ws' r c = value_at ws r c)
    /\ get_headers ws' hr = Ok h'
    /\ h ⊆ h' /\ tracked h'
    /\ (forall k, is_Some (h' !! k) <-> is_Some (h !! k) \/ k ∈ TRACK_HEADERS)
    /\ (forall th c, th ∈ TRACK_HEADERS -> h !! th = None -> h' !! th = Some c ->
          value_at ws hr c = VNone
          /\ forall c', 1 <= c' -> value_at ws hr c' <> VNone -> c' < c)
    /\ provision ws' hr = Ok ws'.
Proof.
  intros Hh Hprefix.
  set (f := first_free ws hr (max_column ws) 1).
  set (missing := filter (fun th => h !! upper th = None) TRACK_HEADERS).
  set (ws' := (foldl (track_step hr h) (ws, f) TRACK_HEADERS).1).
  destruct (first_free_spec ws hr (max_column ws) 1 eq_refl) as (Hf1 & Hf2 & Hf3).
  fold f in Hf1, Hf2, Hf3.
  assert (Hfree : forall c, f <= c -> value_at ws hr c = VNone).
  { intros c Hc. apply (Hprefix f c); [lia | done]. }
  destruct (track_steps_spec hr h TRACK_HEADERS (ws, f)) as [_ Hval].
  fold missing in Hval. fold ws' in Hval. simpl in Hval.
  assert (Hkeep : forall r c, value_at ws r c <> VNone ->
                              value_at ws' r c = value_at ws r c).
  { intros r c Hv. rewrite Hval. case_decide as Hin; [| done].
    destruct Hin as [-> Hc]. rewrite Hfree in Hv by lia. done. }
  assert (Hhr : hr <> 0).
  { unfold get_headers in Hh. by case_decide. }
  destruct (get_headers ws' hr) as [h'|] eqn:Hh';
    [| unfold get_headers in Hh'; by case_decide].
  assert (Hold : forall c k, names ws hr c k -> names ws' hr c k).
  { intros c k (s & E & Hs). exists s. split; [| done].
    rewrite Hkeep; [done | by rewrite E]. }
  assert (Hnew : forall c k, names ws' hr c k ->
            names ws hr c k \/ (k ∈ TRACK_HEADERS /\ h !! k = None /\ f <= c)).
  { intros c k (s & E & Hs & Hk). rewrite Hval in E. case_decide as Hin.
    - right. destruct Hin as [_ Hc].
      destruct (missing !! (c - f)) as [th|] eqn:Eth.
      + injection E as <-. simpl in *.
        apply list_elem_of_lookup_2, list_elem_of_filter in Eth as [Hnone Hth].
        destruct (track_headers_plain _ Hth) as (_ & H2 & H3).
        rewrite H2 in Hk. subst k. rewrite H3 in Hnone. split; [done |].
        split; [done | lia].
      + apply lookup_ge_None in Eth. lia.
    - left. exists s. done. }
  assert (Hadd : forall th, th ∈ TRACK_HEADERS -> h !! th = None ->
            exists c, 1 <= c /\ names ws' hr c th).
  { intros th Hth Hnone.
    destruct (track_headers_plain _ Hth) as (H1 & H2 & H3).
    assert (th ∈ missing) as Hm.
    { apply list_elem_of_filter. split; [by rewrite H3 | done]. }
    apply list_elem_of_lookup in Hm as [i Hi].
    pose proof (lookup_lt_Some _ _ _ Hi) as Hlt.
    exists (f + i). split; [lia |]. exists th. split; [| done].
    rewrite Hval. rewrite decide_True by lia.
    replace (f + i - f) with i by lia. by rewrite Hi. }
  assert (Hsub : h ⊆ h').
  { apply map_subseteq_spec. intros k c Hk.
    apply (get_headers_spec _ _ _ _ _ Hh) in Hk as (Hc & Hn & Hlast).
    apply (get_headers_spec _ _ _ _ _ Hh'). split; [done |].
    split; [by apply Hold |]. intros c' Hc' [Hn' | (_ & Hnone & _)]%Hnew.
    - by apply (Hlast c').
    - destruct (get_headers_complete _ _ _ _ _ Hh Hc Hn) as [? ?]. congruence. }
  assert (Hdom : forall k, is_Some (h' !! k) <-> is_Some (h !! k) \/ k ∈ TRACK_HEADERS).
  { intros k. split.
    - intros [c Hk]. apply (get_headers_spec _ _ _ _ _ Hh') in Hk as (Hc & Hn & _).
      apply Hnew in Hn as [Hn | (? & _)]; [left | by right].
      by eapply get_headers_complete.
    - intros [[c Hk] | Hk].
      + exists c. by eapply lookup_weaken.
      + destruct (h !! k) as [c|] eqn:E.
        * exists c. by eapply lookup_weaken.
        * destruct (Hadd _ Hk E) as (c & Hc & Hn).
          by eapply get_headers_complete. }
  assert (Ht : tracked h').
  { apply Forall_forall. intros th Hth.
    destruct (track_headers_plain _ Hth) as (_ & _ & ->). apply Hdom. by right. }
  exists ws', h'. split.
  { unfold provision. rewrite Hh. done. }
  split; [done |]. split; [done |]. split; [done |]. split; [done |].
  split; [done |]. split; [| by apply (provision_noop _ _ h')].
  intros th c Hth Hnone Hk.
  apply (get_headers_spec _ _ _ _ _ Hh') in Hk as (Hc & Hn & _).
  apply Hnew in Hn as [Hn | (_ & _ & Hfc)].
  - destruct (get_headers_complete _ _ _ _ _ Hh Hc Hn) as [? ?]. congruence.
  - split; [by apply Hfree |]. intros c' Hc' Hv.
    destruct (decide (c' < f)) as [? | ?]; [lia |].
    rewrite Hfree in Hv by lia. done.
Qed.

(** ** Case and blanks *)

Lemma is_space_lower c : is_space (lower_char c) = is_space c.
Proof. by destruct c as [[] [] [] [] [] [] [] []]. Qed.

Lemma lower_char_idem c : lower_char (lower_char c) = lower_char c.
Proof. by destruct c as [[] [] [] [] [] [] [] []]. Qed.

Lemma lower_upper_char c : lower_char (upper_char c) = lower_char c.
Proof. by destruct c as [[] [] [] [] [] [] [] []]. Qed.

Lemma upper_lower_char c : upper_char (lower_char c) = upper_char c.
Proof. by destruct c as [[] [] [] [] [] [] [] []]. Qed.

Lemma lower_idem s : lower (lower s) = lower s.
Proof.
  induction s as [|c s IH]; [done |]. unfold lower in *. simpl.
  by rewrite lower_char_idem, IH.
Qed.

Lemma lower_upper s : lower (upper s) = lower s.
Proof.
  induction s as [|c s IH]; [done |]. unfold lower, upper in *. simpl.
  by rewrite lower_upper_char, IH.
Qed.

Lemma upper_lower s : upper (lower s) = upper s.
Proof.
  induction s as [|c s IH]; [done |]. unfold lower, upper in *. simpl.
  by rewrite upper_lower_char, IH.
Qed.

Lemma lstrip_lower s : lstrip (lower s) = lower (lstrip s).
Proof.
  induction s as [|c s IH]; [done |]. unfold lower in *. simpl.
  rewrite is_space_lower. by destruct (is_space c).
Qed.

Lemma rstrip_lower s : rstrip (lower s) = lower (rstrip s).
Proof.
  induction s as [|c s IH]; [done |]. unfold lower in *. simpl.
  rewrite IH, is_space_lower. destruct (rstrip s); simpl; [| done].
  by destruct (is_space c).
Qed.

(** Stripping and lowering commute. *)
Lemma strip_lower s : strip (lower s) = lower (strip s).
Proof. unfold strip. by rewrite lstrip_lower, rstrip_lower. Qed.

(** The email a reservation stores is read back as itself. *)
Lemma stored_email_read e :
  lower (cell_text (VStr (lower (strip e)))) = lower (strip e).
Proof. by rewrite cell_text_str, strip_lower, strip_idem, lower_idem. Qed.

(** ** Cancelling, run *)

Lemma cancel_run file hr ws (h : gmap string nat) row email :
  provision file hr = Ok ws -> get_headers ws hr = Ok h ->
  present h (["FIRST NAME"; "LAST NAME"; "COMPLETED"] ++ TRACK_HEADERS) ->
  0 < row ->
  lower (cell_text (field ws h row "EMAIL")) = lower (strip email) ->
  cell_text (field ws h row "COMPLETED") = "" ->
  cancel_excel_reservation hr row email file
  = (Ok (true, "Cancelled."), cancelled_sheet ws h row).
Proof.
  intros Hprov Hh Hp Hrow. columns Hp.
  destruct (get_headers_lookup _ _ _ _ _ Hh Hc2) as (_ & ? & _).
  col_rewrite. intros Hem Hco.
  unfold cancel_excel_reservation, cancelled_sheet. run_prog.
  rewrite Hprov, Hh. col_rewrite. rewrite cell_ok by lia.
  rewrite bool_decide_eq_true_2 by done. simpl. rewrite Hco. simpl.
  by rewrite Hc, Hc0, Hc2, Hc3, Hc4, Hc5, Hc6, Hc7.
Qed.

Lemma cancelled_sheet_fields ws hr (h : gmap string nat) row :
  get_headers ws hr = Ok h ->
  present h (["FIRST NAME"; "LAST NAME"] ++ TRACK_HEADERS) ->
  let ws' := cancelled_sheet ws h row in
  field ws' h row "FIRST NAME" = VStr ""
  /\ field ws' h row "LAST NAME" = VStr ""
  /\ field ws' h row "EMAIL" = VStr ""
  /\ field ws' h row "USER_ID" = VStr ""
  /\ field ws' h row "RESERVED_AT" = VStr ""
  /\ field ws' h row "SENT_24H" = VBool false
  /\ field ws' h row "SENT_1H" = VBool false
  /\ field ws' h row "GCAL_UID" = VStr "".
Proof.
  intros Hh Hp ws'. subst ws'. columns Hp. distinct_columns Hh.
  unfold cancelled_sheet. rewrite Hc, Hc0, Hc1, Hc2, Hc3, Hc4, Hc5, Hc6.
  col_rewrite. repeat split; by read_cells.
Qed.

Lemma cancelled_sheet_headers ws hr (h : gmap string nat) row :
  get_headers ws hr = Ok h -> row <> hr ->
  get_headers (cancelled_sheet ws h row) hr = Ok h.
Proof.
  intros Hh Hr. unfold cancelled_sheet.
  repeat match goal with
  | |- context [h !! ?k] => destruct (h !! k) eqn:?
  end; repeat (eapply set_value_headers; [| eassumption | done]); done.
Qed.

Ltac skip_puts Hc :=
  repeat match goal with
  | |- context [match ?h !! ?k with _ => _ end] =>
      let E := fresh "E" in
      destruct (h !! k) eqn:E;
      [ rewrite value_at_set_col;
        [| intros ->; apply (Hc k); [by repeat constructor | exact E] ]
      | ]
  end.

Lemma reserved_sheet_other ws (h : gmap string nat) row user now r c :
  r <> row \/ (forall name, name ∈ reservation_headers -> h !! name <> Some c) ->
  value_at (reserved_sheet ws h row user now) r c = value_at ws r c.
Proof.
  intros [Hr | Hc]; [by apply reserved_sheet_frame |].
  unfold reserved_sheet. by skip_puts Hc.
Qed.

Lemma cancelled_sheet_other ws (h : gmap string nat) row r c :
  r <> row \/ (forall name, name ∈ reservation_headers -> h !! name <> Some c) ->
  value_at (cancelled_sheet ws h row) r c = value_at ws r c.
Proof.
  intros [Hr | Hc].
  - unfold cancelled_sheet.
    repeat match goal with
    | |- context [h !! ?k] => destruct (h !! k)
    end; by rewrite ?value_at_set_row by congruence.
  - unfold cancelled_sheet. by skip_puts Hc.
Qed.

Lemma field_other ws ws' (h : gmap string nat) r name :
  (forall c, h !! upper name = Some c -> value_at ws' r c = value_at ws r c) ->
  field ws' h r name = field ws h r name.
Proof. intros Hc. unfold field. destruct (h !! upper name); [by apply Hc | done]. Qed.

(** ** Reserving and cancelling, composed *)

Lemma present_app (h : gmap string nat) l1 l2 :
  present h (l1 ++ l2) <-> present h l1 /\ present h l2.
Proof. apply Forall_app. Qed.

Lemma present_cons (h : gmap string nat) k l :
  present h (k :: l) <-> is_Some (h !! upper k) /\ present h l.
Proof. apply (Forall_cons (fun th => is_Some (h !! upper th))). Qed.

(** X3. A reservation can be taken back: after a user reserved an open
    slot whose COMPLETED cell is blank, cancelling with the same email,
    in any case and with any blanks around it, is accepted; the slot is
    then open again, what the sheet held outside the eight reservation
    cells of the row is as before, and the slot can be reserved anew. *)
Theorem reserve_then_cancel file hr ws (h : gmap string nat) row user now email :
  provision file hr = Ok ws -> get_headers ws hr = Ok h ->
  present h (["FIRST NAME"; "LAST NAME"; "COMPLETED"] ++ TRACK_HEADERS) ->
  hr < row ->
  cell_text (field file h row "FIRST NAME") = "" ->
  cell_text (field file h row "LAST NAME") = "" ->
  cell_text (field file h row "COMPLETED") = "" ->
  lower (strip email) = lower (strip (u_email user)) ->
  let file1 := (reserve_excel_slot hr row user now file).2 in
  exists file2,
    cancel_excel_reservation hr row email file1 = (Ok (true, "Cancelled."), file2)
    /\ name_cells_taken (field file2 h row "FIRST NAME")
                        (field file2 h row "LAST NAME") = false
    /\ cell_text (field file2 h row "EMAIL") = ""
    /\ (forall r c,
          r <> row
          \/ (forall name, name ∈ reservation_headers -> h !! name <> Some c) ->
          value_at file2 r c = value_at ws r c)
    /\ forall user2 now2,
         (reserve_excel_slot hr row user2 now2 file2).1 = Ok (true, "Reserved!").
Proof.
  intros Hprov Hh Hp Hrow Hfn Hln Hco Hem file1.
  assert (Hsame : forall n, field file h row n = field ws h row n).
  { intros n. unfold field. destruct (h !! upper n); [| done].
    symmetry. apply (provision_frame_value _ _ _ _ _ Hprov). lia. }
  rewrite Hsame in Hfn, Hln, Hco.
  assert (0 < row) as Hpos by lia. assert (row <> hr) as Hne by lia.
  pose proof Hp as Hp'. apply present_app in Hp' as [Hn Ht].
  assert (Hp1 : present h (["FIRST NAME"; "LAST NAME"] ++ TRACK_HEADERS)).
  { apply present_app. split; [| done].
    apply present_cons in Hn as [? Hn]. apply present_cons in Hn as [? Hn].
    by repeat constructor. }
  assert (Hcompl : exists c, h !! "COMPLETED" = Some c).
  { apply present_cons in Hn as [_ Hn]. apply present_cons in Hn as [_ Hn].
    by apply present_cons in Hn as [? _]. }
  destruct Hcompl as [cC HcC].
  assert (Hother : forall name, name ∈ reservation_headers -> h !! name <> Some cC).
  { intros name Hin Hname.
    assert (name = "COMPLETED") as -> by (by eapply get_headers_inj).
    apply list_elem_of_In in Hin. vm_compute in Hin. intuition discriminate. }
  subst file1.
  rewrite (reserve_open_run _ _ _ _ _ user now Hprov Hh Hp1 Hpos Hfn Hln). simpl.
  set (ws1 := reserved_sheet ws h row user now).
  assert (Hh1 : get_headers ws1 hr = Ok h) by (by apply reserved_sheet_headers).
  assert (Hprov1 : provision ws1 hr = Ok ws1) by (by apply (provision_noop _ _ h)).
  pose proof (reserved_sheet_fields ws hr h row user now Hh Hp1)
    as (_ & _ & F3 & _). fold ws1 in F3.
  assert (Hem1 : lower (cell_text (field ws1 h row "EMAIL")) = lower (strip email)).
  { rewrite F3, stored_email_read. done. }
  assert (Hco1 : cell_text (field ws1 h row "COMPLETED") = "").
  { assert (field ws1 h row "COMPLETED" = field ws h row "COMPLETED") as ->;
      [| exact Hco].
    apply field_other. intros c Hc.
    change (upper "COMPLETED") with "COMPLETED" in Hc.
    assert (c = cC) as -> by congruence.
    apply reserved_sheet_other. by right. }
  exists (cancelled_sheet ws1 h row).
  split; [by apply cancel_run |].
  set (ws2 := cancelled_sheet ws1 h row).
  pose proof (cancelled_sheet_fields ws1 hr h row Hh1 Hp1)
    as (G1 & G2 & G3 & _). fold ws2 in G1, G2, G3.
  assert (Hh2 : get_headers ws2 hr = Ok h) by (by apply cancelled_sheet_headers).
  assert (Hprov2 : provision ws2 hr = Ok ws2) by (by apply (provision_noop _ _ h)).
  split; [by rewrite G1, G2 |]. split; [by rewrite G3 |]. split.
  - intros r c Hrc. unfold ws2. rewrite cancelled_sheet_other by done.
    by apply reserved_sheet_other.
  - intros user2 now2.
    rewrite (reserve_open_run ws2 hr ws2 h row user2 now2 Hprov2 Hh2 Hp1 Hpos);
      [done | by rewrite G1 | by rewrite G2].
Qed.

(** A header cell reads as its name, up to case. *)
Lemma header_cell_text ws hr (h : gmap string nat) k c :
  get_headers ws hr = Ok h -> h !! k = Some c ->
  0 < hr /\ 0 < c
  /\ cell_text (value_at ws hr c) <> ""
  /\ upper (cell_text (value_at ws hr c)) = k.
Proof.
  intros Hh Hk.
  destruct (get_headers_lookup _ _ _ _ _ Hh Hk) as (Hhr & Hc & s & E & Hs & Hu).
  split; [done |]. split; [lia |]. rewrite E, cell_text_str.
  split; [by apply nonempty_true | done].
Qed.

(** X4. The header row is no slot: a reservation of the header row is
    refused as already taken, and a cancellation of the header row is
    refused for every email, so neither writes over the headers. *)
Theorem header_row_is_no_slot file hr ws (h : gmap string nat) user now email :
  provision file hr = Ok ws -> get_headers ws hr = Ok h ->
  present h ["FIRST NAME"; "LAST NAME"; "EMAIL"; "COMPLETED"] ->
  reserve_excel_slot hr hr user now file
  = (Ok (false, "That slot is already taken."), ws)
  /\ exists msg,
       cancel_excel_reservation hr hr email file = (Ok (false, msg), ws).
Proof.
  intros Hprov Hh Hp. pose proof Hp as Hp'. columns Hp'.
  destruct (header_cell_text _ _ _ _ _ Hh Hc) as (Hhr & _ & Hfn & _).
  destruct (header_cell_text _ _ _ _ _ Hh Hc1) as (_ & HcE & _ & _).
  destruct (header_cell_text _ _ _ _ _ Hh Hc2) as (_ & _ & Hco & _).
  split.
  - apply (reserve_taken_run _ _ _ h); [done | done | | done |].
    + apply present_cons in Hp as [? Hp]. apply present_cons in Hp as [? Hp].
      by repeat constructor.
    + left. by col_rewrite.
  - unfold cancel_excel_reservation. run_prog. rewrite Hprov, Hh. col_rewrite.
    rewrite cell_ok by lia. case_bool_decide; simpl; [| eauto].
    apply nonempty_true in Hco. rewrite Hco. eauto.
Qed.

(** ** Adding a slot, then listing *)

Lemma add_slot_run file hr ws (h : gmap string nat)
    event location d start_t end_t hours contact :
  provision file hr = Ok ws -> get_headers ws hr = Ok h ->
  present h (["EVENT"; "DATE"; "START TIME"; "LOCATION"; "END TIME"; "HOURS";
              "CONTACT PERSON"; "FIRST NAME"; "LAST NAME"; "COMPLETED"]
             ++ TRACK_HEADERS) ->
  let r := first_open_row ws h hr in
  exists file',
    admin_add_slot_excel hr event location d start_t end_t hours contact file
    = (Ok (true, "Added slot at row " +:+ pretty r +:+ "."), file')
    /\ hr < r
    /\ get_headers file' hr = Ok h
    /\ field file' h r "EVENT" = VStr (strip event)
    /\ field file' h r "LOCATION" = VStr (strip location)
    /\ field file' h r "DATE" = VDateTime (DateTime d (Time 0 0 0 0))
    /\ field file' h r "START TIME" = VTime start_t
    /\ field file' h r "END TIME" = VTime end_t
    /\ field file' h r "HOURS" = VInt hours
    /\ field file' h r "CONTACT PERSON" = VStr (strip contact)
    /\ field file' h r "FIRST NAME" = VStr ""
    /\ field file' h r "LAST NAME" = VStr ""
    /\ field file' h r "COMPLETED" = VStr ""
    /\ field file' h r "EMAIL" = VStr ""
    /\ forall r' c, r' <> r -> value_at file' r' c = value_at ws r' c.
Proof.
  intros Hprov Hh Hp r.
  assert (Hscan : present h ["EVENT"; "DATE"; "START TIME"]).
  { unfold present in *. apply Forall_app in Hp as [Hp _].
    by do 3 (apply Forall_cons in Hp as [? Hp]; constructor; [done |]). }
  destruct (scan_rows_first_open ws h (max_row ws) (S hr) Hscan ltac:(lia))
    as (r0 & Hr0 & Hr).
  change (S (max_row ws) - S hr) with (max_row ws - hr) in Hr.
  fold (table_rows ws hr) in Hr. fold (first_open_row ws h hr) in Hr. fold r in Hr.
  columns Hp.
  assert (hr < r) as Hbelow by (by eapply first_open_row_below).
  assert (r <> hr) as Hne by lia.
  unfold admin_add_slot_excel. run_prog. rewrite Hprov, Hh, Hr0. col_rewrite.
  rewrite Hr. eexists. split; [reflexivity |]. split; [done |].
  split.
  { repeat (eapply set_value_headers; [| eassumption | exact Hne]). done. }
  clear Hr Hbelow Hne Hr0.
  col_rewrite. do 11 (split; [by read_row_cells Hh |]).
  intros r' c' Hr'. by rewrite !value_at_set_row by congruence.
Qed.

Section listed.
Context {H : Type}.
Variable float_of_int : Z -> result H.
Variable float_of_str : string -> result H.

Local Abbreviation read_row := (read_row float_of_int float_of_str).
Local Abbreviation read_rows := (read_rows float_of_int float_of_str).
Local Abbreviation list_slots := (list_slots float_of_int float_of_str).

(** The other fields of a slot read from row [r]. *)
Lemma read_row_more ws (h : gmap string nat) r (s : @Slot H) :
  read_row ws h r = Ok (Some s) ->
  location s = cell_text (field ws h r "LOCATION")
  /\ contact s = cell_text (field ws h r "CONTACT PERSON")
  /\ py_float float_of_int float_of_str (field ws h r "HOURS") = Ok (hours s).
Proof.
  unfold CUSA.read_row, field, col. norm_upper.
  cbv [mbind result_bind mret result_ret].
  destruct (h !! "EVENT") as [cE|]; [| done].
  destruct (h !! "DATE") as [cD|]; [| done].
  destruct (h !! "START TIME") as [cS|]; [| done].
  destruct (h !! "END TIME") as [cN|]; [| done].
  destruct (negb _); [done |].
  destruct (negb _); [done |].
  destruct (parse_excel_date (value_at ws r cD)) as [d|]; [| done].
  destruct (parse_excel_time (value_at ws r cS)) as [stt|]; [| done].
  destruct (parse_excel_time (value_at ws r cN)) as [ent|]; [| done].
  destruct (if dt_le _ _ then _ else _) as [e|] eqn:Eend; [| done].
  destruct (h !! "LOCATION") as [cL|]; [| done].
  destruct (h !! "HOURS") as [cH|]; [| done].
  destruct (py_float _ _ _) as [hh|] eqn:Eh; [| done].
  destruct (h !! "CONTACT PERSON") as [cC|]; [| done].
  destruct (h !! "FIRST NAME") as [cF|]; [| done].
  destruct (h !! "LAST NAME") as [cLn|]; [| done].
  destruct (h !! "COMPLETED") as [cCo|]; [| done].
  destruct (h !! "EMAIL") as [cEm|]; [| done].
  intros [= <-]. simpl. done.
Qed.

(** The slot of a listable row of the table is in the listing. *)
Lemma listed_row file hr (h : gmap string nat) r slots :
  get_headers file hr = Ok h -> tracked h ->
  (list_slots hr file).1 = Ok slots ->
  hr < r <= max_row file -> listable file h r = true ->
  exists s : @Slot H, s ∈ slots /\ read_row file h r = Ok (Some s).
Proof.
  intros Hh Ht Hlist Hr Hl.
  rewrite (list_slots_run _ _ _ _ _ h (provision_noop _ _ _ Hh Ht) Hh) in Hlist.
  simpl in Hlist. apply read_rows_spec in Hlist as (new & -> & Hrows & Hall).
  rewrite app_nil_l.
  assert (r ∈ CUSA.row <$> new) as Hin.
  { rewrite Hrows. apply list_elem_of_filter. split; [done |].
    unfold table_rows. apply elem_of_seq. lia. }
  apply list_elem_of_fmap in Hin as (s & -> & Hs).
  exists s. split; [done |]. rewrite Forall_forall in Hall. by apply Hall.
Qed.

(** X5. A slot the admin adds is listed: when the event name is not
    blank, the listing of the saved workbook has a slot for the row that
    was filled, with the stripped event, location and contact, the given
    date and times, the end moved to the next day when it is not after
    the start, and it is open, with no email and not completed. *)
Theorem added_slot_is_listed file hr ws (h : gmap string nat)
    event location d start_t end_t hours contact slots :
  provision file hr = Ok ws -> get_headers ws hr = Ok h ->
  present h (["EVENT"; "DATE"; "START TIME"; "LOCATION"; "END TIME"; "HOURS";
              "CONTACT PERSON"; "FIRST NAME"; "LAST NAME"; "COMPLETED"]
             ++ TRACK_HEADERS) ->
  strip event <> "" ->
  let file' :=
    (admin_add_slot_excel hr event location d start_t end_t hours contact file).2 in
  (list_slots hr file').1 = Ok slots ->
  exists s : @Slot H,
    s ∈ slots /\ CUSA.row s = first_open_row ws h hr
    /\ CUSA.event s = strip event
    /\ CUSA.location s = strip location
    /\ CUSA.contact s = strip contact
    /\ py_float float_of_int float_of_str (VInt hours) = Ok (CUSA.hours s)
    /\ start_dt s = slot_datetime d start_t
    /\ end_dt s = (if dt_le (slot_datetime d end_t) (slot_datetime d start_t)
                   then plus_one_day (slot_datetime d end_t)
                   else slot_datetime d end_t)
    /\ dt_lt (start_dt s) (end_dt s) = true
    /\ is_taken s = false /\ CUSA.email s = "" /\ completed s = "".
Proof.
  intros Hprov Hh Hp Hev file' Hlist.
  destruct (add_slot_run file hr ws h event location d start_t end_t hours contact
              Hprov Hh Hp)
    as (f' & Hrun & Hr & Hh' & F1 & F2 & F3 & F4 & F5 & F6 & F7 & F8 & F9 & F10
        & F11 & _).
  subst file'. rewrite Hrun in Hlist. simpl in Hlist.
  set (r := first_open_row ws h hr) in *.
  assert (Ht : tracked h) by (by apply present_app in Hp as [_ ?]).
  assert (Hl : listable f' h r = true).
  { unfold listable. rewrite F1, F3, F4, F5, cell_text_str, strip_idem. simpl.
    rewrite !andb_true_r. by apply nonempty_true. }
  assert (Hmax : r <= max_row f').
  { pose proof Hp as Hp'. columns Hp'.
    apply (max_row_ge f' r c). apply not_none_present.
    rewrite <- (field_col f' h r "EVENT" c Hc), F1. done. }
  destruct (listed_row f' hr h r slots Hh' Ht Hlist (conj Hr Hmax) Hl)
    as (s & Hs & Hrow).
  destruct (read_row_some _ _ _ _ _ _ Hrow)
    as (_ & Hr' & Hev' & Hfn & Hln & Hco & Hem & d' & stt & ent & Hd & Hst & Hen
        & Hstart & Hend).
  destruct (read_row_more _ _ _ _ Hrow) as (Hloc & Hcon & Hhours).
  rewrite F3 in Hd. rewrite F4 in Hst. rewrite F5 in Hen. simpl in Hd, Hst, Hen.
  injection Hd as <-. injection Hst as <-. injection Hen as <-.
  exists s. split; [done |]. split; [done |].
  split; [by rewrite Hev', F1, cell_text_str, strip_idem |].
  split; [by rewrite Hloc, F2, cell_text_str, strip_idem |].
  split; [by rewrite Hcon, F7, cell_text_str, strip_idem |].
  split; [by rewrite <- F6 |]. split; [done |].
  split.
  { destruct (dt_le _ _); [by apply add_one_day_inv | congruence]. }
  split; [rewrite Hstart; by eapply rolled_end_after_start |].
  split; [unfold is_taken; by rewrite Hfn, Hln, F8, F9 |].
  split; [by rewrite Hem, F11 | by rewrite Hco, F10].
Qed.
End listed.

(** ** The mail of a sweep *)
Section sweep_mail.
Variable rand : nat -> N.
Variable deliver : message -> bool.
Variable h : gmap string nat.
Variable now : datetime.

Local Abbreviation sweep_row := (sweep_row rand deliver h now).

Ltac case_deliver k :=
  match goal with
  | |- context [deliver ?m] =>
      match eval cbn in (msg_kind m) with
      | k => destruct (deliver m) eqn:?
      end
  end.

Ltac no_mail :=
  intros [= <- <-]; exists []; rewrite app_nil_r;
  split; [done |]; split; [done |]; intros ? ? [= <- <-]; simpl; lia.

Ltac step_col' name c Hc :=
  destruct (col h name) as [c|] eqn:Hc;
    [apply col_inv in Hc; norm_upper | try (intros [= <- <-]; exists []; rewrite app_nil_r;
  split; [done |]; split; [done |]; intros ? ? [=]) ].

(** The mail of one row goes to the stripped EMAIL cell of the row, its
    subject names the event, and the count grows by the mail sent. *)
Lemma sweep_row_mail ws n r w res w' :
  sweep_row (ws, n) r w = (res, w') ->
  exists msgs,
    outbox w' = (outbox w ++ msgs)%list
    /\ Forall (fun m => msg_row m = r
                        /\ msg_to m = cell_text (field ws h r "EMAIL")
                        /\ msg_subject m
                           = reminder_subject (msg_kind m) (field ws h r "EVENT"))
         msgs
    /\ forall ws1 n1, res = Ok (ws1, n1) -> n1 = n + length msgs.
Proof.
  unfold Reminder.sweep_row. cbv [mbind M_bind mret M_ret lift result_ret]. cbn [fst snd].
  step_col' "EVENT" cE HE. step_col' "DATE" cD HD. step_col' "START TIME" cS HS.
  step_col' "END TIME" cN HN. step_col' "EMAIL" cM HM.
  rewrite (field_col ws h r "EMAIL" cM HM), (field_col ws h r "EVENT" cE HE).
  destruct (negb _); cbv beta iota; [no_mail |].
  destruct (parse_dt (value_at ws r cD) (value_at ws r cS)) as [[start|]|] eqn:Ep1.
  2:{ destruct (parse_dt (value_at ws r cD) (value_at ws r cN)) as [[?|]|];
        [no_mail | no_mail |].
      intros [= <- <-]; exists []; rewrite app_nil_r.
      split; [done |]; split; [done |]; intros ? ? [=]. }
  2:{ intros [= <- <-]; exists []; rewrite app_nil_r.
      split; [done |]; split; [done |]; intros ? ? [=]. }
  destruct (parse_dt (value_at ws r cD) (value_at ws r cN)) as [[end_|]|] eqn:Ep2;
    [| no_mail |].
  2:{ intros [= <- <-]; exists []; rewrite app_nil_r.
      split; [done |]; split; [done |]; intros ? ? [=]. }
  destruct (if dt_le end_ start then _ else _) as [e|].
  2:{ intros [= <- <-]; exists []; rewrite app_nil_r.
      split; [done |]; split; [done |]; intros ? ? [=]. }
  step_col' "SENT_24H" c24 H24. step_col' "SENT_1H" c1 H1.
  step_col' "LOCATION" cL HL. step_col' "CONTACT PERSON" cC HC.
  step_col' "GCAL_UID" cU HU.
  cbv beta iota.
  destruct ((if nonempty (cell_text (value_at ws r cU)) then _ else uuid4 rand) w)
    as [ru w1] eqn:Euid.
  assert (exists u, ru = Ok u /\ outbox w1 = outbox w) as (u & -> & Ho1).
  { destruct (nonempty (cell_text (value_at ws r cU))) eqn:Eold.
    - injection Euid as <- <-. eauto.
    - unfold uuid4 in Euid. injection Euid as <- <-. eauto. }
  unfold send_email.
  destruct (due24 _ && _);
    [case_deliver R24 |];
    cbv beta iota; cbn [fst snd];
    try (destruct (due1 _ && _);
       [case_deliver R1 |]);
    cbv beta iota; cbn [fst snd file outbox drawn];
    intros [= <- <-]; cbn [file outbox drawn];
    eexists;
    (split; [rewrite ?Ho1, <- ?app_assoc;
             first [reflexivity | symmetry; apply app_nil_r] |]);
    (split; [by repeat constructor |]);
    intros ? ? E; try discriminate E; injection E as <- <-; simpl; lia.
Qed.
End sweep_mail.

Section sweep_loop_mail.
Variable rand : nat -> N.
Variable deliver : message -> bool.
Variable h : gmap string nat.
Hypothesis h_inj : forall k1 k2 c, h !! k1 = Some c -> h !! k2 = Some c -> k1 = k2.
Variable now : datetime.

Local Abbreviation sweep := (for_each (sweep_row rand deliver h now)).

Lemma sweep_rows_mail rows :
  NoDup rows -> forall ws n w res w',
  sweep (ws, n) rows w = (res, w') ->
  exists msgs,
    outbox w' = (outbox w ++ msgs)%list
    /\ Forall (fun m =>
         msg_row m ∈ rows
         /\ msg_to m = cell_text (field ws h (msg_row m) "EMAIL")
         /\ msg_subject m
            = reminder_subject (msg_kind m) (field ws h (msg_row m) "EVENT"))
         msgs
    /\ forall ws1 n1, res = Ok (ws1, n1) -> n1 = n + length msgs.
Proof.
  induction 1 as [|r0 rest Hnotin Hnodup IH]; intros ws n w res w'.
  - simpl. cbv [mret M_ret]. intros [= <- <-].
    exists []. rewrite app_nil_r. split; [done |]. split; [done |].
    intros ? ? [= <- <-]. simpl. lia.
  - simpl. cbv [mbind M_bind].
    destruct (sweep_row rand deliver h now (ws, n) r0 w) as [[[ws1 n1]|e] w1] eqn:E0.
    + intros Hrest.
      destruct (sweep_row_mail _ _ _ _ _ _ _ _ _ _ E0) as (msgs1 & Ho1 & Hall1 & Hn1).
      destruct (sweep_row_ok _ _ _ h_inj _ _ _ _ _ _ _ _ E0) as (_ & _ & Hfr1 & _).
      destruct (IH _ _ _ _ _ Hrest) as (msgs2 & Ho2 & Hall2 & Hn2).
      exists (msgs1 ++ msgs2)%list.
      split; [by rewrite Ho2, Ho1, app_assoc |]. split.
      * apply Forall_app. split.
        -- eapply Forall_impl; [exact Hall1 |]. intros m (Hm & ? & ?). cbv beta.
           rewrite Hm. split; [by left | done].
        -- eapply Forall_impl; [exact Hall2 |]. intros m (Hin & Hto & Hsub).
           assert (forall c, ws !! (msg_row m, c) = ws1 !! (msg_row m, c)) as Hsame.
           { intros c. symmetry. apply Hfr1. intros E. by rewrite E in Hin. }
           split; [by right |].
           by rewrite !(field_ext _ _ _ _ Hsame).
      * intros ws2 n2 ->. rewrite length_app.
        rewrite (Hn2 _ _ eq_refl), (Hn1 _ _ eq_refl). lia.
    + intros [= <- <-].
      destruct (sweep_row_mail _ _ _ _ _ _ _ _ _ _ E0) as (msgs1 & Ho1 & Hall1 & _).
      exists msgs1. split; [done |]. split; [| done].
      eapply Forall_impl; [exact Hall1 |]. intros m (Hm & ? & ?). cbv beta.
      rewrite Hm. split; [by left | done].
Qed.
End sweep_loop_mail.

(** The mail of a sweep, whatever its outcome. *)
Lemma main_mail rand deliver cfg now w res w' ws (h : gmap string nat) :
  smtp_ready cfg = true ->
  provision (file w) (HEADER_ROW cfg) = Ok ws ->
  get_headers ws (HEADER_ROW cfg) = Ok h ->
  main rand deliver cfg now w = (res, w') ->
  exists msgs,
    outbox w' = (outbox w ++ msgs)%list
    /\ Forall (fun m =>
         msg_row m ∈ table_rows ws (HEADER_ROW cfg)
         /\ to_send ws h now (msg_row m) (msg_kind m) = true
         /\ msg_to m = cell_text (field ws h (msg_row m) "EMAIL")
         /\ msg_subject m
            = reminder_subject (msg_kind m) (field ws h (msg_row m) "EVENT"))
         msgs
    /\ forall n, res = Ok n -> n = length msgs.
Proof.
  intros Hr Hprov Hh Hmain.
  destruct (main_sends _ _ _ _ _ _ _ _ _ Hr Hprov Hh Hmain)
    as (_ & msgs0 & Ho0 & Hall0).
  rewrite (main_run _ _ _ _ _ _ _ Hr Hprov Hh) in Hmain.
  destruct (for_each _ _ _ w) as [[[ws1 n1]|e] w1] eqn:E.
  - injection Hmain as <- <-. cbn [outbox] in *.
    destruct (sweep_rows_mail rand deliver h
                ltac:(intros; by eapply get_headers_inj) now _
                (NoDup_seq _ _) _ _ _ _ _ E) as (msgs & Ho & Hall & Hn).
    assert (msgs0 = msgs) as -> by (apply (app_inv_head (outbox w)); congruence).
    exists msgs. split; [done |]. split.
    + rewrite Forall_forall in Hall, Hall0. apply Forall_forall. intros m Hm.
      destruct (Hall _ Hm) as (? & ? & ?). destruct (Hall0 _ Hm) as (? & ? & _).
      done.
    + intros n [= <-]. simpl. by rewrite (Hn _ _ eq_refl).
  - injection Hmain as <- <-.
    destruct (sweep_rows_mail rand deliver h
                ltac:(intros; by eapply get_headers_inj) now _
                (NoDup_seq _ _) _ _ _ _ _ E) as (msgs & Ho & Hall & Hn).
    assert (msgs0 = msgs) as -> by (apply (app_inv_head (outbox w)); congruence).
    exists msgs. split; [done |]. split; [| done].
    rewrite Forall_forall in Hall, Hall0. apply Forall_forall. intros m Hm.
    destruct (Hall _ Hm) as (? & ? & ?). destruct (Hall0 _ Hm) as (? & ? & _).
    done.
Qed.

Lemma to_send_inv ws (h : gmap string nat) now r k :
  to_send ws h now r k = true ->
  considered ws h r = true
  /\ (exists start, start_of ws h r = Some start /\ due k (dt_sub start now) = true)
  /\ truthy (field ws h r (flag_header k)) = false.
Proof.
  unfold to_send. intros [[Hc Hd]%andb_true_iff Hf%negb_true_iff]%andb_true_iff.
  split; [done |]. split; [| done].
  destruct (start_of ws h r) as [start|]; [eauto | done].
Qed.

Lemma considered_email ws (h : gmap string nat) r :
  considered ws h r = true -> cell_text (field ws h r "EMAIL") <> "".
Proof. unfold considered. intros [_ ?]%andb_true_iff. by apply nonempty_true. Qed.

Lemma table_rows_below ws hr r : r ∈ table_rows ws hr -> hr < r <= max_row ws.
Proof. unfold table_rows. rewrite elem_of_seq. lia. Qed.

(** X6. Every reminder of a sweep, whatever the outcome of the sweep,
    is about a row below the header that the sweep considers, goes to
    the stripped text of the EMAIL cell of that row, which is not blank,
    has the subject of its kind followed by the event, and was due: the
    start of the row is in the window of the kind and the sent-flag of
    the kind was not set. *)
Theorem sweep_mail_addressed rand deliver cfg now w res w' ws
    (h : gmap string nat) :
  smtp_ready cfg = true ->
  provision (file w) (HEADER_ROW cfg) = Ok ws ->
  get_headers ws (HEADER_ROW cfg) = Ok h ->
  main rand deliver cfg now w = (res, w') ->
  exists msgs,
    outbox w' = (outbox w ++ msgs)%list
    /\ forall m, m ∈ msgs ->
         let r := msg_row m in
         HEADER_ROW cfg < r
         /\ considered (file w) h r = true
         /\ msg_to m = cell_text (field (file w) h r "EMAIL")
         /\ msg_to m <> ""
         /\ msg_subject m
            = reminder_subject (msg_kind m) (field (file w) h r "EVENT")
         /\ (exists start,
               start_of (file w) h r = Some start
               /\ due (msg_kind m) (dt_sub start now) = true)
         /\ truthy (field (file w) h r (flag_header (msg_kind m))) = false.
Proof.
  intros Hr Hprov Hh Hmain.
  destruct (main_mail _ _ _ _ _ _ _ _ _ Hr Hprov Hh Hmain) as (msgs & Ho & Hall & _).
  exists msgs. split; [done |]. intros m Hm r.
  rewrite Forall_forall in Hall. destruct (Hall _ Hm) as (Hin & Hts & Hto & Hsub).
  fold r in Hin, Hts, Hto, Hsub. apply table_rows_below in Hin.
  assert (Hsame : forall c, file w !! (r, c) = ws !! (r, c))
    by (apply (provision_same_row _ _ _ _ Hprov); lia).
  apply to_send_inv in Hts as (Hc & Hdue & Hflag).
  split; [lia |].
  rewrite (considered_ext _ _ _ _ Hsame), !(field_ext _ _ _ _ Hsame).
  split; [done |]. split; [done |].
  split; [rewrite Hto; by apply considered_email |]. split; [done |].
  split; [| done]. unfold start_of. by rewrite !(field_ext _ _ _ _ Hsame).
Qed.

Lemma windows_disjoint delta : due24 delta = true -> due1 delta = true -> False.
Proof.
  intros [H1 _]%due24_spec [_ H2]%due1_spec. unfold timedelta in *. lia.
Qed.

Lemma mail_of_row_kinds msgs r :
  length (mail_of_row msgs r)
  = length (sent_for msgs r R24) + length (sent_for msgs r R1).
Proof.
  unfold mail_of_row, sent_for.
  induction msgs as [|m msgs IH]; [done |].
  rewrite !filter_cons. destruct m as [mr [] ? ? ?]; simpl in *;
    repeat case_decide; simpl; destruct_and?; try done; try lia;
    exfalso; tauto.
Qed.

(** X7. A sweep that returns sends at most one reminder about a row,
    since the two windows do not meet, and the number it returns is the
    number of reminders it sent. *)
Theorem sweep_one_reminder_per_row rand deliver cfg now w n w' ws
    (h : gmap string nat) :
  smtp_ready cfg = true ->
  provision (file w) (HEADER_ROW cfg) = Ok ws ->
  get_headers ws (HEADER_ROW cfg) = Ok h ->
  main rand deliver cfg now w = (Ok n, w') ->
  exists msgs,
    outbox w' = (outbox w ++ msgs)%list
    /\ n = length msgs
    /\ forall r, length (mail_of_row msgs r) <= 1.
Proof.
  intros Hr Hprov Hh Hmain.
  destruct (main_mail _ _ _ _ _ _ _ _ _ Hr Hprov Hh Hmain) as (msgs & Ho & Hall & Hn).
  destruct (main_swept _ _ _ _ _ _ _ _ _ Hr Hprov Hh Hmain)
    as (_ & _ & _ & msgs0 & Ho0 & _ & Hsw).
  assert (msgs0 = msgs) as -> by (apply (app_inv_head (outbox w)); congruence).
  exists msgs. split; [done |]. split; [by apply Hn |]. intros r.
  destruct (decide (r ∈ table_rows ws (HEADER_ROW cfg))) as [Hin | Hout].
  - destruct (Hsw r Hin) as (S1 & _). rewrite mail_of_row_kinds, !S1.
    destruct (to_send ws h now r R24) eqn:E24; [| destruct (to_send _ _ _ _ R1); lia].
    destruct (to_send ws h now r R1) eqn:E1; [| lia].
    apply to_send_inv in E24 as (_ & (s & Hs & Hd24) & _).
    apply to_send_inv in E1 as (_ & (s' & Hs' & Hd1) & _).
    assert (s' = s) as -> by congruence.
    destruct (windows_disjoint _ Hd24 Hd1).
  - assert (Forall (fun m => msg_row m <> r) msgs) as Hnone.
    { rewrite Forall_forall in Hall. apply Forall_forall. intros m Hm Heq.
      destruct (Hall _ Hm) as (Hin & _). by rewrite Heq in Hin. }
    rewrite mail_of_row_kinds, !sent_for_none by done. simpl. lia.
Qed.

(** X8. A sweep saves only when it completes: when SMTP is not
    configured it returns at once and leaves workbook, outbox and
    generator as they were, and when it raises - a delivery that fails,
    a header that is missing, a cell it cannot read as a date - the
    workbook file is the one from before, flags and calendar UIDs of the
    mail already sent in that sweep included. *)
Theorem sweep_saves_only_at_the_end rand deliver cfg now w :
  (smtp_ready cfg = false -> main rand deliver cfg now w = (Ok 0, w))
  /\ (forall e w', main rand deliver cfg now w = (Err e, w') ->
        file w' = file w /\ exists msgs, outbox w' = (outbox w ++ msgs)%list).
Proof.
  split; [apply main_not_ready |]. intros e w' Hmain.
  destruct (smtp_ready cfg) eqn:Hr;
    [| by rewrite main_not_ready in Hmain].
  destruct (provision (file w) (HEADER_ROW cfg)) as [ws|e1] eqn:Hprov.
  2:{ unfold main in Hmain. rewrite Hr in Hmain.
      cbv [mbind M_bind mret M_ret lift load_workbook negb] in Hmain.
      unfold ensure_tracking in Hmain. rewrite Hprov in Hmain.
      injection Hmain as <- <-. split; [done |]. exists []. by rewrite app_nil_r. }
  destruct (get_headers ws (HEADER_ROW cfg)) as [h|e2] eqn:Hh.
  2:{ unfold main in Hmain. rewrite Hr in Hmain.
      cbv [mbind M_bind mret M_ret lift load_workbook negb] in Hmain.
      unfold ensure_tracking in Hmain. rewrite Hprov, Hh in Hmain.
      injection Hmain as <- <-. split; [done |]. exists []. by rewrite app_nil_r. }
  destruct (main_sends _ _ _ _ _ _ _ _ _ Hr Hprov Hh Hmain)
    as ([[n ?] | Hf] & msgs & Ho & _); [done |].
  split; [done | eauto].
Qed.

(** X9. A sweep that returns writes only under SENT_24H, SENT_1H and
    GCAL_UID: the header map is the same, every cell below or above the
    header row under another header is as in the file before, and a row
    the sweep does not consider is not changed at all. *)
Theorem sweep_keeps_reservations rand deliver cfg now w n w' ws
    (h : gmap string nat) :
  smtp_ready cfg = true ->
  provision (file w) (HEADER_ROW cfg) = Ok ws ->
  get_headers ws (HEADER_ROW cfg) = Ok h ->
  main rand deliver cfg now w = (Ok n, w') ->
  get_headers (file w') (HEADER_ROW cfg) = Ok h
  /\ (forall r name, r <> HEADER_ROW cfg ->
        upper name ∉ ["GCAL_UID"; "SENT_24H"; "SENT_1H"] ->
        field (file w') h r name = field (file w) h r name)
  /\ (forall r c, r <> HEADER_ROW cfg -> considered (file w) h r = false ->
        value_at (file w') r c = value_at (file w) r c).
Proof.
  intros Hr Hprov Hh Hmain.
  destruct (main_swept _ _ _ _ _ _ _ _ _ Hr Hprov Hh Hmain)
    as (_ & _ & Hout & msgs & _ & _ & Hsw).
  destruct (main_keeps_headers _ _ _ _ _ _ _ _ _ Hr Hprov Hh Hmain) as [Hh' _].
  split; [done |]. split.
  - intros r name Hne Hname.
    assert (Hsame : forall c, file w !! (r, c) = ws !! (r, c))
      by (by apply (provision_same_row _ _ _ _ Hprov)).
    rewrite (field_ext _ _ _ _ Hsame).
    destruct (decide (r ∈ table_rows ws (HEADER_ROW cfg))) as [Hin | Hnot].
    + apply (row_swept_field _ _ _ _ _ _ _ _ _
               ltac:(intros; by eapply get_headers_inj) (Hsw r Hin) Hname).
    + apply field_ext. intros c. by apply Hout.
  - intros r c Hne Hc.
    assert (Hsame : forall c, file w !! (r, c) = ws !! (r, c))
      by (by apply (provision_same_row _ _ _ _ Hprov)).
    rewrite (considered_ext _ _ _ _ Hsame) in Hc.
    unfold value_at. rewrite Hsame.
    destruct (decide (r ∈ table_rows ws (HEADER_ROW cfg))) as [Hin | Hnot].
    + destruct (Hsw r Hin) as (_ & _ & _ & S4 & _). by rewrite S4.
    + by rewrite Hout.
Qed.

(** ** Cells the sweep cannot read *)

Lemma parse_dt_unreadable dv tv :
  truthy dv = true -> truthy tv = true ->
  parse_excel_date dv = None \/ parse_excel_time tv = None ->
  parse_dt dv tv = Err AttributeError.
Proof.
  intros Hd Ht Hbad. unfold parse_dt. rewrite Hd, Ht. simpl.
  destruct dv; simpl in *; try done; destruct tv; simpl in *; try done;
    destruct Hbad; done.
Qed.

Lemma parse_dt_readable dv tv d t :
  truthy dv = true -> truthy tv = true ->
  parse_excel_date dv = Some d -> parse_excel_time tv = Some t ->
  parse_dt dv tv = Ok (Some (mk_datetime d t)).
Proof.
  intros Hd Ht Hpd Hpt. unfold parse_dt. rewrite Hd, Ht. simpl.
  destruct dv; simpl in *; try done; destruct tv; simpl in *; try done;
    by injection Hpd as <-; injection Hpt as <-.
Qed.

Lemma truthy_field_present ws (h : gmap string nat) r name :
  truthy (field ws h r name) = true -> exists c, h !! upper name = Some c.
Proof. unfold field. destruct (h !! upper name); [eauto | done]. Qed.

Section unreadable.
Variable rand : nat -> N.
Variable deliver : message -> bool.
Variable h : gmap string nat.
Hypothesis h_inj : forall k1 k2 c, h !! k1 = Some c -> h !! k2 = Some c -> k1 = k2.
Variable now : datetime.

Lemma sweep_row_unreadable ws n r w :
  considered ws h r = true ->
  parse_excel_date (field ws h r "DATE") = None
  \/ parse_excel_time (field ws h r "START TIME") = None
  \/ parse_excel_time (field ws h r "END TIME") = None ->
  sweep_row rand deliver h now (ws, n) r w = (Err AttributeError, w).
Proof.
  intros Hc Hbad. pose proof Hc as Hc'. unfold considered in Hc'.
  apply andb_true_iff in Hc' as [Hc' Hem].
  apply andb_true_iff in Hc' as [Hc' Hen].
  apply andb_true_iff in Hc' as [Hc' Hst].
  apply andb_true_iff in Hc' as [Hev Hdv].
  destruct (truthy_field_present _ _ _ _ Hev) as [cE HE].
  destruct (truthy_field_present _ _ _ _ Hdv) as [cD HD].
  destruct (truthy_field_present _ _ _ _ Hst) as [cS HS].
  destruct (truthy_field_present _ _ _ _ Hen) as [cN HN].
  assert (exists cM, h !! upper "EMAIL" = Some cM) as [cM HM].
  { unfold field in Hem. destruct (h !! upper "EMAIL"); [eauto | done]. }
  norm_upper.
  unfold Reminder.sweep_row. cbv [mbind M_bind mret M_ret lift result_ret]. cbn [fst snd].
  col_rewrite.
  revert Hev Hdv Hst Hen Hem Hbad. col_rewrite. intros Hev Hdv Hst Hen Hem Hbad.
  rewrite Hev, Hdv, Hst, Hen, Hem. cbn [andb negb]. cbv beta iota.
  destruct (parse_excel_date (value_at ws r cD)) as [d|] eqn:Ed.
  2:{ by rewrite parse_dt_unreadable by eauto. }
  destruct (parse_excel_time (value_at ws r cS)) as [t|] eqn:Et.
  2:{ by rewrite parse_dt_unreadable by eauto. }
  rewrite (parse_dt_readable _ _ d t) by done.
  destruct Hbad as [? | [? | Hbad]]; [done | done |].
  by rewrite (parse_dt_unreadable _ (value_at ws r cN)) by eauto.
Qed.

Lemma sweep_rows_unreadable rows r ws0 :
  NoDup rows -> r ∈ rows ->
  considered ws0 h r = true ->
  parse_excel_date (field ws0 h r "DATE") = None
  \/ parse_excel_time (field ws0 h r "START TIME") = None
  \/ parse_excel_time (field ws0 h r "END TIME") = None ->
  forall ws n w, (forall c, ws !! (r, c) = ws0 !! (r, c)) ->
  exists e w', for_each (sweep_row rand deliver h now) (ws, n) rows w = (Err e, w').
Proof.
  intros Hnd Hin Hc Hbad. induction Hnd as [|r0 rest Hnotin Hnodup IH];
    intros ws n w Hsame; [by apply elem_of_nil in Hin |].
  simpl. cbv [mbind M_bind].
  apply elem_of_cons in Hin as [<- | Hin].
  - rewrite sweep_row_unreadable; [eauto | |].
    + by rewrite (considered_ext _ _ _ _ Hsame).
    + by rewrite !(field_ext _ _ _ _ Hsame).
  - destruct (sweep_row rand deliver h now (ws, n) r0 w) as [[[ws1 n1]|e] w1] eqn:E0;
      [| eauto].
    destruct (sweep_row_ok _ _ _ h_inj _ _ _ _ _ _ _ _ E0) as (_ & _ & Hfr1 & _).
    apply IH; [done |]. intros c. rewrite Hfr1; [done |]. by intros ->.
Qed.
End unreadable.

(** X10. One row the sweep cannot read stops it: when a row below the
    header that the sweep considers holds under DATE, START TIME or END
    TIME a value that is no date or time - text, a number - the sweep
    raises and saves nothing, for any row.  The listing passes over the
    same row. *)
Theorem sweep_aborts_on_unreadable_row rand deliver cfg now w ws
    (h : gmap string nat) r :
  smtp_ready cfg = true ->
  provision (file w) (HEADER_ROW cfg) = Ok ws ->
  get_headers ws (HEADER_ROW cfg) = Ok h ->
  HEADER_ROW cfg < r ->
  considered (file w) h r = true ->
  parse_excel_date (field (file w) h r "DATE") = None
  \/ parse_excel_time (field (file w) h r "START TIME") = None
  \/ parse_excel_time (field (file w) h r "END TIME") = None ->
  (exists e w', main rand deliver cfg now w = (Err e, w') /\ file w' = file w)
  /\ listable ws h r = false.
Proof.
  intros Hr Hprov Hh Hrow Hc Hbad.
  assert (Hsame : forall c, file w !! (r, c) = ws !! (r, c))
    by (apply (provision_same_row _ _ _ _ Hprov); lia).
  rewrite (considered_ext _ _ _ _ Hsame) in Hc.
  rewrite !(field_ext _ _ _ _ Hsame) in Hbad.
  split.
  - destruct (sweep_rows_unreadable rand deliver h
                ltac:(intros; by eapply get_headers_inj) now
                (table_rows ws (HEADER_ROW cfg)) r ws (NoDup_seq _ _)
                (considered_in_table _ _ _ _ Hrow Hc) Hc Hbad ws 0 w
                ltac:(done)) as (e & w' & E).
    exists e, w'.
    assert (Hmain : main rand deliver cfg now w = (Err e, w'))
      by (by rewrite (main_run _ _ _ _ _ _ _ Hr Hprov Hh), E).
    split; [done |].
    destruct (main_sends _ _ _ _ _ _ _ _ _ Hr Hprov Hh Hmain)
      as ([[n ?] | Hf] & _); done.
  - unfold listable.
    destruct Hbad as [-> | [-> | ->]]; simpl; by rewrite ?andb_false_r.
Qed.

(** ** Reservations and the sweep *)

Lemma mail_of_row_none msgs r :
  Forall (fun m => msg_row m <> r) msgs -> mail_of_row msgs r = [].
Proof.
  unfold mail_of_row. induction 1 as [|m msgs Hm _ IH]; [done |].
  by rewrite filter_cons_False.
Qed.

Lemma not_reservation_header k :
  k ∉ reservation_headers <->
  k <> "FIRST NAME" /\ k <> "LAST NAME" /\ k <> "EMAIL" /\ k <> "USER_ID"
  /\ k <> "RESERVED_AT" /\ k <> "SENT_24H" /\ k <> "SENT_1H" /\ k <> "GCAL_UID".
Proof.
  unfold reservation_headers, TRACK_HEADERS. cbn [app].
  rewrite !not_elem_of_cons. pose proof (not_elem_of_nil k). tauto.
Qed.

(** A reservation leaves the cells under the other headers. *)
Lemma reserved_sheet_field ws hr (h : gmap string nat) row user now r name :
  get_headers ws hr = Ok h -> upper name ∉ reservation_headers ->
  field (reserved_sheet ws h row user now) h r name = field ws h r name.
Proof.
  intros Hh Hname. apply field_other. intros c Hc.
  apply reserved_sheet_other. right. intros nm Hin Hnm.
  assert (nm = upper name) as -> by (by eapply get_headers_inj). done.
Qed.

Lemma parse_dt_some_truthy dv tv s :
  parse_dt dv tv = Ok (Some s) -> truthy dv = true /\ truthy tv = true.
Proof.
  unfold parse_dt. destruct (truthy dv), (truthy tv); simpl; try done.
Qed.

Lemma lower_nonempty s : lower s = "" -> s = "".
Proof. by destruct s. Qed.

(** X11. A cancelled slot is left alone by the sweep: after a
    cancellation that was accepted, no sweep, at any time and with any
    configuration of the same header row, sends mail about the row or
    changes a cell of it. *)
Theorem cancelled_slot_gets_no_mail wb hr ws (h : gmap string nat) row email :
  provision wb hr = Ok ws -> get_headers ws hr = Ok h ->
  present h (["FIRST NAME"; "LAST NAME"; "COMPLETED"] ++ TRACK_HEADERS) ->
  hr < row ->
  lower (cell_text (field wb h row "EMAIL")) = lower (strip email) ->
  cell_text (field wb h row "COMPLETED") = "" ->
  let file2 := (cancel_excel_reservation hr row email wb).2 in
  forall rand deliver cfg now w res w',
    HEADER_ROW cfg = hr -> file w = file2 ->
    main rand deliver cfg now w = (res, w') ->
    exists msgs,
      outbox w' = (outbox w ++ msgs)%list
      /\ mail_of_row msgs row = []
      /\ forall c, value_at (file w') row c = value_at file2 row c.
Proof.
  intros Hprov Hh Hp Hrow Hem Hco file2 rand deliver cfg now w res w' Hcfg Hfile Hmain.
  assert (Hsame : forall n, field wb h row n = field ws h row n).
  { intros n. unfold field. destruct (h !! upper n); [| done].
    symmetry. apply (provision_frame_value _ _ _ _ _ Hprov). lia. }
  rewrite Hsame in Hem, Hco.
  assert (0 < row) as Hpos by lia. assert (row <> hr) as Hne by lia.
  pose proof Hp as Hp'. apply present_app in Hp' as [Hn Ht].
  assert (Hp1 : present h (["FIRST NAME"; "LAST NAME"] ++ TRACK_HEADERS)).
  { apply present_app. split; [| done].
    apply present_cons in Hn as [? Hn]. apply present_cons in Hn as [? Hn].
    by repeat constructor. }
  subst file2. rewrite (cancel_run _ _ _ _ _ _ Hprov Hh Hp Hpos Hem Hco) in *.
  simpl in *. set (ws2 := cancelled_sheet ws h row) in *.
  pose proof (cancelled_sheet_fields ws hr h row Hh Hp1) as (_ & _ & G3 & _).
  fold ws2 in G3.
  assert (Hh2 : get_headers ws2 hr = Ok h) by (by apply cancelled_sheet_headers).
  assert (Hprov2 : provision ws2 hr = Ok ws2) by (by apply (provision_noop _ _ h)).
  assert (Hnc : considered ws2 h row = false).
  { unfold considered. rewrite G3. simpl. by rewrite andb_false_r. }
  destruct (smtp_ready cfg) eqn:Hr.
  2:{ rewrite main_not_ready in Hmain by done. injection Hmain as <- <-.
      exists []. rewrite app_nil_r. split; [done |]. split; [done |].
      by rewrite Hfile. }
  rewrite <- Hfile, <- Hcfg in Hprov2, Hh2.
  destruct (main_mail _ _ _ _ _ _ _ _ _ Hr Hprov2 Hh2 Hmain) as (msgs & Ho & Hall & _).
  exists msgs. split; [done |]. split.
  - apply mail_of_row_none. rewrite Forall_forall in Hall. apply Forall_forall.
    intros m Hm Heq. destruct (Hall _ Hm) as (_ & Hts & _).
    apply to_send_inv in Hts as (Hc & _). rewrite Heq, Hfile in Hc. congruence.
  - intros c. rewrite <- Hfile.
    destruct res as [n|e].
    + destruct (main_swept _ _ _ _ _ _ _ _ _ Hr Hprov2 Hh2 Hmain)
        as (_ & _ & Hout & msgs' & _ & _ & Hsw).
      unfold value_at.
      destruct (decide (row ∈ table_rows (file w) (HEADER_ROW cfg))) as [Hin | Hnot].
      * destruct (Hsw row Hin) as (_ & _ & _ & S4 & _).
        rewrite S4; [done |]. by rewrite Hfile.
      * by rewrite Hout.
    + destruct (main_sends _ _ _ _ _ _ _ _ _ Hr Hprov2 Hh2 Hmain)
        as ([[n ?] | Hf] & _); [done |]. by rewrite Hf.
Qed.

(** X12. A reserved slot is reminded: after a user with an email
    reserved an open slot that has an event, a date, a start and an end,
    a sweep that returns sends for the row one reminder of each kind
    whose window holds the start, none of the other kind, to the user's
    stripped and lowercased email; it sets the flags of the kinds it
    sent, and gives the row a calendar UID fresh from the generator. *)
Theorem reserved_slot_is_reminded wb hr ws (h : gmap string nat) row user now0
    start :
  provision wb hr = Ok ws -> get_headers ws hr = Ok h ->
  present h (["FIRST NAME"; "LAST NAME"] ++ TRACK_HEADERS) ->
  hr < row ->
  cell_text (field wb h row "FIRST NAME") = "" ->
  cell_text (field wb h row "LAST NAME") = "" ->
  truthy (field wb h row "EVENT") = true ->
  truthy (field wb h row "END TIME") = true ->
  start_of wb h row = Some start ->
  strip (u_email user) <> "" ->
  let file1 := (reserve_excel_slot hr row user now0 wb).2 in
  forall rand deliver cfg now w n w',
    HEADER_ROW cfg = hr -> smtp_ready cfg = true -> file w = file1 ->
    main rand deliver cfg now w = (Ok n, w') ->
    exists msgs,
      outbox w' = (outbox w ++ msgs)%list
      /\ (forall k, length (sent_for msgs row k)
                    = if due k (dt_sub start now) then 1 else 0)
      /\ (forall m, m ∈ msgs -> msg_row m = row ->
            msg_to m = lower (strip (u_email user)))
      /\ (forall k, field (file w') h row (flag_header k)
                    = VBool (due k (dt_sub start now)))
      /\ exists i, drawn w <= i
           /\ field (file w') h row "GCAL_UID" = VStr (uuid4_str (rand i)).
Proof.
  intros Hprov Hh Hp Hrow Hfn Hln Hev Hen Hstart Hmail file1
    rand deliver cfg now w n w' Hcfg Hr Hfile Hmain.
  assert (Hsame : forall n, field wb h row n = field ws h row n).
  { intros nm. unfold field. destruct (h !! upper nm); [| done].
    symmetry. apply (provision_frame_value _ _ _ _ _ Hprov). lia. }
  unfold start_of in Hstart. rewrite !Hsame in *.
  assert (0 < row) as Hpos by lia. assert (row <> hr) as Hne by lia.
  subst file1.
  rewrite (reserve_open_run _ _ _ _ _ user now0 Hprov Hh Hp Hpos Hfn Hln) in Hfile.
  simpl in Hfile. set (ws1 := reserved_sheet ws h row user now0) in *.
  assert (Ht : tracked h) by (by apply present_app in Hp as [_ ?]).
  assert (Hh1 : get_headers ws1 hr = Ok h) by (by apply reserved_sheet_headers).
  assert (Hprov1 : provision ws1 hr = Ok ws1) by (by apply (provision_noop _ _ h)).
  pose proof (reserved_sheet_fields ws hr h row user now0 Hh Hp)
    as (_ & _ & F3 & _ & _ & F6 & F7 & F8). fold ws1 in F3, F6, F7, F8.
  assert (Hother : forall name, upper name ∉ reservation_headers ->
            field ws1 h row name = field ws h row name).
  { intros name Hname. by apply (reserved_sheet_field _ hr). }
  assert (HfE : field ws1 h row "EVENT" = field ws h row "EVENT")
    by (apply Hother; apply not_reservation_header; by repeat split).
  assert (HfD : field ws1 h row "DATE" = field ws h row "DATE")
    by (apply Hother; apply not_reservation_header; by repeat split).
  assert (HfS : field ws1 h row "START TIME" = field ws h row "START TIME")
    by (apply Hother; apply not_reservation_header; by repeat split).
  assert (HfN : field ws1 h row "END TIME" = field ws h row "END TIME")
    by (apply Hother; apply not_reservation_header; by repeat split).
  destruct (parse_dt (field ws h row "DATE") (field ws h row "START TIME"))
    as [[s|]|] eqn:Ep; try done. injection Hstart as ->.
  destruct (parse_dt_some_truthy _ _ _ Ep) as [Hdv Hst].
  assert (Htext : cell_text (field ws1 h row "EMAIL") = lower (strip (u_email user))).
  { by rewrite F3, cell_text_str, strip_lower, strip_idem. }
  assert (Hc : considered ws1 h row = true).
  { unfold considered. rewrite HfE, HfD, HfS, HfN, Hev, Hdv, Hst, Hen, Htext.
    simpl. apply nonempty_true. intros E%lower_nonempty. done. }
  assert (Hs1 : start_of ws1 h row = Some start).
  { unfold start_of. by rewrite HfD, HfS, Ep. }
  assert (Hts : forall k, to_send ws1 h now row k = due k (dt_sub start now)).
  { intros k. rewrite (to_send_considered _ _ _ _ _ _ Hc Hs1).
    destruct k; simpl flag_header; rewrite ?F6, ?F7; simpl; by rewrite andb_true_r. }
  rewrite <- Hfile, <- Hcfg in Hprov1, Hh1.
  destruct (main_mail _ _ _ _ _ _ _ _ _ Hr Hprov1 Hh1 Hmain) as (msgs & Ho & Hall & _).
  destruct (main_swept _ _ _ _ _ _ _ _ _ Hr Hprov1 Hh1 Hmain)
    as (_ & _ & _ & msgs0 & Ho0 & _ & Hsw).
  assert (msgs0 = msgs) as -> by (apply (app_inv_head (outbox w)); congruence).
  assert (Hin : row ∈ table_rows (file w) (HEADER_ROW cfg)).
  { apply (considered_in_table _ _ h); [lia | by rewrite Hfile]. }
  destruct (Hsw row Hin) as (S1 & S2 & S3 & _).
  rewrite Hfile in S1, S2, S3.
  exists msgs. split; [done |]. split.
  { intros k. by rewrite S1, Hts. }
  split.
  { intros m Hm Hrow'. rewrite Forall_forall in Hall.
    destruct (Hall _ Hm) as (_ & _ & Hto & _).
    by rewrite Hto, Hrow', Hfile, Htext. }
  split.
  { intros k. rewrite S2, Hts.
    destruct (due k (dt_sub start now)); [done |].
    destruct k; simpl flag_header; by rewrite ?F6, ?F7. }
  destruct (S3 Hc) as (u & Hu & _ & _ & _ & Hnew & _).
  destruct Hnew as (i & Hi & ->); [by rewrite F8 |]. eauto.
Qed.

(** ** Keys of profile pictures *)
Import Keys.

Lemma key_char_plain c :
  is_key_char c = true ->
  is_underscore c = false /\ is_space c = false /\ lower_char c = c.
Proof. by destruct c as [[] [] [] [] [] [] [] []]. Qed.

Lemma space_no_key c : is_space c = true -> is_key_char (lower_char c) = false.
Proof. by destruct c as [[] [] [] [] [] [] [] []]. Qed.

Lemma rstrip_set_cons p c s :
  p c = false -> rstrip_set p (String c s) = String c (rstrip_set p s).
Proof. intros E. simpl. rewrite E. by destruct (rstrip_set p s). Qed.

Lemma rstrip_set_sep s :
  rstrip_set is_underscore (String "_" s)
  = match rstrip_set is_underscore s with
    | "" => ""
    | r => String "_" r
    end.
Proof. done. Qed.

(** What is left of the substituted text once the underscores at its
    end are stripped. *)
Lemma rstrip_sub_runs t :
  rstrip_set is_underscore (sub_runs false t) = key_words AfterKey t
  /\ rstrip_set is_underscore (String "_" (sub_runs true t)) = key_words AfterSep t.
Proof.
  induction t as [|c t [IH1 IH2]]; [done |].
  cbn [sub_runs key_words]. destruct (is_key_char c) eqn:Ek.
  - destruct (key_char_plain _ Ek) as (Hu & _ & _). split.
    + by rewrite rstrip_set_cons, IH1.
    + rewrite rstrip_set_sep, rstrip_set_cons, IH1; done.
  - by split.
Qed.

Lemma strip_sub_runs b t :
  strip_set is_underscore (sub_runs b t) = key_words AtStart t.
Proof.
  unfold strip_set. revert b. induction t as [|c t IH]; intros b; [done |].
  cbn [sub_runs key_words]. destruct (is_key_char c) eqn:Ek.
  - destruct (key_char_plain _ Ek) as (Hu & _ & _).
    cbn [lstrip_set]. rewrite Hu, rstrip_set_cons by done.
    by rewrite (proj1 (rstrip_sub_runs t)).
  - destruct b; [apply IH |]. cbn [lstrip_set]. apply IH.
Qed.

Lemma key_words_spaces st t :
  Forall (fun c => is_key_char c = false) (list_ascii_of_string t) ->
  key_words st t = "".
Proof.
  revert st. induction t as [|c t IH]; intros st; [done |]. simpl.
  intros [Hc Ht]%Forall_cons. rewrite Hc. by apply IH.
Qed.

Lemma key_words_lstrip s :
  key_words AtStart (lower (lstrip s)) = key_words AtStart (lower s).
Proof.
  induction s as [|c s IH]; [done |]. simpl.
  destruct (is_space c) eqn:E; [| done].
  change (lower (String c s)) with (String (lower_char c) (lower s)).
  cbn [key_words]. by rewrite (space_no_key _ E).
Qed.

Lemma key_words_rstrip st s :
  key_words st (lower (rstrip s)) = key_words st (lower s).
Proof.
  revert st. induction s as [|c s IH]; intros st; [done |].
  change (lower (String c s)) with (String (lower_char c) (lower s)).
  simpl rstrip. destruct (rstrip s) as [|d r] eqn:Er.
  - assert (Hnil : forall st', key_words st' (lower s) = "")
      by (intros st'; by rewrite <- IH).
    destruct (is_space c) eqn:E.
    + cbn [key_words lower map_chars]. by rewrite (space_no_key _ E), Hnil.
    + change (lower (String c "")) with (String (lower_char c) "").
      cbn [key_words]. rewrite !Hnil. done.
  - change (lower (String c (String d r)))
      with (String (lower_char c) (lower (String d r))).
    cbn [key_words]. by rewrite !IH.
Qed.

(** The key of [s] is made of the groups of letters and digits of [s],
    lowered and joined by underscores; it is [user] when there is no
    such group. *)
Lemma sanitize_key_words s :
  sanitize_key s = str_or (key_words AtStart (lower s)) "user".
Proof.
  unfold sanitize_key. rewrite strip_sub_runs. unfold strip.
  by rewrite key_words_rstrip, key_words_lstrip.
Qed.

Lemma key_words_shape st t :
  match st with
  | AtStart => key_words st t = "" \/ key_shape AtStart (key_words st t) = true
  | AfterKey => key_shape AfterKey (key_words st t) = true
  | AfterSep => key_words st t = "" \/ key_shape AfterKey (key_words st t) = true
  end.
Proof.
  revert st. induction t as [|c t IH]; intros st.
  - destruct st; simpl; auto.
  - cbn [key_words]. destruct (is_key_char c) eqn:Ek.
    + pose proof (IH AfterKey) as IHk. cbn beta iota in IHk.
      destruct st; cbn [key_shape]; rewrite ?Ek; auto.
    + destruct st; [apply (IH AtStart) | |].
      * destruct (IH AfterSep) as [-> | H]; [done |]. done.
      * apply (IH AfterSep).
Qed.

Lemma key_shape_alphabet st k :
  key_shape st k = true ->
  Forall (fun c => is_key_char c = true \/ c = "_"%char) (list_ascii_of_string k).
Proof.
  revert st. induction k as [|c k IH]; intros st; [constructor |].
  cbn [key_shape list_ascii_of_string]. destruct (is_key_char c) eqn:Ek.
  - intros H. constructor; [by left | by eapply IH].
  - destruct st; try done. intros [Hu H]%andb_true_iff.
    constructor; [right; by apply bool_decide_eq_true in Hu | by eapply IH].
Qed.

Lemma sanitize_key_shaped s : key_shape AtStart (sanitize_key s) = true.
Proof.
  rewrite sanitize_key_words. unfold str_or.
  destruct (key_words_shape AtStart (lower s)) as [-> | H]; [done |].
  destruct (key_words AtStart (lower s)); done.
Qed.

(** X13. The key under which a profile picture is stored is never
    empty and matches [[a-z0-9]+(_[a-z0-9]+)*]: lower-case letters,
    digits and single underscores between them, so it holds no blank,
    dot or slash, whatever the email it is made from. *)
Theorem sanitize_key_shape s :
  key_shape AtStart (sanitize_key s) = true
  /\ sanitize_key s <> ""
  /\ Forall (fun c => is_key_char c = true \/ c = "_"%char)
       (list_ascii_of_string (sanitize_key s)).
Proof.
  pose proof (sanitize_key_shaped s) as H.
  split; [done |]. split; [| by eapply key_shape_alphabet].
  intros E. by rewrite E in H.
Qed.

Lemma lower_key_words st t : lower (key_words st t) = key_words st t.
Proof.
  revert st. induction t as [|c t IH]; intros st; [done |].
  cbn [key_words]. destruct (is_key_char c) eqn:Ek; [| apply IH].
  destruct (key_char_plain _ Ek) as (_ & _ & Hl).
  destruct st; unfold lower in *; cbn [map_chars]; by rewrite ?Hl, IH.
Qed.

Lemma key_words_fixed st k :
  key_shape st k = true ->
  key_words st k = match st with AfterSep => String "_" k | _ => k end.
Proof.
  revert st. induction k as [|c k IH]; intros st.
  - by destruct st.
  - cbn [key_shape key_words]. destruct (is_key_char c) eqn:Ek.
    + intros H. rewrite (IH AfterKey H). by destruct st.
    + destruct st; try done. intros [Hu H]%andb_true_iff.
      apply bool_decide_eq_true in Hu as ->. by rewrite (IH AfterSep H).
Qed.

Lemma lower_shaped st k : key_shape st k = true -> lower k = k.
Proof.
  intros H%key_shape_alphabet. induction k as [|c k IH]; [done |].
  apply Forall_cons in H as [Hc Hk]. unfold lower in *. cbn [map_chars].
  rewrite (IH Hk). f_equal.
  destruct Hc as [Hc | ->]; [by apply key_char_plain | done].
Qed.

(** X14. The keys are the fixed points of [sanitize_key]: a text is its
    own key exactly when it matches [[a-z0-9]+(_[a-z0-9]+)*], and the
    key of a key is that key. *)
Theorem sanitize_key_fixed :
  (forall k, sanitize_key k = k <-> key_shape AtStart k = true)
  /\ (forall s, sanitize_key (sanitize_key s) = sanitize_key s).
Proof.
  assert (Hfix : forall k, key_shape AtStart k = true -> sanitize_key k = k).
  { intros k H. rewrite sanitize_key_words, (lower_shaped _ _ H).
    rewrite (key_words_fixed _ _ H). by destruct k. }
  split.
  - intros k. split; [| apply Hfix].
    intros <-. apply sanitize_key_shaped.
  - intros s. apply Hfix, sanitize_key_shaped.
Qed.

Lemma lower_app s t : lower (s +:+ t) = lower s +:+ lower t.
Proof.
  induction s as [|c s IH]; [done |]. unfold lower in *.
  rewrite append_cons. cbn [map_chars]. by rewrite IH, append_cons.
Qed.

Lemma key_words_separator st s1 s2 c1 c2 :
  is_key_char (lower_char c1) = false -> is_key_char (lower_char c2) = false ->
  key_words st (lower (s1 +:+ String c1 s2))
  = key_words st (lower (s1 +:+ String c2 s2)).
Proof.
  intros H1 H2. revert st. induction s1 as [|c s1 IH]; intros st.
  - rewrite !append_nil_l.
    change (lower (String c1 s2)) with (String (lower_char c1) (lower s2)).
    change (lower (String c2 s2)) with (String (lower_char c2) (lower s2)).
    cbn [key_words]. by rewrite H1, H2.
  - rewrite !append_cons.
    change (lower (String c ?x)) with (String (lower_char c) (lower x)).
    cbn [key_words]. by rewrite !IH.
Qed.

(** X15. Keys collide: what stands between the letters and digits of
    an email does not count, so two emails that differ in a separator
    only, as [a.b@x.edu] and [a_b@x.edu], have one key and one profile
    picture file. *)
Theorem sanitize_key_separators s1 s2 c1 c2 dir :
  is_key_char (lower_char c1) = false -> is_key_char (lower_char c2) = false ->
  sanitize_key (s1 +:+ String c1 s2) = sanitize_key (s1 +:+ String c2 s2)
  /\ profile_pic_path dir (s1 +:+ String c1 s2)
     = profile_pic_path dir (s1 +:+ String c2 s2).
Proof.
  intros H1 H2.
  assert (sanitize_key (s1 +:+ String c1 s2) = sanitize_key (s1 +:+ String c2 s2)) as E.
  { rewrite !sanitize_key_words. by rewrite (key_words_separator _ _ _ _ _ H1 H2). }
  split; [done |]. unfold profile_pic_path. by rewrite E.
Qed.



(** ** Percent-encoding *)
Import Calendar.

Lemma HEX_safe n : quote_safe (HEX n) = true.
Proof.
  unfold HEX.
  destruct (list_ascii_of_string "0123456789ABCDEF" !! n) as [c|] eqn:E; [| done].
  apply list_elem_of_lookup_2 in E. revert c E. apply Forall_forall.
  by repeat constructor.
Qed.

Lemma hex_value_HEX n : n < 16 -> hex_value (HEX n) = Some n.
Proof. intros H. do 16 (destruct n as [|n]; [done |]). lia. Qed.

Lemma safe_not_percent c : quote_safe c = true -> c <> "%"%char.
Proof. by intros H ->. Qed.

Lemma unquote_cons c s :
  c <> "%"%char -> unquote (String c s) = String c (unquote s).
Proof.
  intros Hc. destruct s as [|a [|b r]]; simpl; try done.
  by rewrite decide_False by done.
Qed.

Lemma unquote_escape c s : unquote (escape c +:+ s) = String c (unquote s).
Proof.
  unfold escape. rewrite !append_cons, append_nil_l.
  pose proof (nat_ascii_bounded c) as Hb.
  cbn [unquote]. rewrite decide_True by done.
  rewrite !hex_value_HEX.
  - f_equal. rewrite <- (ascii_nat_embedding c) at 3. f_equal.
    pose proof (Nat.div_mod_eq (nat_of_ascii c) 16). lia.
  - apply Nat.mod_upper_bound. lia.
  - apply Nat.Div0.div_lt_upper_bound. lia.
Qed.

Lemma unquote_quote s : unquote (quote s) = s.
Proof.
  induction s as [|c s IH]; [done |]. cbn [quote].
  destruct (quote_safe c) eqn:E.
  - rewrite unquote_cons by (by apply safe_not_percent). by rewrite IH.
  - by rewrite unquote_escape, IH.
Qed.

Lemma quote_alphabet s :
  Forall (fun c => quote_safe c = true \/ c = "%"%char)
    (list_ascii_of_string (quote s)).
Proof.
  induction s as [|c s IH]; [constructor |]. cbn [quote].
  destruct (quote_safe c) eqn:E.
  - constructor; [by left | done].
  - unfold escape. rewrite !append_cons, append_nil_l.
    cbn [list_ascii_of_string].
    constructor; [by right |].
    constructor; [left; apply HEX_safe |].
    constructor; [left; apply HEX_safe | done].
Qed.

Lemma quote_plain s :
  Forall (fun c => quote_safe c = true) (list_ascii_of_string s) -> quote s = s.
Proof.
  induction s as [|c s IH]; [done |]. cbn [quote list_ascii_of_string].
  intros [Hc Hs]%Forall_cons. by rewrite Hc, IH.
Qed.

Lemma quote_inj s t : quote s = quote t -> s = t.
Proof. intros E. by rewrite <- (unquote_quote s), E, unquote_quote. Qed.

(** X17. [quote] escapes without loss: what it returns is made of
    letters, digits, [_.-~/] and percent signs only, so it holds no
    ampersand, equals sign, question mark, hash, blank or line break;
    text made of safe characters is returned as it is; and the escapes
    read back give the text, so two texts with one quoted form are the
    same text. *)
Theorem quote_escapes_without_loss :
  (forall s, Forall (fun c => quote_safe c = true \/ c = "%"%char)
               (list_ascii_of_string (quote s)))
  /\ (forall s c, c ∈ list_ascii_of_string "&=?# " \/ c = "010"%char ->
        count_char c (quote s) = 0)
  /\ (forall s, Forall (fun c => quote_safe c = true) (list_ascii_of_string s) ->
        quote s = s)
  /\ (forall s, unquote (quote s) = s)
  /\ (forall s t, quote s = quote t -> s = t).
Proof.
  split; [apply quote_alphabet |]. split.
  { intros s c Hc. pose proof (quote_alphabet s) as H.
    induction (quote s) as [|d q IH]; [done |].
    cbn [list_ascii_of_string] in H. apply Forall_cons in H as [Hd Hq].
    cbn [count_char]. rewrite (IH Hq). case_decide as E; [| done].
    subst d. exfalso. destruct Hc as [Hc | ->].
    - apply list_elem_of_In in Hc. cbn in Hc.
      destruct Hc as [<- | [<- | [<- | [<- | [<- | []]]]]];
        destruct Hd as [Hd | Hd]; done.
    - destruct Hd as [Hd | Hd]; done. }
  split; [apply quote_plain |]. split; [apply unquote_quote |].
  apply quote_inj.
Qed.

(** ** Splitting text *)

Lemma count_char_app c a b :
  count_char c (a +:+ b) = count_char c a + count_char c b.
Proof.
  induction a as [|d a IH]; [done |]. rewrite append_cons. cbn [count_char].
  rewrite IH. lia.
Qed.

Lemma split_on_length c s : length (split_on c s) = S (count_char c s).
Proof.
  induction s as [|d s IH]; [done |]. cbn [split_on count_char].
  case_decide; cbn [length]; [by rewrite IH |].
  destruct (split_on c s); simpl in *; lia.
Qed.

Lemma split_on_none c s : count_char c s = 0 -> split_on c s = [s].
Proof.
  induction s as [|d s IH]; [done |]. cbn [split_on count_char].
  case_decide; [done |]. intros Hn. by rewrite IH.
Qed.

Lemma split_on_app c a b :
  count_char c a = 0 -> split_on c (a +:+ String c b) = a :: split_on c b.
Proof.
  induction a as [|d a IH].
  - intros _. rewrite append_nil_l. cbn [split_on]. by rewrite decide_True.
  - cbn [count_char]. rewrite append_cons. cbn [split_on].
    case_decide; [done |]. intros Hn. by rewrite IH.
Qed.

Lemma count_char_forall (p : ascii -> bool) c s :
  p c = false ->
  Forall (fun d => p d = true) (list_ascii_of_string s) -> count_char c s = 0.
Proof.
  intros Hc. induction s as [|d s IH]; [done |].
  cbn [list_ascii_of_string count_char]. intros [Hd Hs]%Forall_cons.
  rewrite (IH Hs). case_decide; [congruence | done].
Qed.

(** ** Digits *)

Lemma pretty_N_char_digit x : is_digit (pretty_N_char x) = true.
Proof. unfold pretty_N_char. by repeat case_match. Qed.

Lemma pretty_N_go_digits x s :
  Forall (fun c => is_digit c = true) (list_ascii_of_string s) ->
  Forall (fun c => is_digit c = true) (list_ascii_of_string (pretty_N_go x s)).
Proof.
  revert s. induction (N.lt_wf_0 x) as [x _ IH]; intros s Hs.
  destruct (decide (0 < x)%N) as [Hx | Hx].
  - rewrite pretty_N_go_step by done. apply IH; [by apply N.div_lt |].
    cbn [list_ascii_of_string]. constructor; [apply pretty_N_char_digit | done].
  - assert (x = 0%N) as -> by lia. by rewrite pretty_N_go_0.
Qed.

Lemma pretty_nat_digits (n : nat) :
  Forall (fun c => is_digit c = true) (list_ascii_of_string (pretty n)).
Proof.
  unfold pretty, pretty_nat, pretty, pretty_N. case_decide.
  - by repeat constructor.
  - apply pretty_N_go_digits. constructor.
Qed.

Lemma zfill_digits w s :
  Forall (fun c => is_digit c = true) (list_ascii_of_string s) ->
  Forall (fun c => is_digit c = true) (list_ascii_of_string (zfill w s)).
Proof.
  revert s. induction w as [|w IH]; intros s Hs; [done |]. cbn [zfill].
  case_decide; [| done]. apply IH. rewrite append_cons, append_nil_l.
  cbn [list_ascii_of_string]. by constructor.
Qed.

Lemma dec_digits w n :
  Forall (fun c => is_digit c = true) (list_ascii_of_string (dec w n)).
Proof. apply zfill_digits, pretty_nat_digits. Qed.

Lemma list_ascii_app s t :
  list_ascii_of_string (s +:+ t)
  = (list_ascii_of_string s ++ list_ascii_of_string t)%list.
Proof.
  induction s as [|c s IH]; [done |]. rewrite append_cons.
  cbn [list_ascii_of_string]. by rewrite IH.
Qed.

(** ** Calendar links and invites *)
Section formats.
Variable strftime_Y : nat -> string.

Local Abbreviation fmt := (fmt_ics_dt strftime_Y).
Local Abbreviation link := (google_calendar_link strftime_Y).
Local Abbreviation ics := (make_ics strftime_Y).

Lemma count_amp_quote s : count_char "&" (quote s) = 0.
Proof.
  apply (count_char_forall (fun c => quote_safe c || bool_decide (c = "%"%char)));
    [done |].
  eapply Forall_impl; [apply quote_alphabet |]. intros c [-> | ->]; done.
Qed.

(** X18. The calendar link has its four parameters whatever the event
    holds: cut at the ampersands it is the address followed by [text],
    [dates], [location] and [details], each with its quoted value, so an
    ampersand or an equals sign in a title or a location adds or changes
    no parameter; and the link determines title, location and
    details. *)
Theorem calendar_link_parameters title start_dt end_dt location details :
  split_on "&" (link title start_dt end_dt location details)
  = [ "https://calendar.google.com/calendar/render?action=TEMPLATE";
      "text=" +:+ quote title;
      "dates=" +:+ quote (fmt start_dt +:+ "/" +:+ fmt end_dt);
      "location=" +:+ quote location;
      "details=" +:+ quote details ]
  /\ forall title' start' end' location' details',
       link title start_dt end_dt location details
       = link title' start' end' location' details' ->
       title = title' /\ location = location' /\ details = details'.
Proof.
  assert (Hsplit : forall t s e l d,
    split_on "&" (link t s e l d)
    = [ "https://calendar.google.com/calendar/render?action=TEMPLATE";
        "text=" +:+ quote t;
        "dates=" +:+ quote (fmt s +:+ "/" +:+ fmt e);
        "location=" +:+ quote l;
        "details=" +:+ quote d ]).
  { intros t s e l d. unfold google_calendar_link.
    change ("&text=" +:+ ?x) with (String "&" ("text=" +:+ x)).
    change ("&dates=" +:+ ?x) with (String "&" ("dates=" +:+ x)).
    change ("&location=" +:+ ?x) with (String "&" ("location=" +:+ x)).
    change ("&details=" +:+ ?x) with (String "&" ("details=" +:+ x)).
    rewrite split_on_app by done. f_equal.
    rewrite <- (append_assoc_str "text=").
    rewrite split_on_app by (by rewrite count_char_app, count_amp_quote). f_equal.
    rewrite <- (append_assoc_str "dates=").
    rewrite split_on_app by (by rewrite count_char_app, count_amp_quote). f_equal.
    rewrite <- (append_assoc_str "location=").
    rewrite split_on_app by (by rewrite count_char_app, count_amp_quote). f_equal.
    apply split_on_none. by rewrite count_char_app, count_amp_quote. }
  split; [apply Hsplit |].
  intros t' s' e' l' d' E. apply (f_equal (split_on "&")) in E.
  rewrite !Hsplit in E. injection E as Et _ El Ed.
  split; [by apply quote_inj |]. split; by apply quote_inj.
Qed.
End formats.

Lemma count_char_concat c l :
  count_char c (String.concat (String c "") l)
  = (length l - 1) + list_sum (count_char c <$> l).
Proof.
  induction l as [|x [|y l] IH]; [done | simpl; lia |].
  change (String.concat (String c "") (x :: y :: l))
    with (x +:+ (String c "" +:+ String.concat (String c "") (y :: l))).
  rewrite append_cons, append_nil_l, count_char_app. cbn [count_char].
  rewrite decide_True by done. rewrite IH. simpl. lia.
Qed.

Lemma split_on_concat c l :
  l <> [] -> Forall (fun x => count_char c x = 0) l ->
  split_on c (String.concat (String c "") l) = l.
Proof.
  induction l as [|x [|y l] IH]; [done | |].
  - intros _ [Hx _]%Forall_cons. by apply split_on_none.
  - intros _ [Hx Hl]%Forall_cons.
    change (String.concat (String c "") (x :: y :: l))
      with (x +:+ (String c "" +:+ String.concat (String c "") (y :: l))).
    rewrite append_cons, append_nil_l, split_on_app by done.
    by rewrite IH.
Qed.

Section invites.
Variable strftime_Y : nat -> string.
Hypothesis Y_digits :
  forall y, Forall (fun c => is_digit c = true) (list_ascii_of_string (strftime_Y y)).

Local Abbreviation fmt := (fmt_ics_dt strftime_Y).
Local Abbreviation ics := (make_ics strftime_Y).

Lemma fmt_digits dt :
  exists d t,
    fmt dt = d +:+ "T" +:+ t
    /\ Forall (fun c => is_digit c = true) (list_ascii_of_string d)
    /\ Forall (fun c => is_digit c = true) (list_ascii_of_string t).
Proof.
  exists (strftime_Y (year (dt_date dt)) +:+ dec 2 (month (dt_date dt))
          +:+ dec 2 (day (dt_date dt))),
         (dec 2 (hour (dt_time dt)) +:+ dec 2 (minute (dt_time dt))
          +:+ dec 2 (second (dt_time dt))).
  split; [unfold fmt_ics_dt; by rewrite !append_assoc_str |].
  rewrite !list_ascii_app, !Forall_app. auto using dec_digits.
Qed.

Lemma fmt_no_newline dt : count_char "010" (fmt dt) = 0.
Proof.
  destruct (fmt_digits dt) as (d & t & -> & Hd & Ht).
  rewrite !count_char_app.
  rewrite (count_char_forall is_digit _ d), (count_char_forall is_digit _ t); done.
Qed.

(** X19. Every property of an invite is on a line of its own as long as
    no text of the event has a line break: the invite then has exactly
    its sixteen lines, the last one empty.  Nothing is escaped: in
    general the invite has as many more lines as the calendar UID, the
    title, the location and the description have line breaks. *)
Theorem make_ics_lines title start_dt end_dt location description uid now :
  let breaks s := count_char "010" s in
  length (split_on "010" (ics title start_dt end_dt location description uid now))
  = 16 + breaks uid + breaks title + breaks location + breaks description
  /\ (breaks uid = 0 -> breaks title = 0 -> breaks location = 0 ->
      breaks description = 0 ->
      split_on "010" (ics title start_dt end_dt location description uid now)
      = [ "BEGIN:VCALENDAR"; "VERSION:2.0"; "PRODID:-//CUSA//EN";
          "CALSCALE:GREGORIAN"; "METHOD:PUBLISH"; "BEGIN:VEVENT";
          "UID:" +:+ uid;
          "DTSTAMP:" +:+ fmt now;
          "DTSTART:" +:+ fmt start_dt;
          "DTEND:" +:+ fmt end_dt;
          "SUMMARY:" +:+ title;
          "LOCATION:" +:+ location;
          "DESCRIPTION:" +:+ description;
          "END:VEVENT"; "END:VCALENDAR"; "" ]).
Proof.
  intros breaks. subst breaks. cbv beta. unfold make_ics, newline. split.
  - rewrite split_on_length, count_char_concat.
    cbn [length fmap list_fmap list_sum].
    rewrite !count_char_app, !fmt_no_newline.
    change (count_char "010" "BEGIN:VCALENDAR") with 0.
    change (count_char "010" "VERSION:2.0") with 0.
    change (count_char "010" "PRODID:-//CUSA//EN") with 0.
    change (count_char "010" "CALSCALE:GREGORIAN") with 0.
    change (count_char "010" "METHOD:PUBLISH") with 0.
    change (count_char "010" "BEGIN:VEVENT") with 0.
    change (count_char "010" "UID:") with 0.
    change (count_char "010" "DTSTAMP:") with 0.
    change (count_char "010" "DTSTART:") with 0.
    change (count_char "010" "DTEND:") with 0.
    change (count_char "010" "SUMMARY:") with 0.
    change (count_char "010" "LOCATION:") with 0.
    change (count_char "010" "DESCRIPTION:") with 0.
    change (count_char "010" "END:VEVENT") with 0.
    change (count_char "010" "END:VCALENDAR") with 0.
    change (count_char "010" "") with 0.
    cbn [list_sum foldr]. lia.
  - intros Hu Ht Hl Hd. apply split_on_concat; [done |].
    repeat (constructor;
            [rewrite ?count_char_app, ?fmt_no_newline, ?Hu, ?Ht, ?Hl, ?Hd; done |]).
    constructor.
Qed.
End invites.

(** ** Accounts *)
Import Users.

Lemma select_by_email_None t e :
  select_by_email t e = None <-> e ∉ r_email <$> t.
Proof.
  unfold select_by_email. induction t as [|r t IH].
  - split; [intros _; apply not_elem_of_nil | done].
  - rewrite filter_cons, fmap_cons, not_elem_of_cons.
    case_decide as E; simpl.
    + split; [done | intros [? _]; congruence].
    + rewrite IH. split; [intros ?; split; [congruence | done] | by intros [_ ?]].
Qed.

Lemma select_by_email_Some t e r :
  select_by_email t e = Some r -> r ∈ t /\ r_email r = e.
Proof.
  unfold select_by_email. intros H%head_Some_elem_of.
  by apply list_elem_of_filter in H as [? ?].
Qed.

Lemma select_by_email_unique t e r :
  NoDup (r_email <$> t) -> r ∈ t -> r_email r = e -> select_by_email t e = Some r.
Proof.
  unfold select_by_email. induction t as [|r0 t IH]; [by intros _ ?%elem_of_nil |].
  rewrite fmap_cons, NoDup_cons. intros [Hnotin Hnd] Hin He.
  rewrite filter_cons. apply elem_of_cons in Hin as [<- | Hin].
  - by rewrite decide_True.
  - rewrite decide_False; [by apply IH |].
    intros E. apply Hnotin. rewrite E, <- He. by apply list_elem_of_fmap_2.
Qed.

Lemma select_by_email_app t r e :
  select_by_email (t ++ [r]) e
  = match select_by_email t e with
    | Some r' => Some r'
    | None => if decide (r_email r = e) then Some r else None
    end.
Proof.
  unfold select_by_email. rewrite filter_app.
  destruct (filter _ t) as [|r' l]; simpl; [| done].
  rewrite filter_cons, filter_nil. by case_decide.
Qed.

Lemma update_admin_emails t e adm : r_email <$> update_admin t e adm = r_email <$> t.
Proof.
  unfold update_admin. rewrite <- list_fmap_compose. apply list_fmap_ext.
  intros _ r _. simpl. by case_decide.
Qed.

Lemma update_admin_row_ok t e adm : Forall row_ok t -> Forall row_ok (update_admin t e adm).
Proof.
  unfold update_admin. intros H. apply Forall_fmap.
  eapply Forall_impl; [exact H |]. intros r Hr. simpl. by case_decide.
Qed.

Lemma select_update_admin t e adm e' :
  select_by_email (update_admin t e adm) e'
  = (fun r => if decide (r_email r = e)
              then {| r_id := r_id r; r_first_name := r_first_name r;
                      r_last_name := r_last_name r; r_email := r_email r;
                      r_password_hash := r_password_hash r; r_is_admin := adm |}
              else r) <$> select_by_email t e'.
Proof.
  unfold select_by_email, update_admin.
  induction t as [|r t IH]; [done |].
  rewrite fmap_cons, !filter_cons.
  destruct (decide (r_email r = e)) as [E | E]; simpl.
  - destruct (decide (r_email r = e')); simpl; [| done].
    by rewrite decide_True.
  - destruct (decide (r_email r = e')); simpl; [| done].
    by rewrite decide_False.
Qed.

Lemma normal_email e : lower (strip (lower (strip e))) = lower (strip e).
Proof. by rewrite strip_lower, strip_idem, lower_idem. Qed.

Section accounts.
Variable gensalt : nat -> string.
Variable hashpw : string -> string -> result string.
Variable checkpw : string -> string -> result bool.

Local Abbreviation create_user := (create_user gensalt hashpw).
Local Abbreviation authenticate := (authenticate checkpw).

(** What a sign-up that succeeds has done. *)
Lemma create_user_done fn ln e pw adm s msg s' :
  create_user fn ln e pw adm s = (Ok (true, msg), s') ->
  exists h,
    names_given fn ln = true
    /\ hashpw pw (gensalt (salts s)) = Ok h
    /\ select_by_email (table s) (lower (strip e)) = None
    /\ msg = "Account created."
    /\ s' = {| table := table s ++
                 [ {| r_id := next_id s; r_first_name := strip fn;
                      r_last_name := strip ln; r_email := lower (strip e);
                      r_password_hash := h;
                      r_is_admin := if adm then 1%Z else 0%Z |} ];
               sequence := next_id s; salts := S (salts s) |}.
Proof.
  unfold Users.create_user, names_given.
  destruct (nonempty (strip fn)), (nonempty (strip ln)); simpl; try done.
  destruct (negb _ || negb _); [done |].
  destruct (_ <? 8)%nat; [done |].
  cbv [mbind M_bind mret M_ret lift draw_salt insert_user]. cbn [table salts sequence].
  destruct (hashpw pw (gensalt (salts s))) as [h|]; [| done].
  destruct (select_by_email (table s) (lower (strip e))) eqn:E; [done |].
  intros [= <- <-]. exists h. done.
Qed.

(** Whatever a sign-up answers, it adds at most the row of the new
    account. *)
Lemma create_user_table fn ln e pw adm s :
  let r := create_user fn ln e pw adm s in
  table r.2 = table s
  \/ exists msg, r.1 = Ok (true, msg).
Proof.
  unfold Users.create_user.
  destruct (negb _ || negb _); [by left |].
  destruct (negb _ || negb _); [by left |].
  destruct (_ <? 8)%nat; [by left |].
  cbv [mbind M_bind mret M_ret lift draw_salt insert_user]. cbn [table salts sequence].
  destruct (hashpw pw (gensalt (salts s))) as [h|]; [| by left].
  destruct (select_by_email (table s) (lower (strip e))) eqn:E; [by left |].
  right. eauto.
Qed.

(** X20. The accounts stay well formed: when the emails of the table
    are distinct and every row has stripped names that are not blank and
    a stripped, lowered email, this is so again after a sign-up, a
    login, a change of the admin flag and the start-up promotion of the
    forced admins, whatever they answer. *)
Theorem accounts_stay_well_formed s :
  accounts_ok s ->
  (forall fn ln e pw adm, accounts_ok (create_user fn ln e pw adm s).2)
  /\ (forall e pw, (authenticate e pw s).2 = s)
  /\ (forall e adm, accounts_ok (set_user_admin e adm s).2)
  /\ accounts_ok (ensure_forced_admins s).2.
Proof.
  intros [Hnd Hrows]. split; [| split; [| split]].
  - intros fn ln e pw adm.
    destruct (create_user_table fn ln e pw adm s) as [Ht | [msg Hok]].
    + unfold accounts_ok. by rewrite Ht.
    + destruct (create_user fn ln e pw adm s) as [res s'] eqn:E.
      simpl in Hok. subst res.
      destruct (create_user_done _ _ _ _ _ _ _ _ E)
        as (h & Hn & _ & Hnone & _ & ->).
      unfold accounts_ok. cbn [table snd]. split.
      * rewrite fmap_app. apply NoDup_app. split; [done |]. split.
        -- intros x Hx [->|[]%elem_of_nil]%elem_of_cons.
           by apply select_by_email_None in Hnone.
        -- apply NoDup_singleton.
      * apply Forall_app. split; [done |]. constructor; [| done].
        unfold row_ok. cbn [r_first_name r_last_name r_email].
        unfold names_given in *. rewrite !strip_idem, normal_email. done.
  - intros e pw. unfold Users.authenticate.
    destruct (select_by_email _ _); [| done].
    by destruct (checkpw _ _) as [[]|].
  - intros e adm. unfold set_user_admin.
    destruct (select_by_email _ _); [| done].
    unfold accounts_ok. cbn [table snd].
    rewrite update_admin_emails. split; [done | by apply update_admin_row_ok].
  - unfold ensure_forced_admins, accounts_ok, FORCED_ADMIN_EMAILS. cbn [table snd foldl].
    destruct (select_by_email _ _); [| done].
    rewrite update_admin_emails. split; [done | by apply update_admin_row_ok].
Qed.
End accounts.

Section sessions.
Variable gensalt : nat -> string.
Variable hashpw : string -> string -> result string.
Variable checkpw : string -> string -> result bool.

Local Abbreviation create_user := (create_user gensalt hashpw).
Local Abbreviation authenticate := (authenticate checkpw).

(** X21. Signing up, then logging in: after a sign-up that succeeded,
    a login with the same email, in any case and with any blanks around
    it, and a password that [bcrypt] accepts for the stored hash returns
    the account: the new key as text, the stripped names, which are not
    blank, the stripped and lowered email, and the admin flag of the
    sign-up, or true for a forced admin; with a password that [bcrypt]
    rejects the login returns nothing.  Neither changes the store. *)
Theorem signup_then_login fn ln e pw adm s msg s1 e' :
  create_user fn ln e pw adm s = (Ok (true, msg), s1) ->
  lower (strip e') = lower (strip e) ->
  exists h,
    hashpw pw (gensalt (salts s)) = Ok h
    /\ (forall pw', checkpw pw' h = Ok true ->
          exists a,
            authenticate e' pw' s1 = (Ok (Some a), s1)
            /\ u_id (acc_user a) = pretty (next_id s)
            /\ u_first_name (acc_user a) = strip fn
            /\ u_last_name (acc_user a) = strip ln
            /\ u_email (acc_user a) = lower (strip e)
            /\ names_given (u_first_name (acc_user a)) (u_last_name (acc_user a))
               = true
            /\ acc_is_admin a
               = adm || bool_decide (lower (strip e) ∈ FORCED_ADMIN_EMAILS))
    /\ (forall pw', checkpw pw' h = Ok false ->
          authenticate e' pw' s1 = (Ok None, s1)).
Proof.
  intros Hdone He.
  destruct (create_user_done _ _ _ _ _ _ _ _ _ _ Hdone)
    as (h & Hn & Hh & Hnone & _ & ->).
  exists h. split; [done |].
  set (row := {| r_id := next_id s; r_first_name := strip fn;
                 r_last_name := strip ln; r_email := lower (strip e);
                 r_password_hash := h;
                 r_is_admin := if adm then 1%Z else 0%Z |}) in *.
  assert (Hsel : select_by_email (table s ++ [row]) (lower (strip e)) = Some row).
  { rewrite select_by_email_app, Hnone. by rewrite decide_True. }
  split.
  - intros pw' Hpw. eexists. unfold Users.authenticate. cbn [table].
    rewrite He, Hsel. cbn [r_password_hash row].
    rewrite Hpw. split; [reflexivity |]. cbn.
    repeat (split; [done |]). split.
    + unfold names_given in *. by rewrite !strip_idem.
    + by destruct adm.
  - intros pw' Hpw. unfold Users.authenticate. cbn [table].
    rewrite He, Hsel. cbn [r_password_hash row].
    by rewrite Hpw.
Qed.

(** X22. One account per email: when an email has an account, up to
    case and blanks around it, a sign-up with it adds no row and does
    not succeed; it answers that the email is registered as soon as the
    names, the email and the password pass the checks and [bcrypt] takes
    the password. *)
Theorem one_account_per_email fn ln e pw adm s :
  lower (strip e) ∈ r_email <$> table s ->
  let r := create_user fn ln e pw adm s in
  table r.2 = table s
  /\ (forall msg, r.1 <> Ok (true, msg))
  /\ (names_given fn ln = true ->
      contains_char "@" e = true -> contains_char "." e = true ->
      8 <= String.length pw ->
      (exists h, hashpw pw (gensalt (salts s)) = Ok h) ->
      r.1 = Ok (false, "That email is already registered.")).
Proof.
  intros Hin r.
  assert (Hsome : is_Some (select_by_email (table s) (lower (strip e)))).
  { destruct (select_by_email _ _) eqn:E; [eauto |].
    by apply select_by_email_None in E. }
  assert (Hnot : forall msg, r.1 <> Ok (true, msg)).
  { intros msg Hr. subst r.
    destruct (create_user fn ln e pw adm s) as [res s'] eqn:E. simpl in Hr.
    subst res. destruct (create_user_done _ _ _ _ _ _ _ _ _ _ E)
      as (_ & _ & _ & Hnone & _).
    rewrite Hnone in Hsome. by destruct Hsome. }
  split; [| split; [done |]].
  - destruct (create_user_table gensalt hashpw fn ln e pw adm s) as [? | [msg ?]];
      [done | by destruct (Hnot msg)].
  - intros Hn Hat Hdot Hlen [h Hh]. subst r. unfold Users.create_user.
    unfold names_given in Hn. apply andb_true_iff in Hn as [-> ->].
    rewrite Hat, Hdot. cbn [negb orb].
    rewrite (proj2 (Nat.ltb_ge _ _) Hlen).
    cbv [mbind M_bind mret M_ret lift draw_salt insert_user].
    cbn [table salts sequence].
    rewrite Hh. destruct Hsome as [r0 ->]. done.
Qed.

(** X23. The admin flag, set and read back: after [set_user_admin]
    answered that it updated, a login with that email returns the flag
    that was set, or true for a forced admin, who cannot be demoted; a
    login with another email returns what it returned before; and for an
    email without account [set_user_admin] answers that the user is not
    found and changes nothing. *)
Theorem admin_flag_read_back e adm s :
  let r := set_user_admin e adm s in
  (select_by_email (table s) (lower (strip e)) = None ->
   r = (Ok (false, "User not found. They must sign up first."), s))
  /\ (is_Some (select_by_email (table s) (lower (strip e))) ->
      r.1 = Ok (true, "Updated.")
      /\ forall e' pw,
           (lower (strip e') <> lower (strip e) ->
            (authenticate e' pw r.2).1 = (authenticate e' pw s).1)
           /\ forall a, (authenticate e' pw r.2).1 = Ok (Some a) ->
                lower (strip e') = lower (strip e) ->
                acc_is_admin a
                = adm || bool_decide (lower (strip e) ∈ FORCED_ADMIN_EMAILS)).
Proof.
  intros r. subst r. unfold set_user_admin. split.
  - by intros ->.
  - intros [r0 Hr0]. rewrite Hr0. cbn [fst snd]. split; [done |].
    intros e' pw. unfold Users.authenticate. cbn [table].
    rewrite select_update_admin. split.
    + intros Hne. destruct (select_by_email (table s) (lower (strip e'))) as [r1|] eqn:E1;
        [| done].
      apply select_by_email_Some in E1 as [_ E1]. cbn [fmap option_fmap option_map].
      rewrite decide_False by congruence.
      by destruct (checkpw pw (r_password_hash r1)) as [[]|].
    + intros a Ha He. rewrite He, Hr0 in Ha. cbn [fmap option_fmap option_map] in Ha.
      apply select_by_email_Some in Hr0 as [_ Hr0].
      rewrite decide_True in Ha by done. cbn [r_password_hash r_is_admin] in Ha.
      destruct (checkpw pw (r_password_hash r0)) as [[]|]; try done.
      cbn in Ha. injection Ha as <-. cbn [acc_is_admin]. by destruct adm.
Qed.
End sessions.

(** ** The forum *)
Import Forum.

Section order.
Context {A : Type}.
Variable key : A -> nat.

Lemma insert_by_perm x l : insert_by key x l ≡ₚ x :: l.
Proof.
  induction l as [|y l IH]; [done |]. simpl. case_decide; [done |].
  rewrite IH. apply Permutation_swap.
Qed.

Lemma order_by_perm l : order_by key l ≡ₚ l.
Proof.
  induction l as [|x l IH]; [done |]. unfold order_by in *. simpl.
  by rewrite insert_by_perm, IH.
Qed.

Lemma elem_of_order_by x l : x ∈ order_by key l <-> x ∈ l.
Proof. by rewrite order_by_perm. Qed.

Lemma insert_by_snoc x y l :
  key y < key x -> insert_by key y (l ++ [x])%list = (insert_by key y l ++ [x])%list.
Proof.
  intros Hlt. induction l as [|z l IH]; simpl.
  - by rewrite decide_True by lia.
  - case_decide; [done |]. by rewrite IH.
Qed.

(** A row with the largest key is the last one. *)
Lemma order_by_snoc l x :
  Forall (fun y => key y < key x) l ->
  order_by key (l ++ [x])%list = (order_by key l ++ [x])%list.
Proof.
  unfold order_by. induction 1 as [|y l Hy Hl IH]; [done |].
  simpl. rewrite IH. by apply insert_by_snoc.
Qed.

Lemma insert_by_sorted x l :
  StronglySorted (fun a b => key a <= key b) l ->
  StronglySorted (fun a b => key a <= key b) (insert_by key x l).
Proof.
  induction 1 as [|y l Hl IH Hy]; simpl; [repeat constructor |].
  case_decide as Hle.
  - constructor; [by constructor |]. constructor; [done |].
    eapply Forall_impl; [exact Hy |]. simpl. lia.
  - constructor; [done |]. rewrite insert_by_perm. constructor; [lia | done].
Qed.

Lemma order_by_sorted l :
  StronglySorted (fun a b => key a <= key b) (order_by key l).
Proof.
  induction l as [|x l IH]; [constructor |]. by apply insert_by_sorted.
Qed.
End order.

Lemma insert_by_fmap {A} (key : A -> nat) (f : A -> A) x l :
  (forall a, key (f a) = key a) ->
  insert_by key (f x) (f <$> l) = f <$> insert_by key x l.
Proof.
  intros Hf. induction l as [|y l IH]; [done |].
  rewrite fmap_cons. cbn [insert_by]. rewrite !Hf.
  case_decide; [done |]. by rewrite fmap_cons, IH.
Qed.

(** An update that keeps the keys keeps the order. *)
Lemma order_by_fmap {A} (key : A -> nat) (f : A -> A) l :
  (forall a, key (f a) = key a) ->
  order_by key (f <$> l) = f <$> order_by key l.
Proof.
  intros Hf. unfold order_by. induction l as [|x l IH]; [done |].
  rewrite fmap_cons. cbn [foldr]. by rewrite IH, insert_by_fmap.
Qed.

Lemma limit_to_fmap {A} (f : A -> A) n (l : list A) :
  limit_to n (f <$> l) = f <$> limit_to n l.
Proof. unfold limit_to. case_decide; [done |]. by rewrite fmap_take. Qed.

Lemma elem_of_limit_to {A} n (l : list A) x : x ∈ limit_to n l -> x ∈ l.
Proof.
  unfold limit_to. case_decide; [done |]. apply subseteq_take.
Qed.

Lemma filter_fmap_same {A} (P : A -> Prop) `{!forall x, Decision (P x)}
    (f : A -> A) (l : list A) :
  (forall a, P (f a) <-> P a) -> filter P (f <$> l) = f <$> filter P l.
Proof.
  intros Hf. induction l as [|x l IH]; [done |].
  rewrite fmap_cons, !filter_cons, IH.
  destruct (decide (P x)) as [Hx | Hx].
  - by rewrite decide_True by (by apply Hf).
  - by rewrite decide_False by (by rewrite Hf).
Qed.

Lemma next_key_above sequence keys :
  Forall (fun k => k < next_key sequence keys) keys.
Proof.
  unfold next_key. induction keys as [|k keys IH]; [constructor |].
  simpl. constructor; [lia |]. eapply Forall_impl; [exact IH |]. simpl. lia.
Qed.

Lemma filter_fmap_fixed {A} (P : A -> Prop) `{!forall x, Decision (P x)}
    (f : A -> A) (l : list A) :
  (forall a, P (f a) \/ P a -> f a = a) -> filter P (f <$> l) = filter P l.
Proof.
  intros Hf. induction l as [|x l IH]; [done |].
  rewrite fmap_cons, !filter_cons, IH.
  destruct (decide (P (f x))) as [Hx | Hx].
  - rewrite (Hf x) in * by (by left). by rewrite decide_True.
  - destruct (decide (P x)) as [Hx' | Hx']; [| done].
    rewrite (Hf x) in Hx by (by right). done.
Qed.

Lemma select_post_fmap (f : post -> post) s s' pid :
  posts s' = f <$> posts s -> (forall p, p_id (f p) = p_id p) ->
  select_post s' pid = f <$> select_post s pid.
Proof.
  intros Hp Hf. unfold select_post. rewrite Hp.
  rewrite (filter_fmap_same (fun p => p_id p = pid)) by (intros p; by rewrite Hf).
  by destruct (filter _ (posts s)).
Qed.

Lemma sorted_reverse {A} (R : A -> A -> Prop) (l : list A) :
  StronglySorted R l -> StronglySorted (flip R) (reverse l).
Proof.
  induction 1 as [|x l Hl IH Hx]; [constructor |].
  rewrite reverse_cons. apply StronglySorted_app_2; [| done | repeat constructor].
  intros y z Hy ->%list_elem_of_singleton.
  apply (proj1 (elem_of_reverse _ _)) in Hy.
  rewrite Forall_forall in Hx. unfold flip. by apply Hx.
Qed.

Lemma filter_none {A} (P : A -> Prop) `{!forall x, Decision (P x)} (l : list A) :
  Forall (fun x => ~ P x) l -> filter P l = [].
Proof.
  induction 1 as [|x l Hx _ IH]; [done |]. by rewrite filter_cons_False.
Qed.

Lemma sorted_take {A} (R : A -> A -> Prop) n (l : list A) :
  StronglySorted R l -> StronglySorted R (take n l).
Proof.
  intros H. rewrite <- (take_drop n l) in H.
  by apply StronglySorted_app in H as (_ & ? & _).
Qed.

(** X24. A reply to a post that is there, not deleted and not locked is
    stored with its body stripped under a key larger than every key of
    the table, and is the last reply of its thread in both listings; the
    other threads and the posts are listed as before. *)
Theorem reply_is_appended pid ae an body now s p :
  select_post s pid = Some p -> p_deleted p <> 1%Z -> p_locked p <> 1%Z ->
  let r := create_reply pid ae an body now s in
  exists y,
    r.1 = Done tt
    /\ y_post_id y = pid /\ y_body y = strip body
    /\ y_author_email y = ae /\ y_author_name y = an
    /\ y_created_at y = isoformat_seconds now /\ y_deleted y = 0%Z
    /\ Forall (fun y' => y_id y' < y_id y) (replies s)
    /\ (forall incl, list_replies pid incl r.2
                     = (list_replies pid incl s ++ [y])%list)
    /\ (forall pid' incl, pid' <> pid ->
          list_replies pid' incl r.2 = list_replies pid' incl s)
    /\ (forall n incl, list_posts n incl r.2 = list_posts n incl s).
Proof.
  intros Hsel Hdel Hlock r. subst r. unfold create_reply.
  rewrite Hsel, !decide_False by done. cbn [fst snd].
  exists {| y_id := next_key (replies_sequence s) (y_id <$> replies s);
            y_post_id := pid; y_created_at := isoformat_seconds now;
            y_author_email := ae; y_author_name := an;
            y_body := strip body; y_deleted := 0 |}.
  cbn [y_post_id y_body y_author_email y_author_name y_created_at y_deleted y_id].
  do 7 (split; [done |]).
  assert (Habove : Forall (fun y' => y_id y' < next_key (replies_sequence s)
                                                (y_id <$> replies s)) (replies s)).
  { pose proof (next_key_above (replies_sequence s) (y_id <$> replies s)) as H.
    by apply Forall_fmap in H. }
  split; [done |]. split; [| split].
  - intros incl. unfold list_replies. cbn [replies].
    rewrite filter_app, filter_cons_True, filter_nil.
    + apply order_by_snoc. cbn [y_id].
      apply Forall_forall. intros y' [_ Hy']%list_elem_of_filter.
      rewrite Forall_forall in Habove. by apply Habove.
    + cbn. split; [done |]. by right.
  - intros pid' incl Hne. unfold list_replies. cbn [replies].
    rewrite filter_app, filter_cons_False, filter_nil, app_nil_r; [done |].
    cbn. intros [? _]. congruence.
  - done.
Qed.

(** X25. Deleting a post hides it and keeps it: afterwards the post is
    in no listing of the posts that are not deleted, its thread lists no
    reply that is not deleted, and every reply to it is refused as to a
    post that is not found; the listings that include deleted rows are
    those from before with the post and its replies marked, no row is
    removed, and the other threads are listed as before. *)
Theorem soft_delete_hides_and_keeps pid s :
  let s' := soft_delete_post pid s in
  let mark_post p := if decide (p_id p = pid) then set_post_deleted p 1 else p in
  let mark_reply y :=
    if decide (y_post_id y = pid) then set_reply_deleted y 1 else y in
  (forall n p, p ∈ list_posts n false s' -> p_id p <> pid)
  /\ list_replies pid false s' = []
  /\ (forall ae an body now,
        create_reply pid ae an body now s' = (Raised "Post not found.", s'))
  /\ (forall n, list_posts n true s' = mark_post <$> list_posts n true s)
  /\ (forall pid', list_replies pid' true s'
                   = mark_reply <$> list_replies pid' true s)
  /\ (forall pid' incl, pid' <> pid ->
        list_replies pid' incl s' = list_replies pid' incl s).
Proof.
  intros s' mark_post mark_reply.
  assert (Hid : forall p, p_id (mark_post p) = p_id p)
    by (intros p; unfold mark_post; by case_decide).
  assert (Hyid : forall y, y_id (mark_reply y) = y_id y)
    by (intros y; unfold mark_reply; by case_decide).
  assert (Hypid : forall y, y_post_id (mark_reply y) = y_post_id y)
    by (intros y; unfold mark_reply; by case_decide).
  split; [| split; [| split; [| split; [| split]]]].
  - intros n p Hp%elem_of_limit_to Heq.
    apply elem_of_reverse, elem_of_order_by, list_elem_of_filter in Hp as [Hd Hp].
    cbn [posts s' soft_delete_post] in Hp.
    apply list_elem_of_fmap in Hp as (p0 & -> & _). fold (mark_post p0) in *.
    rewrite Hid in Heq. unfold mark_post in Hd.
    rewrite decide_True in Hd by done. done.
  - unfold list_replies. cbn [replies s' soft_delete_post].
    rewrite filter_none; [done |].
    apply Forall_fmap, Forall_forall. intros y _ [Hy [? | Hd]]; [done |].
    fold (mark_reply y) in *. rewrite Hypid in Hy. unfold mark_reply in Hd.
    rewrite decide_True in Hd by done. done.
  - intros ae an body now. unfold create_reply.
    rewrite (select_post_fmap mark_post s) by done.
    destruct (select_post s pid) as [p|] eqn:E; [| done].
    cbn [fmap option_fmap option_map].
    apply head_Some_elem_of, list_elem_of_filter in E as [E _].
    unfold mark_post. destruct (decide (p_id p = pid)); [| done].
    cbn [set_post_deleted p_deleted]. by rewrite decide_True by done.
  - intros n. unfold list_posts. cbn [posts s' soft_delete_post].
    fold mark_post. rewrite order_by_fmap by done.
    by rewrite <- fmap_reverse, limit_to_fmap.
  - intros pid'. unfold list_replies. cbn [replies s' soft_delete_post].
    fold mark_reply. rewrite filter_fmap_same.
    + by rewrite order_by_fmap.
    + intros y. rewrite Hypid. intuition.
  - intros pid' incl Hne. unfold list_replies. cbn [replies s' soft_delete_post].
    fold mark_reply. rewrite filter_fmap_fixed; [done |].
    intros y Hy. unfold mark_reply. case_decide as E; [| done].
    exfalso. destruct Hy as [[Hy _] | [Hy _]]; [rewrite Hypid in Hy |]; congruence.
Qed.

(** X26. The feed shows the newest post first: a listing of the posts
    is in descending order of their keys and, for a limit that is not
    negative, no longer than the limit; a post that is created gets a
    key above all others, its title and body stripped, neither locked
    nor deleted, and heads every listing of one post or more, before the
    posts listed until then. *)
Theorem feed_newest_first s :
  (forall n incl,
     StronglySorted (fun a b => p_id b <= p_id a) (list_posts n incl s))
  /\ (forall n incl, (0 <= n)%Z -> length (list_posts n incl s) <= Z.to_nat n)
  /\ forall ae an title body now,
       let s' := create_post ae an title body now s in
       exists p,
         p_title p = strip title /\ p_body p = strip body
         /\ p_author_email p = ae /\ p_author_name p = an
         /\ p_created_at p = isoformat_seconds now
         /\ p_locked p = 0%Z /\ p_deleted p = 0%Z
         /\ Forall (fun q => p_id q < p_id p) (posts s)
         /\ (forall incl, list_posts (-1) incl s' = p :: list_posts (-1) incl s)
         /\ (forall n incl, (1 <= n)%Z -> head (list_posts n incl s') = Some p)
         /\ forall pid incl, list_replies pid incl s' = list_replies pid incl s.
Proof.
  split; [| split].
  - intros n incl. unfold list_posts, limit_to.
    assert (forall l : list post,
              StronglySorted (fun a b => p_id b <= p_id a)
                (reverse (order_by p_id l))) as Hs.
    { intros l. apply (sorted_reverse (fun a b => p_id a <= p_id b)).
      apply order_by_sorted. }
    case_decide; [apply Hs | apply sorted_take, Hs].
  - intros n incl Hn. unfold list_posts, limit_to.
    rewrite decide_False by lia. rewrite length_take. lia.
  - intros ae an title body now s'.
    set (p := {| p_id := next_key (posts_sequence s) (p_id <$> posts s);
                 p_created_at := isoformat_seconds now;
                 p_author_email := ae; p_author_name := an;
                 p_title := strip title; p_body := strip body;
                 p_locked := 0; p_deleted := 0 |}).
    exists p. do 7 (split; [done |]).
    assert (Habove : Forall (fun q => p_id q < p_id p) (posts s)).
    { pose proof (next_key_above (posts_sequence s) (p_id <$> posts s)) as H.
      by apply Forall_fmap in H. }
    split; [done |].
    assert (Hall : forall incl,
      reverse (order_by p_id
        (if incl : bool then posts s'
         else filter (fun q => p_deleted q = 0%Z) (posts s')))
      = p :: reverse (order_by p_id
          (if incl then posts s
           else filter (fun q => p_deleted q = 0%Z) (posts s)))).
    { intros incl. cbn [posts s' create_post]. fold p.
      destruct incl.
      - by rewrite order_by_snoc, reverse_snoc.
      - rewrite filter_app, filter_cons_True, filter_nil by done.
        rewrite order_by_snoc, reverse_snoc; [done |].
        apply Forall_forall. intros q [_ Hq]%list_elem_of_filter.
        rewrite Forall_forall in Habove. by apply Habove. }
    split; [| split; [| done]].
    + intros incl. unfold list_posts, limit_to. rewrite !decide_True by lia.
      apply Hall.
    + intros n incl Hn. unfold list_posts, limit_to. rewrite decide_False by lia.
      rewrite Hall. destruct (Z.to_nat n) eqn:E; [lia | done].
Qed.

(** X27. Locking closes a thread and unlocking opens it: for a post
    that is there and not deleted, every reply is refused as to a locked
    thread once the post is locked, and is taken once it is unlocked;
    locking changes the locked column of that post only, and no
    reply. *)
Theorem lock_closes_thread pid s p :
  select_post s pid = Some p -> p_deleted p <> 1%Z ->
  (forall ae an body now,
     create_reply pid ae an body now (set_lock pid true s)
     = (Raised "Thread is locked.", set_lock pid true s))
  /\ (forall ae an body now,
        (create_reply pid ae an body now (set_lock pid false s)).1 = Done tt)
  /\ (forall b n incl,
        list_posts n incl (set_lock pid b s)
        = (fun q => if decide (p_id q = pid)
                    then set_post_locked q (if b then 1 else 0) else q)
          <$> list_posts n incl s)
  /\ (forall b pid' incl,
        list_replies pid' incl (set_lock pid b s) = list_replies pid' incl s).
Proof.
  intros Hsel Hdel.
  assert (Hp : p_id p = pid).
  { by apply head_Some_elem_of, list_elem_of_filter in Hsel as [? _]. }
  assert (Hs : forall b,
    select_post (set_lock pid b s) pid
    = Some (set_post_locked p (if b then 1 else 0))).
  { intros b.
    rewrite (select_post_fmap
               (fun q => if decide (p_id q = pid)
                         then set_post_locked q (if b then 1 else 0) else q) s);
      [| done | intros q; by case_decide].
    rewrite Hsel. cbn [fmap option_fmap option_map]. by rewrite decide_True. }
  split; [| split; [| split]].
  - intros ae an body now. unfold create_reply. rewrite Hs.
    cbn [set_post_locked p_deleted p_locked].
    rewrite decide_False by done. by rewrite decide_True.
  - intros ae an body now. unfold create_reply. rewrite Hs.
    cbn [set_post_locked p_deleted p_locked].
    rewrite decide_False by done. by rewrite decide_False.
  - intros b n incl. unfold list_posts. cbn [posts set_lock].
    set (f := fun q => if decide (p_id q = pid)
                       then set_post_locked q (if b then 1 else 0) else q).
    assert (Hid : forall q, p_id (f q) = p_id q)
      by (intros q; unfold f; by case_decide).
    assert (Hde : forall q, p_deleted (f q) = p_deleted q)
      by (intros q; unfold f; by case_decide).
    destruct incl.
    + by rewrite order_by_fmap, <- fmap_reverse, limit_to_fmap.
    + rewrite filter_fmap_same by (intros q; by rewrite Hde).
      by rewrite order_by_fmap, <- fmap_reverse, limit_to_fmap.
  - done.
Qed.

(** ** The Signups tab *)
Import Signups.

Lemma lex_compare_opp a b : lex_compare b a = CompOpp (lex_compare a b).
Proof.
  revert b. induction a as [|x a IH]; intros [|y b]; simpl; try done.
  rewrite (Nat.compare_antisym x y).
  destruct (Nat.compare x y); simpl; [apply IH | done | done].
Qed.

Lemma lex_compare_le_trans a b c :
  lex_compare a b <> Gt -> lex_compare b c <> Gt -> lex_compare a c <> Gt.
Proof.
  revert b c. induction a as [|x a IH]; intros [|y b] [|z c]; simpl; try done.
  destruct (Nat.compare_spec x y) as [-> | Hxy | Hxy]; [| | done].
  - destruct (Nat.compare_spec y z) as [-> | Hyz | Hyz]; [| done | done].
    apply IH.
  - intros _. destruct (Nat.compare_spec y z) as [-> | Hyz | Hyz]; [| | done].
    + intros _. by rewrite (proj2 (Nat.compare_lt_iff x z)) by lia.
    + intros _. by rewrite (proj2 (Nat.compare_lt_iff x z)) by lia.
Qed.

Lemma dt_le_total a b : dt_le a b = false -> dt_le b a = true.
Proof.
  unfold dt_le, dt_compare. rewrite (lex_compare_opp (dt_tuple a) (dt_tuple b)).
  by destruct (lex_compare (dt_tuple a) (dt_tuple b)).
Qed.

Lemma dt_le_trans a b c : dt_le a b = true -> dt_le b c = true -> dt_le a c = true.
Proof.
  unfold dt_le, dt_compare. intros Hab Hbc.
  pose proof (lex_compare_le_trans (dt_tuple a) (dt_tuple b) (dt_tuple c)) as Ht.
  destruct (lex_compare (dt_tuple a) (dt_tuple b)),
    (lex_compare (dt_tuple b) (dt_tuple c)),
    (lex_compare (dt_tuple a) (dt_tuple c)); try done; exfalso; by apply Ht.
Qed.

Lemma dt_lt_not_le a b : dt_lt a b = negb (dt_le b a).
Proof.
  unfold dt_lt, dt_le, dt_compare.
  rewrite (lex_compare_opp (dt_tuple a) (dt_tuple b)).
  by destruct (lex_compare (dt_tuple a) (dt_tuple b)).
Qed.

Lemma strip_cell_text v : strip (cell_text v) = cell_text v.
Proof. unfold cell_text. apply strip_idem. Qed.

Section signups.
Context {H : Type}.
Variable float_of_int : Z -> result H.
Variable float_of_str : string -> result H.

Local Abbreviation list_slots := (list_slots float_of_int float_of_str).
Local Abbreviation slot := (@Slot H).

(** [a] does not start after [b]. *)
Local Abbreviation starts_le :=
  (fun a b : slot => dt_le (start_dt a) (start_dt b) = true).

Lemma insert_slot_perm (x : slot) l : insert_slot x l ≡ₚ x :: l.
Proof.
  induction l as [|y l IH]; simpl; [done |].
  destruct (dt_le _ _); [done |]. rewrite IH. apply Permutation_swap.
Qed.

Lemma sort_by_start_perm (l : list slot) : sort_by_start l ≡ₚ l.
Proof.
  induction l as [|x l IH]; simpl; [done |].
  by rewrite insert_slot_perm, IH.
Qed.

Lemma elem_of_sort_by_start (s : slot) l : s ∈ sort_by_start l <-> s ∈ l.
Proof. by rewrite sort_by_start_perm. Qed.

Lemma insert_slot_sorted (x : slot) l :
  StronglySorted starts_le l -> StronglySorted starts_le (insert_slot x l).
Proof.
  induction 1 as [|y l Hs IH Hy]; simpl; [by repeat constructor |].
  destruct (dt_le (start_dt x) (start_dt y)) eqn:E.
  - constructor; [by constructor |]. constructor; [done |].
    eapply Forall_impl; [exact Hy |]. intros z Hz. by eapply dt_le_trans.
  - constructor; [done |]. rewrite insert_slot_perm.
    constructor; [by apply dt_le_total | done].
Qed.

Lemma sort_by_start_sorted (l : list slot) :
  StronglySorted starts_le (sort_by_start l).
Proof.
  induction l; simpl; [constructor | by apply insert_slot_sorted].
Qed.

(** Slots that start together keep the order of the listing. *)
Lemma insert_slot_first (x : slot) l :
  Forall (fun y => dt_le (start_dt x) (start_dt y) = true) l ->
  insert_slot x l = x :: l.
Proof. intros Hl. destruct Hl as [|y l Hy _]; simpl; [done | by rewrite Hy]. Qed.

Lemma elem_of_my_res email (s : slot) slots :
  s ∈ my_res email slots
  <-> s ∈ slots /\ lower (strip (CUSA.email s)) = lower email.
Proof.
  unfold my_res. rewrite elem_of_sort_by_start, list_elem_of_filter. tauto.
Qed.

Lemma elem_of_filtered up st search now (s : slot) slots :
  s ∈ filtered up st search now slots
  <-> s ∈ slots /\ shown up st search now s = true.
Proof.
  unfold filtered. rewrite elem_of_sort_by_start, list_elem_of_filter. tauto.
Qed.

(** A slot that is shown passed the three tests of the loop. *)
Lemma shown_spec up st search now (s : slot) :
  shown up st search now s = true ->
  (up = true -> dt_le now (start_dt s) = true)
  /\ (st = false -> is_taken s = false)
  /\ (search <> "" ->
        is_substring (lower search)
          (lower (event s +:+ " " +:+ location s +:+ " " +:+ contact s)) = true).
Proof.
  unfold shown. rewrite dt_lt_not_le.
  destruct up, (dt_le now (start_dt s)), st, (is_taken s); simpl; try done;
    destruct (nonempty search) eqn:En; simpl;
    try (apply nonempty_false in En; subst search);
    destruct (is_substring _ _); simpl; done.
Qed.

(** The rows of a listing, each once and below the header row. *)
Lemma listing_rows file hr ws (h : gmap string nat) (slots : list slot) :
  provision file hr = Ok ws -> get_headers ws hr = Ok h ->
  (list_slots hr file).1 = Ok slots ->
  NoDup (row <$> slots)
  /\ forall s, s ∈ slots ->
       hr < row s
       /\ read_row float_of_int float_of_str ws h (row s) = Ok (Some s).
Proof.
  intros Hprov Hh Hlist.
  rewrite (list_slots_run _ _ _ _ _ _ Hprov Hh) in Hlist. simpl in Hlist.
  apply read_rows_spec in Hlist as (new & -> & Hrows & Hall).
  rewrite app_nil_l. split.
  - rewrite Hrows. apply NoDup_filter. unfold table_rows. apply NoDup_seq.
  - intros s Hs. rewrite Forall_forall in Hall. split; [| by apply Hall].
    assert (row s ∈ row <$> new) as Hin by (by apply list_elem_of_fmap_2).
    rewrite Hrows in Hin. apply list_elem_of_filter in Hin as [_ Hin].
    unfold table_rows in Hin. apply elem_of_seq in Hin. lia.
Qed.

(** Cancelling a slot that is marked completed. *)
Lemma cancel_completed_run file hr ws (h : gmap string nat) row email :
  provision file hr = Ok ws -> get_headers ws hr = Ok h ->
  present h (["FIRST NAME"; "LAST NAME"; "COMPLETED"] ++ TRACK_HEADERS) ->
  0 < row ->
  lower (cell_text (field ws h row "EMAIL")) = lower (strip email) ->
  cell_text (field ws h row "COMPLETED") <> "" ->
  cancel_excel_reservation hr row email file
  = (Ok (false, "This slot is marked completed. Contact an admin."), ws).
Proof.
  intros Hprov Hh Hp Hrow. columns Hp.
  destruct (get_headers_lookup _ _ _ _ _ Hh Hc2) as (_ & ? & _).
  col_rewrite. intros Hem Hco%nonempty_true.
  unfold cancel_excel_reservation. run_prog.
  rewrite Hprov, Hh. col_rewrite. rewrite cell_ok by lia.
  rewrite bool_decide_eq_true_2 by done. simpl. by rewrite Hco.
Qed.

(** X28. The Cancel button of My Reservations is never refused for
    ownership: for a slot the listing puts under My Reservations of a
    session, cancelling its row with the session's email clears the
    reservation, unless the slot is marked completed, and then the
    answer is the completed message and the workbook is as it was. *)
Theorem my_reservation_cancels file hr ws (h : gmap string nat)
    (slots : list slot) email (s : slot) :
  provision file hr = Ok ws -> get_headers ws hr = Ok h ->
  present h (["FIRST NAME"; "LAST NAME"; "COMPLETED"] ++ TRACK_HEADERS) ->
  (list_slots hr file).1 = Ok slots ->
  s ∈ my_res email slots ->
  cancel_excel_reservation hr (row s) email (list_slots hr file).2
  = if nonempty (completed s)
    then (Ok (false, "This slot is marked completed. Contact an admin."), ws)
    else (Ok (true, "Cancelled."), cancelled_sheet ws h (row s)).
Proof.
  intros Hprov Hh Hp Hlist [Hs Hmine]%elem_of_my_res.
  destruct (listing_rows _ _ _ _ _ Hprov Hh Hlist) as [_ Hrows].
  destruct (Hrows _ Hs) as [Hrow Hread].
  rewrite (list_slots_run _ _ _ _ _ _ Hprov Hh). simpl.
  destruct (read_row_some _ _ _ _ _ _ Hread) as (_ & _ & _ & _ & _ & Hco & Hem & _).
  assert (Ht : tracked h) by (by apply present_app in Hp as [_ ?]).
  assert (Hprov' : provision ws hr = Ok ws) by (by apply (provision_noop _ _ h)).
  assert (Hown : lower (cell_text (field ws h (row s) "EMAIL")) = lower (strip email)).
  { rewrite Hem, strip_cell_text in Hmine. rewrite Hmine.
    rewrite <- strip_lower, <- Hmine, strip_lower, strip_cell_text. done. }
  destruct (nonempty (completed s)) eqn:En.
  - apply (cancel_completed_run ws hr ws h (row s) email Hprov' Hh Hp);
      [lia | done |].
    rewrite <- Hco. by apply nonempty_true.
  - apply (cancel_run ws hr ws h (row s) email Hprov' Hh Hp); [lia | done |].
    rewrite <- Hco. by apply nonempty_false.
Qed.

(** X29. A reserved slot moves to My Reservations: after a user whose
    session email has no blanks around it and who has a first or a last
    name reserved an open row that can be listed, the next listing has
    exactly one slot for the row; it is under My Reservations of the
    session and, with Show taken slots off, not among the available
    slots, whatever the other filters are. *)
Theorem reserved_slot_is_mine file hr ws (h : gmap string nat) row user now0
    (slots : list slot) :
  provision file hr = Ok ws -> get_headers ws hr = Ok h ->
  present h (["FIRST NAME"; "LAST NAME"] ++ TRACK_HEADERS) ->
  hr < row ->
  cell_text (field file h row "FIRST NAME") = "" ->
  cell_text (field file h row "LAST NAME") = "" ->
  listable file h row = true ->
  strip (u_email user) = u_email user ->
  strip (u_first_name user) <> "" \/ strip (u_last_name user) <> "" ->
  let file1 := (reserve_excel_slot hr row user now0 file).2 in
  (list_slots hr file1).1 = Ok slots ->
  exists s : slot,
    s ∈ slots /\ CUSA.row s = row
    /\ (forall s', s' ∈ slots -> CUSA.row s' = row -> s' = s)
    /\ first_name s = strip (u_first_name user)
    /\ last_name s = strip (u_last_name user)
    /\ CUSA.email s = lower (u_email user)
    /\ s ∈ my_res (u_email user) slots
    /\ forall up search now, s ∉ filtered up false search now slots.
Proof.
  intros Hprov Hh Hp Hrow Hfn Hln Hl Hem Hname file1 Hlist.
  assert (Hsame : forall n, field file h row n = field ws h row n).
  { intros nm. unfold field. destruct (h !! upper nm); [| done].
    symmetry. apply (provision_frame_value _ _ _ _ _ Hprov). lia. }
  unfold listable in Hl. rewrite !Hsame in *.
  assert (0 < row) as Hpos by lia. assert (row <> hr) as Hne by lia.
  subst file1.
  rewrite (reserve_open_run _ _ _ _ _ user now0 Hprov Hh Hp Hpos Hfn Hln) in Hlist.
  simpl in Hlist. set (ws1 := reserved_sheet ws h row user now0) in *.
  assert (Ht : tracked h) by (by apply present_app in Hp as [_ ?]).
  assert (Hh1 : get_headers ws1 hr = Ok h) by (by apply reserved_sheet_headers).
  assert (Hprov1 : provision ws1 hr = Ok ws1) by (by apply (provision_noop _ _ h)).
  pose proof (reserved_sheet_fields ws hr h row user now0 Hh Hp)
    as (F1 & F2 & F3 & _). fold ws1 in F1, F2, F3.
  assert (Hother : forall name, upper name ∉ reservation_headers ->
            field ws1 h row name = field ws h row name).
  { intros name Hname'. by apply (reserved_sheet_field _ hr). }
  assert (HfE : field ws1 h row "EVENT" = field ws h row "EVENT")
    by (apply Hother; apply not_reservation_header; by repeat split).
  assert (HfD : field ws1 h row "DATE" = field ws h row "DATE")
    by (apply Hother; apply not_reservation_header; by repeat split).
  assert (HfS : field ws1 h row "START TIME" = field ws h row "START TIME")
    by (apply Hother; apply not_reservation_header; by repeat split).
  assert (HfN : field ws1 h row "END TIME" = field ws h row "END TIME")
    by (apply Hother; apply not_reservation_header; by repeat split).
  assert (Hl1 : listable ws1 h row = true).
  { unfold listable. by rewrite HfE, HfD, HfS, HfN. }
  assert (Hmax : row <= max_row ws1).
  { pose proof Hp as Hp'. columns Hp'.
    apply (max_row_ge ws1 row c). apply not_none_present.
    rewrite <- (field_col ws1 h row "FIRST NAME" c Hc), F1. done. }
  destruct (listed_row float_of_int float_of_str ws1 hr h row slots Hh1 Ht Hlist
              (conj Hrow Hmax) Hl1) as (s & Hs & Hread).
  destruct (listing_rows _ _ _ _ _ Hprov1 Hh1 Hlist) as [Hnd Hrows].
  destruct (read_row_some _ _ _ _ _ _ Hread)
    as (_ & Hr & _ & Gfn & Gln & _ & Gem & _).
  rewrite F1, cell_text_str, strip_idem in Gfn.
  rewrite F2, cell_text_str, strip_idem in Gln.
  rewrite F3, cell_text_str, strip_lower, strip_idem, Hem in Gem.
  exists s. split; [done |]. split; [done |]. split.
  { intros s' Hs' Hr'. destruct (Hrows _ Hs') as [_ Hread'].
    rewrite Hr' in Hread'. congruence. }
  split; [done |]. split; [done |]. split; [done |]. split.
  { apply elem_of_my_res. split; [done |].
    by rewrite Gem, strip_lower, Hem, lower_idem. }
  intros up search now [_ Hshown]%elem_of_filtered.
  apply shown_spec in Hshown as (_ & Hopen & _).
  specialize (Hopen eq_refl). unfold is_taken in Hopen.
  rewrite Gfn, Gln, !strip_idem in Hopen.
  apply nonempty_false in Hopen. unfold str_or in Hopen.
  destruct (nonempty (strip (u_first_name user))) eqn:En.
  - by apply nonempty_true in En.
  - apply nonempty_false in En. destruct Hname; done.
Qed.

(** X30. The two lists of the Signups tab are sorted and complete: the
    available slots are those of the listing that pass the filters, and
    My Reservations those whose email is the session's; each slot comes
    as often as in the listing, and no slot of either list starts after
    one that follows it. *)
Theorem signups_lists_sorted up st search now email (slots : list slot) :
  let shown_slots := filtered up st search now slots in
  let mine := my_res email slots in
  shown_slots ≡ₚ filter (fun s => shown up st search now s = true) slots
  /\ mine ≡ₚ filter (fun s => lower (strip (CUSA.email s)) = lower email) slots
  /\ StronglySorted starts_le shown_slots
  /\ StronglySorted starts_le mine
  /\ (forall s, s ∈ shown_slots ->
        (up = true -> dt_lt (start_dt s) now = false)
        /\ (st = false -> is_taken s = false)).
Proof.
  intros shown_slots mine. subst shown_slots mine. unfold filtered, my_res.
  split; [apply sort_by_start_perm |]. split; [apply sort_by_start_perm |].
  split; [apply sort_by_start_sorted |]. split; [apply sort_by_start_sorted |].
  intros s [_ Hs]%elem_of_filtered. apply shown_spec in Hs as (Hup & Hst & _).
  split; [| done]. intros ->. rewrite dt_lt_not_le, Hup; done.
Qed.

End signups.

(** ** The properties on the sample data *)
Import Cases.

Lemma get_headers_rightmost_witness :
  get_headers book' 1 = Ok headers
  /\ (forall c, headers !! "FIRST NAME" = Some c <->
                1 <= c /\ names book' 1 c "FIRST NAME"
                /\ forall c', c < c' -> ~ names book' 1 c' "FIRST NAME")
  /\ (is_Some (headers !! "FIRST NAME")
      <-> exists c, 1 <= c /\ names book' 1 c "FIRST NAME").
Proof.
  split; [exact book_headers |].
  exact (get_headers_rightmost book' 1 headers "FIRST NAME" book_headers).
Defined.

Lemma book_header_prefix : header_prefix book 1.
Proof.
  intros c c' Hc Hn.
  destruct (decide (max_column book < c')) as [Hbig | Hsmall];
    [by apply beyond_max_column |].
  assert (max_column book = 10) as Hmax by computed.
  do 11 (destruct c as [|c]; [vm_compute in Hn; (lia || discriminate) |]).
  lia.
Qed.

Lemma provision_appends_witness :
  get_headers book 1 = Ok (unwrap ∅ (get_headers book 1))
  /\ header_prefix book 1
  /\ exists ws' h',
       provision book 1 = Ok ws'
       /\ get_headers ws' 1 = Ok h'
       /\ unwrap ∅ (get_headers book 1) ⊆ h' /\ tracked h'
       /\ provision ws' 1 = Ok ws'.
Proof.
  assert (get_headers book 1 = Ok (unwrap ∅ (get_headers book 1))) as Hh
    by (apply unwrap_eq; computed).
  split; [exact Hh |]. split; [exact book_header_prefix |].
  destruct (provision_appends book 1 _ Hh book_header_prefix)
    as (ws' & h' & Hprov & _ & Hh' & Hsub & Ht & _ & _ & Hagain).
  exists ws', h'. split; [exact Hprov |]. split; [exact Hh' |].
  split; [exact Hsub |]. split; [exact Ht | exact Hagain].
Defined.

Lemma reserve_then_cancel_witness :
  cell_text (field book headers 2 "FIRST NAME") = ""
  /\ cell_text (field book headers 2 "LAST NAME") = ""
  /\ cell_text (field book headers 2 "COMPLETED") = ""
  /\ lower (strip "ALICE@cleary.edu ") = lower (strip (u_email alice))
  /\ exists file2,
       cancel_excel_reservation 1 2 "ALICE@cleary.edu "
         (reserve_excel_slot 1 2 alice clock book).2
       = (Ok (true, "Cancelled."), file2)
       /\ cell_text (field file2 headers 2 "EMAIL") = ""
       /\ forall user2 now2,
            (reserve_excel_slot 1 2 user2 now2 file2).1 = Ok (true, "Reserved!").
Proof.
  assert (cell_text (field book headers 2 "FIRST NAME") = "") as Hfn by computed.
  assert (cell_text (field book headers 2 "LAST NAME") = "") as Hln by computed.
  assert (cell_text (field book headers 2 "COMPLETED") = "") as Hco by computed.
  assert (lower (strip "ALICE@cleary.edu ") = lower (strip (u_email alice)))
    as Hem by computed.
  assert (present headers (["FIRST NAME"; "LAST NAME"; "COMPLETED"] ++ TRACK_HEADERS))
    as Hp by all_present.
  do 4 (split; [assumption |]).
  destruct (reserve_then_cancel book 1 book' headers 2 alice clock
              "ALICE@cleary.edu " book_provisioned book_headers Hp ltac:(lia)
              Hfn Hln Hco Hem)
    as (file2 & Hrun & _ & Hmail & _ & Hagain).
  exists file2. split; [exact Hrun |]. split; [exact Hmail | exact Hagain].
Defined.

Lemma header_row_is_no_slot_witness :
  reserve_excel_slot 1 1 alice clock book
  = (Ok (false, "That slot is already taken."), book')
  /\ exists msg,
       cancel_excel_reservation 1 1 "" book = (Ok (false, msg), book').
Proof.
  assert (present headers ["FIRST NAME"; "LAST NAME"; "EMAIL"; "COMPLETED"])
    as Hp by all_present.
  exact (header_row_is_no_slot book 1 book' headers alice clock ""
           book_provisioned book_headers Hp).
Defined.

Lemma added_slot_is_listed_witness :
  strip " Fair " <> ""
  /\ exists slots : list (@Slot Z),
       (list_slots float_of_int float_of_str 1
          (admin_add_slot_excel 1 " Fair " "Quad" (Date 2025 4 2) (Time 22 0 0 0)
             (Time 1 0 0 0) 3 "Lee" book).2).1 = Ok slots
       /\ exists s,
            s ∈ slots /\ CUSA.row s = first_open_row book' headers 1
            /\ CUSA.event s = strip " Fair "
            /\ start_dt s = slot_datetime (Date 2025 4 2) (Time 22 0 0 0)
            /\ dt_lt (start_dt s) (end_dt s) = true
            /\ is_taken s = false.
Proof.
  assert (strip " Fair " <> "") as Hev by (vm_compute; discriminate).
  assert (present headers
            (["EVENT"; "DATE"; "START TIME"; "LOCATION"; "END TIME"; "HOURS";
              "CONTACT PERSON"; "FIRST NAME"; "LAST NAME"; "COMPLETED"]
             ++ TRACK_HEADERS)) as Hp by all_present.
  split; [exact Hev |].
  set (r := (list_slots float_of_int float_of_str 1
               (admin_add_slot_excel 1 " Fair " "Quad" (Date 2025 4 2)
                  (Time 22 0 0 0) (Time 1 0 0 0) 3 "Lee" book).2).1).
  assert (r = Ok (unwrap [] r)) as Hlist by (apply unwrap_eq; computed).
  exists (unwrap [] r). split; [exact Hlist |].
  destruct (added_slot_is_listed float_of_int float_of_str book 1 book' headers
              " Fair " "Quad" (Date 2025 4 2) (Time 22 0 0 0) (Time 1 0 0 0) 3 "Lee"
              (unwrap [] r) book_provisioned book_headers Hp Hev Hlist)
    as (s & Hs & Hrow & Hevs & _ & _ & _ & Hstart & _ & Hlt & Hopen & _).
  exists s. split; [exact Hs |]. split; [exact Hrow |]. split; [exact Hevs |].
  split; [exact Hstart |]. split; [exact Hlt | exact Hopen].
Defined.

Lemma sweep_mail_addressed_witness :
  smtp_ready cfg = true
  /\ main rand deliver cfg clock w0 = (Ok 1, w1)
  /\ exists msgs,
       outbox w1 = (outbox w0 ++ msgs)%list
       /\ forall m, m ∈ msgs ->
            HEADER_ROW cfg < msg_row m
            /\ msg_to m = cell_text (field (file w0) headers (msg_row m) "EMAIL")
            /\ msg_to m <> ""
            /\ truthy (field (file w0) headers (msg_row m)
                         (flag_header (msg_kind m))) = false.
Proof.
  assert (smtp_ready cfg = true) as Hr by computed.
  split; [exact Hr |]. split; [exact swept_once |].
  destruct (sweep_mail_addressed rand deliver cfg clock w0 (Ok 1) w1 reserved
              headers Hr reserved_provisioned reserved_headers swept_once)
    as (msgs & Ho & Hall).
  exists msgs. split; [exact Ho |]. intros m Hm.
  pose proof (Hall m Hm) as Hmail. cbv zeta in Hmail.
  destruct Hmail as (Hrow & _ & Hto & Hne & _ & _ & Hflag).
  split; [exact Hrow |]. split; [exact Hto |]. split; [exact Hne | exact Hflag].
Defined.

Lemma sweep_one_reminder_per_row_witness :
  smtp_ready cfg = true
  /\ main rand deliver cfg clock w0 = (Ok 1, w1)
  /\ exists msgs,
       outbox w1 = (outbox w0 ++ msgs)%list
       /\ 1 = length msgs
       /\ forall r, length (mail_of_row msgs r) <= 1.
Proof.
  assert (smtp_ready cfg = true) as Hr by computed.
  split; [exact Hr |]. split; [exact swept_once |].
  exact (sweep_one_reminder_per_row rand deliver cfg clock w0 1 w1 reserved
           headers Hr reserved_provisioned reserved_headers swept_once).
Defined.

Lemma sweep_keeps_reservations_witness :
  smtp_ready cfg = true
  /\ main rand deliver cfg clock w0 = (Ok 1, w1)
  /\ get_headers (file w1) (HEADER_ROW cfg) = Ok headers
  /\ (forall r name, r <> HEADER_ROW cfg ->
        upper name ∉ ["GCAL_UID"; "SENT_24H"; "SENT_1H"] ->
        field (file w1) headers r name = field (file w0) headers r name)
  /\ (forall r c, r <> HEADER_ROW cfg -> considered (file w0) headers r = false ->
        value_at (file w1) r c = value_at (file w0) r c).
Proof.
  assert (smtp_ready cfg = true) as Hr by computed.
  split; [exact Hr |]. split; [exact swept_once |].
  exact (sweep_keeps_reservations rand deliver cfg clock w0 1 w1 reserved
           headers Hr reserved_provisioned reserved_headers swept_once).
Defined.

Lemma garbled_provisioned : provision garbled 1 = Ok garbled.
Proof. computed. Qed.

Lemma garbled_headers : get_headers garbled 1 = Ok headers.
Proof. computed. Qed.

Lemma sweep_aborts_on_unreadable_row_witness :
  smtp_ready cfg = true
  /\ considered (file w_garbled) headers 2 = true
  /\ field (file w_garbled) headers 2 "DATE" = VStr "soon"
  /\ parse_excel_date (field (file w_garbled) headers 2 "DATE") = None
  /\ (exists e w', main rand deliver cfg clock w_garbled = (Err e, w')
                   /\ file w' = file w_garbled)
  /\ listable garbled headers 2 = false.
Proof.
  assert (smtp_ready cfg = true) as Hr by computed.
  assert (considered (file w_garbled) headers 2 = true) as Hc by computed.
  assert (parse_excel_date (field (file w_garbled) headers 2 "DATE") = None)
    as Hd by computed.
  assert (HEADER_ROW cfg < 2) as Hrow by (vm_compute; lia).
  split; [exact Hr |]. split; [exact Hc |]. split; [computed |].
  split; [exact Hd |].
  exact (sweep_aborts_on_unreadable_row rand deliver cfg clock w_garbled garbled
           headers 2 Hr garbled_provisioned garbled_headers Hrow Hc (or_introl Hd)).
Defined.

Lemma cancelled_slot_gets_no_mail_witness :
  lower (cell_text (field reserved headers 2 "EMAIL"))
  = lower (strip " alice@cleary.edu")
  /\ cell_text (field reserved headers 2 "COMPLETED") = ""
  /\ exists msgs,
       outbox (main rand deliver cfg clock w_cancelled).2
       = (outbox w_cancelled ++ msgs)%list
       /\ mail_of_row msgs 2 = []
       /\ forall c, value_at (file (main rand deliver cfg clock w_cancelled).2) 2 c
                    = value_at cancelled 2 c.
Proof.
  assert (lower (cell_text (field reserved headers 2 "EMAIL"))
          = lower (strip " alice@cleary.edu")) as Hem by computed.
  assert (cell_text (field reserved headers 2 "COMPLETED") = "") as Hco by computed.
  assert (present headers (["FIRST NAME"; "LAST NAME"; "COMPLETED"] ++ TRACK_HEADERS))
    as Hp by all_present.
  split; [exact Hem |]. split; [exact Hco |].
  exact (cancelled_slot_gets_no_mail reserved 1 reserved headers 2
           " alice@cleary.edu" reserved_provisioned reserved_headers Hp
           ltac:(lia) Hem Hco rand deliver cfg clock w_cancelled _ _
           eq_refl eq_refl (surjective_pairing _)).
Defined.

Lemma reserved_slot_is_reminded_witness :
  cell_text (field book headers 2 "FIRST NAME") = ""
  /\ cell_text (field book headers 2 "LAST NAME") = ""
  /\ start_of book headers 2 = Some (DateTime (Date 2025 3 1) (Time 10 0 0 0))
  /\ strip (u_email alice) <> ""
  /\ main rand deliver cfg clock w0 = (Ok 1, w1)
  /\ exists msgs,
       outbox w1 = (outbox w0 ++ msgs)%list
       /\ (forall k, length (sent_for msgs 2 k)
                     = if due k (dt_sub (DateTime (Date 2025 3 1) (Time 10 0 0 0))
                                   clock)
                       then 1 else 0)
       /\ (forall m, m ∈ msgs -> msg_row m = 2 ->
             msg_to m = lower (strip (u_email alice)))
       /\ forall k, field (file w1) headers 2 (flag_header k)
                    = VBool (due k (dt_sub (DateTime (Date 2025 3 1) (Time 10 0 0 0))
                                      clock)).
Proof.
  assert (cell_text (field book headers 2 "FIRST NAME") = "") as Hfn by computed.
  assert (cell_text (field book headers 2 "LAST NAME") = "") as Hln by computed.
  assert (truthy (field book headers 2 "EVENT") = true) as Hev by computed.
  assert (truthy (field book headers 2 "END TIME") = true) as Hen by computed.
  assert (start_of book headers 2
          = Some (DateTime (Date 2025 3 1) (Time 10 0 0 0))) as Hs by computed.
  assert (strip (u_email alice) <> "") as Hmail by (vm_compute; discriminate).
  assert (smtp_ready cfg = true) as Hr by computed.
  assert (present headers (["FIRST NAME"; "LAST NAME"] ++ TRACK_HEADERS)) as Hp
    by all_present.
  split; [exact Hfn |]. split; [exact Hln |]. split; [exact Hs |].
  split; [exact Hmail |]. split; [exact swept_once |].
  destruct (reserved_slot_is_reminded book 1 book' headers 2 alice clock
              (DateTime (Date 2025 3 1) (Time 10 0 0 0))
              book_provisioned book_headers Hp ltac:(lia) Hfn Hln Hev Hen Hs Hmail
              rand deliver cfg clock w0 1 w1 eq_refl Hr eq_refl swept_once)
    as (msgs & Ho & Hlen & Hto & Hflags & _).
  exists msgs. split; [exact Ho |]. split; [exact Hlen |].
  split; [exact Hto | exact Hflags].
Defined.

Lemma sanitize_key_separators_witness :
  is_key_char (lower_char ".") = false /\ is_key_char (lower_char "_") = false
  /\ sanitize_key ("a" +:+ String "." "b@x.edu")
     = sanitize_key ("a" +:+ String "_" "b@x.edu")
  /\ profile_pic_path "pics" ("a" +:+ String "." "b@x.edu")
     = profile_pic_path "pics" ("a" +:+ String "_" "b@x.edu").
Proof.
  assert (is_key_char (lower_char ".") = false) as H1 by reflexivity.
  assert (is_key_char (lower_char "_") = false) as H2 by reflexivity.
  split; [exact H1 |]. split; [exact H2 |].
  exact (sanitize_key_separators "a" "b@x.edu" "." "_" "pics" H1 H2).
Defined.

Lemma make_ics_lines_witness :
  (forall y : nat,
     Forall (fun c => is_digit c = true) (list_ascii_of_string (pretty y)))
  /\ length (split_on "010"
               (make_ics (fun y : nat => pretty y) ("Open" +:+ newline +:+ "House")
                  (DateTime (Date 2025 3 1) (Time 10 0 0 0))
                  (DateTime (Date 2025 3 1) (Time 11 0 0 0))
                  "Commons" "Contact: Kevin" "uid-1" clock))
     = 16 + 0 + 1 + 0 + 0.
Proof.
  split; [exact pretty_nat_digits |].
  exact (proj1 (make_ics_lines (fun y : nat => pretty y) pretty_nat_digits
                  ("Open" +:+ newline +:+ "House")
                  (DateTime (Date 2025 3 1) (Time 10 0 0 0))
                  (DateTime (Date 2025 3 1) (Time 11 0 0 0))
                  "Commons" "Contact: Kevin" "uid-1" clock)).
Defined.

Lemma members_ok : accounts_ok members.
Proof.
  split.
  - apply (bool_decide_unpack _). vm_compute. exact I.
  - repeat constructor.
Qed.

Lemma accounts_stay_well_formed_witness :
  accounts_ok members
  /\ (forall fn ln e pw adm,
        accounts_ok (create_user toy_gensalt toy_hashpw fn ln e pw adm members).2)
  /\ (forall e pw, (authenticate toy_checkpw e pw members).2 = members)
  /\ (forall e adm, accounts_ok (set_user_admin e adm members).2)
  /\ accounts_ok (ensure_forced_admins members).2.
Proof.
  split; [exact members_ok |].
  exact (accounts_stay_well_formed toy_gensalt toy_hashpw toy_checkpw members
           members_ok).
Defined.

Lemma signup_then_login_witness :
  create_user toy_gensalt toy_hashpw " Ada" "Lovelace " " Ada@Cleary.edu"
    "analytical" false no_members
  = (Ok (true, "Account created."), members)
  /\ lower (strip "ADA@cleary.edu ") = lower (strip " Ada@Cleary.edu")
  /\ toy_checkpw "analytical" "salt0$analytical" = Ok true
  /\ toy_checkpw "analytic" "salt0$analytical" = Ok false
  /\ (exists a,
        authenticate toy_checkpw "ADA@cleary.edu " "analytical" members
        = (Ok (Some a), members)
        /\ u_id (acc_user a) = "1"
        /\ u_first_name (acc_user a) = "Ada"
        /\ u_email (acc_user a) = "ada@cleary.edu"
        /\ acc_is_admin a = false)
  /\ authenticate toy_checkpw "ADA@cleary.edu " "analytic" members
     = (Ok None, members).
Proof.
  assert (create_user toy_gensalt toy_hashpw " Ada" "Lovelace " " Ada@Cleary.edu"
            "analytical" false no_members
          = (Ok (true, "Account created."), members)) as Hrun
    by (apply pair_eq; computed).
  assert (lower (strip "ADA@cleary.edu ") = lower (strip " Ada@Cleary.edu"))
    as Hem by computed.
  assert (toy_checkpw "analytical" "salt0$analytical" = Ok true) as Hyes
    by computed.
  assert (toy_checkpw "analytic" "salt0$analytical" = Ok false) as Hno
    by computed.
  split; [exact Hrun |]. split; [exact Hem |]. split; [exact Hyes |].
  split; [exact Hno |].
  destruct (signup_then_login toy_gensalt toy_hashpw toy_checkpw _ _ _ _ _ _ _ _
              "ADA@cleary.edu " Hrun Hem) as (h & Hh & Hin & Hout).
  assert (h = "salt0$analytical") as -> by (vm_compute in Hh; congruence).
  split; [| exact (Hout _ Hno)].
  destruct (Hin _ Hyes) as (a & Hlog & Hid & Hfn & _ & Hmail & _ & Hadm).
  exists a. split; [exact Hlog |]. split; [exact Hid |]. split; [exact Hfn |].
  split; [exact Hmail | exact Hadm].
Defined.

Lemma one_account_per_email_witness :
  lower (strip "ADA@cleary.edu ") ∈ r_email <$> table members
  /\ table (create_user toy_gensalt toy_hashpw "Augusta" "King" "ADA@cleary.edu "
              "difference" true members).2
     = table members
  /\ (create_user toy_gensalt toy_hashpw "Augusta" "King" "ADA@cleary.edu "
        "difference" true members).1
     = Ok (false, "That email is already registered.").
Proof.
  assert (lower (strip "ADA@cleary.edu ") ∈ r_email <$> table members) as Hin
    by (apply (bool_decide_unpack _); vm_compute; exact I).
  split; [exact Hin |].
  pose proof (one_account_per_email toy_gensalt toy_hashpw "Augusta" "King"
                "ADA@cleary.edu " "difference" true members Hin) as Hone.
  cbv zeta in Hone. destruct Hone as (Htable & _ & Hmsg).
  split; [exact Htable |].
  apply Hmsg; [reflexivity | reflexivity | reflexivity | vm_compute; lia |].
  eexists. reflexivity.
Defined.

Lemma reply_is_appended_witness :
  select_post board 1 = Some first_post
  /\ p_deleted first_post <> 1%Z /\ p_locked first_post <> 1%Z
  /\ exists y,
       (create_reply 1 "ada@cleary.edu" "Ada" " Welcome! " clock board).1 = Done tt
       /\ y_body y = strip " Welcome! "
       /\ Forall (fun y' => y_id y' < y_id y) (replies board)
       /\ forall incl,
            list_replies 1 incl
              (create_reply 1 "ada@cleary.edu" "Ada" " Welcome! " clock board).2
            = (list_replies 1 incl board ++ [y])%list.
Proof.
  assert (select_post board 1 = Some first_post) as Hp by computed.
  assert (p_deleted first_post <> 1%Z) as Hd by (vm_compute; discriminate).
  assert (p_locked first_post <> 1%Z) as Hl by (vm_compute; discriminate).
  split; [exact Hp |]. split; [exact Hd |]. split; [exact Hl |].
  pose proof (reply_is_appended 1 "ada@cleary.edu" "Ada" " Welcome! " clock board
                first_post Hp Hd Hl) as Hreply.
  cbv zeta in Hreply.
  destruct Hreply as (y & Hrun & _ & Hbody & _ & _ & _ & _ & Hkey & Hlist & _).
  exists y. split; [exact Hrun |]. split; [exact Hbody |].
  split; [exact Hkey | exact Hlist].
Defined.

Lemma lock_closes_thread_witness :
  select_post board 1 = Some first_post /\ p_deleted first_post <> 1%Z
  /\ (forall ae an body now,
        create_reply 1 ae an body now (set_lock 1 true board)
        = (Raised "Thread is locked.", set_lock 1 true board))
  /\ (forall ae an body now,
        (create_reply 1 ae an body now (set_lock 1 false board)).1 = Done tt).
Proof.
  assert (select_post board 1 = Some first_post) as Hp by computed.
  assert (p_deleted first_post <> 1%Z) as Hd by (vm_compute; discriminate).
  split; [exact Hp |]. split; [exact Hd |].
  destruct (lock_closes_thread 1 board first_post Hp Hd) as (Hlock & Hopen & _).
  split; [exact Hlock | exact Hopen].
Defined.

Lemma reserved_listing :
  (list_slots float_of_int float_of_str 1 reserved).1
  = Ok [alice_slot; bob_slot].
Proof. computed. Qed.

Lemma my_reservation_cancels_witness :
  (list_slots float_of_int float_of_str 1 reserved).1 = Ok [alice_slot; bob_slot]
  /\ alice_slot ∈ my_res "Alice@Cleary.EDU" [alice_slot; bob_slot]
  /\ cancel_excel_reservation 1 2 "Alice@Cleary.EDU"
       (list_slots float_of_int float_of_str 1 reserved).2
     = (Ok (true, "Cancelled."), cancelled_sheet reserved headers 2).
Proof.
  assert (alice_slot ∈ my_res "Alice@Cleary.EDU" [alice_slot; bob_slot]) as Hmine.
  { assert (my_res "Alice@Cleary.EDU" [alice_slot; bob_slot] = [alice_slot]) as ->
      by computed.
    apply list_elem_of_here. }
  assert (present headers (["FIRST NAME"; "LAST NAME"; "COMPLETED"] ++ TRACK_HEADERS))
    as Hp by all_present.
  split; [exact reserved_listing |]. split; [exact Hmine |].
  exact (my_reservation_cancels float_of_int float_of_str reserved 1 reserved
           headers [alice_slot; bob_slot] "Alice@Cleary.EDU" alice_slot
           reserved_provisioned reserved_headers Hp reserved_listing Hmine).
Defined.

Lemma reserved_slot_is_mine_witness :
  cell_text (field book headers 2 "FIRST NAME") = ""
  /\ cell_text (field book headers 2 "LAST NAME") = ""
  /\ listable book headers 2 = true
  /\ strip (u_email carol) = u_email carol
  /\ strip (u_first_name carol) <> ""
  /\ exists (slots : list (@Slot Z)) s,
       (list_slots float_of_int float_of_str 1
          (reserve_excel_slot 1 2 carol clock book).2).1 = Ok slots
       /\ s ∈ slots /\ CUSA.row s = 2
       /\ CUSA.email s = lower (u_email carol)
       /\ s ∈ my_res (u_email carol) slots
       /\ forall up search now, s ∉ filtered up false search now slots.
Proof.
  assert (cell_text (field book headers 2 "FIRST NAME") = "") as Hfn by computed.
  assert (cell_text (field book headers 2 "LAST NAME") = "") as Hln by computed.
  assert (listable book headers 2 = true) as Hl by computed.
  assert (strip (u_email carol) = u_email carol) as Hem by computed.
  assert (strip (u_first_name carol) <> "") as Hname by (vm_compute; discriminate).
  assert (present headers (["FIRST NAME"; "LAST NAME"] ++ TRACK_HEADERS)) as Hp
    by all_present.
  do 4 (split; [assumption |]). split; [exact Hname |].
  set (r := (list_slots float_of_int float_of_str 1
               (reserve_excel_slot 1 2 carol clock book).2).1).
  assert (r = Ok (unwrap [] r)) as Hlist by (apply unwrap_eq; computed).
  destruct (reserved_slot_is_mine float_of_int float_of_str book 1 book' headers 2
              carol clock (unwrap [] r) book_provisioned book_headers Hp
              ltac:(lia) Hfn Hln Hl Hem (or_introl Hname) Hlist)
    as (s & Hs & Hrow & _ & _ & _ & Hmail & Hmine & Hshown).
  exists (unwrap [] r), s. split; [exact Hlist |]. split; [exact Hs |].
  split; [exact Hrow |]. split; [exact Hmail |]. split; [exact Hmine | exact Hshown].
Defined.
